(** * The feature pipeline of [data_loader.py]

    A shallow embedding of the [DataLoader] class: the data frame it works
    on, the library operations it calls (scipy's [winsorize], scikit-learn's
    [MinMaxScaler], pandas' [shift], [groupby(...).mean()], [merge] and
    [drop], numpy's [sin], [cos] and [round]), its methods and [main],
    followed by the properties of the pipeline.

    Numbers.  A float64 cell is a rational number or NaN: arithmetic is exact
    (binary rounding is not modelled) and the infinities are left out, the
    pipeline never produces one from finite input.  The sines and cosines are
    kept as exact symbolic values and read in the real numbers. *)

From Stdlib Require Import Rbase Rfunctions Rtrigo_def Rtrigo1 R_Ifp Lra.
From Stdlib Require Import ZArith QArith Qround Qreals Lqa Lia String.
From stdpp Require Import base list sorting strings.

Local Open Scope string_scope.
Local Open Scope list_scope.
Local Open Scope Z_scope.

(** ** Python results *)

Inductive exn :=
| KeyError (column : string)
| IndexError
| ValueError
| TypeError
| NotFittedError.

Inductive result (A : Type) :=
| Ok (a : A)
| Raise (e : exn).
Arguments Ok {A} a.
Arguments Raise {A} e.

#[global] Instance result_ret : MRet result := @Ok.
#[global] Instance result_bind : MBind result :=
  fun A B f r => match r with Ok a => f a | Raise e => Raise e end.

(** ** Cells and columns *)

(** float64: a finite number or NaN (pandas' null for a float column). *)
Definition float := option Q.
Definition NaN : float := None.

Definition fadd (x y : float) : float :=
  match x, y with Some a, Some b => Some (a + b)%Q | _, _ => NaN end.
Definition fsub (x y : float) : float :=
  match x, y with Some a, Some b => Some (a - b)%Q | _, _ => NaN end.
Definition fmul (x y : float) : float :=
  match x, y with Some a, Some b => Some (a * b)%Q | _, _ => NaN end.
(** A zero divisor gives NaN or an infinity, neither is a finite number;
    every divisor of the pipeline's float columns is non-zero. *)
Definition fdiv (x y : float) : float :=
  match x, y with
  | Some a, Some b => if Qeq_bool b 0 then NaN else Some (a / b)%Q
  | _, _ => NaN
  end.

(** [x < y] on floats: false as soon as one side is NaN. *)
Definition fltb (x y : float) : bool :=
  match x, y with
  | Some a, Some b => negb (Qle_bool b a)
  | _, _ => false
  end.

(** A timestamp is the instant [pd.to_datetime] parses the text to, in
    seconds since 1970-01-01 00:00; a date is a day number since then.
    There is no missing timestamp (NaT): [start_time] is a required
    column of timestamps. *)
Definition Timestamp := Z.
Definition Date := Z.

(** An angle [q * pi]; [None] when it is not finite. *)
Definition angle := option Q.

(** The values of the cyclical encodings: the sine or cosine of [q * pi],
    possibly rounded to [ndigits] decimals, or NaN. *)
Inductive real :=
| r_nan
| r_sin (q : Q)
| r_cos (q : Q)
| r_round (ndigits : Z) (x : real).

Inductive Series :=
| Floats (xs : list float)
| Ints (xs : list Z)
| Times (xs : list Timestamp)
| Dates (xs : list Date)
| Reals (xs : list real).

Definition Series_len (s : Series) : nat :=
  match s with
  | Floats xs => length xs
  | Ints xs => length xs
  | Times xs => length xs
  | Dates xs => length xs
  | Reals xs => length xs
  end.

(** ** Data frames

    A frame is its columns in order: [data[c] = s] overwrites the column
    [c] in place when it exists and appends it otherwise. *)
Definition DataFrame := list (string * Series).

Definition column_names (data : DataFrame) : list string := map fst data.

Fixpoint getitem (data : DataFrame) (c : string) : result Series :=
  match data with
  | [] => Raise (KeyError c)
  | (k, s) :: rest => if String.eqb k c then Ok s else getitem rest c
  end.

Fixpoint setitem (data : DataFrame) (c : string) (s : Series) : DataFrame :=
  match data with
  | [] => [(c, s)]
  | (k, s') :: rest =>
      if String.eqb k c then (k, s) :: rest else (k, s') :: setitem rest c s
  end.

(** Every column has [n] rows. *)
Definition has_rows (n : nat) (data : DataFrame) : Prop :=
  Forall (fun cs => Series_len (snd cs) = n) data.

(** A numeric column read as floats. *)
Definition as_floats (s : Series) : result (list float) :=
  match s with
  | Floats xs => Ok xs
  | Ints zs => Ok (map (fun z => Some (inject_Z z)) zs)
  | _ => Raise TypeError
  end.

(** ** Python indexing *)

(** [l[i]]: a negative index counts from the end, an index out of range
    raises. *)
Definition py_index {A} (l : list A) (i : Z) : result A :=
  let n := Z.of_nat (length l) in
  let j := if i <? 0 then n + i else i in
  if (j <? 0) || (n <=? j) then Raise IndexError
  else match l !! Z.to_nat j with Some x => Ok x | None => Raise IndexError end.

(** The start of a slice bound [k] in a sequence of [n] elements. *)
Definition py_bound (n : nat) (k : Z) : nat :=
  Z.to_nat (if k <? 0 then Z.max 0 (Z.of_nat n + k) else k).

(** [int(x)] truncates towards zero. *)
Definition py_int (x : Q) : Z :=
  if Qle_bool 0 x then Qfloor x else Qceiling x.

(** ** numpy *)

Module np.

(** The order [sort] and [argsort] put floats in: numbers ascending, NaN
    last. *)
Definition float_le (x y : float) : Prop :=
  match x, y with
  | _, None => True
  | None, Some _ => False
  | Some a, Some b => (a <= b)%Q
  end.

#[global] Instance float_le_dec x y : Decision (float_le x y).
Proof.
  destruct x as [a|], y as [b|]; simpl;
    [ destruct (Qlt_le_dec b a); [right; lra | left; lra]
    | left; exact I | right; tauto | left; exact I ].
Defined.

Definition by_value (p q : float * nat) : Prop := float_le p.1 q.1.

#[global] Instance by_value_dec p q : Decision (by_value p q) :=
  float_le_dec p.1 q.1.

(** [a.argsort()]: the positions of [a] in ascending order of their
    values.  Which of two equal values comes first is left open by numpy;
    here the merge sort decides. *)
Definition argsort (a : list float) : list nat :=
  (merge_sort by_value (zip a (seq 0 (length a)))).*2.

(** [np.sort(a)]: the values of [a] in that order. *)
Definition sort (a : list float) : list float :=
  (merge_sort by_value (zip a (seq 0 (length a)))).*1.

(** [a[idx] = v] for a list of positions [idx]. *)
Definition put (a : list float) (idx : list nat) (v : float) : list float :=
  foldl (fun acc i => <[i:=v]> acc) a idx.

(** [np.nanmin], [np.nanmax]: NaN is skipped, an all-NaN (or empty) input
    gives NaN. *)
Definition nanmin (xs : list float) : float :=
  foldr (fun x acc =>
           match x, acc with
           | Some a, Some b => Some (if Qle_bool a b then a else b)
           | Some a, None => Some a
           | None, _ => acc
           end) NaN xs.

Definition nanmax (xs : list float) : float :=
  foldr (fun x acc =>
           match x, acc with
           | Some a, Some b => Some (if Qle_bool a b then b else a)
           | Some a, None => Some a
           | None, _ => acc
           end) NaN xs.

(** [np.finfo(np.float64).eps] *)
Definition eps : Q := 1 # 4503599627370496.

(** [np.sin], [np.cos]: NaN at an angle that is not finite. *)
Definition sin (a : angle) : real :=
  match a with Some q => r_sin q | None => r_nan end.
Definition cos (a : angle) : real :=
  match a with Some q => r_cos q | None => r_nan end.

End np.

(** ** scipy.stats.mstats *)

Module mstats.

(** [_winsorize1D] with [low_include] and [up_include] true and no NaN
    policy at work: the [lowidx] smallest entries are set to the entry of
    rank [lowidx], the entries of rank [upidx] and above to the one of
    rank [upidx - 1].  [int(limit * n)] is taken on the exact product; for
    the limit 0.005 the float product truncates to the same [n // 200]. *)
Definition winsorize1D (a : list float) (low_limit up_limit : Q)
  : result (list float) :=
  let n := length a in
  let idx := np.argsort a in
  a1 ← (if Qeq_bool low_limit 0 then Ok a
        else
          let lowidx := py_int (low_limit * inject_Z (Z.of_nat n)) in
          i ← py_index idx lowidx;
          v ← py_index a (Z.of_nat i);
          Ok (np.put a (take (py_bound n lowidx) idx) v));
  let upidx := Z.of_nat n - py_int (inject_Z (Z.of_nat n) * up_limit) in
  j ← py_index idx (upidx - 1);
  v ← py_index a1 (Z.of_nat j);
  Ok (np.put a1 (drop (py_bound n upidx) idx) v).

(** [winsorize(a, limits=[lolim, uplim])] *)
Definition winsorize (a : list float) (limits : Q * Q) : result (list float) :=
  let '(lolim, uplim) := limits in
  if negb (Qle_bool 0 lolim && Qle_bool lolim 1) then Raise ValueError
  else if negb (Qle_bool 0 uplim && Qle_bool uplim 1) then Raise ValueError
  else winsorize1D a lolim uplim.

End mstats.

(** ** sklearn.preprocessing.MinMaxScaler *)

Module sklearn.

(** The attributes [fit] stores, one entry per column. *)
Record fitted := {
  data_min_ : list float;
  data_max_ : list float;
  data_range_ : list float;
  scale_ : list float;
  min_ : list float
}.

Record MinMaxScaler := {
  feature_range : Q * Q;
  attrs : option fitted
}.

Definition new (feature_range : Q * Q) : MinMaxScaler :=
  {| feature_range := feature_range; attrs := None |}.

(** [_handle_zeros_in_scale]: a range below [10 * eps] counts as a
    constant column and is replaced by 1. *)
Definition handle_zeros_in_scale (scale : float) : float :=
  if fltb scale (Some (10 * np.eps)%Q) then Some 1%Q else scale.

(** The number of rows of a table given as its columns. *)
Definition n_samples (X : list (list float)) : nat :=
  match X with [] => 0%nat | col :: _ => length col end.

(** [scaler.fit(X)]: a table without rows is refused. *)
Definition fit (self : MinMaxScaler) (X : list (list float))
  : result MinMaxScaler :=
  if (n_samples X =? 0)%nat then Raise ValueError
  else
    let '(fmin, fmax) := feature_range self in
    let data_min := map np.nanmin X in
    let data_max := map np.nanmax X in
    let data_range := zip_with fsub data_max data_min in
    let scale := map (fun r => fdiv (Some (fmax - fmin)%Q)
                                    (handle_zeros_in_scale r)) data_range in
    let min := zip_with (fun m s => fsub (Some fmin) (fmul m s))
                        data_min scale in
    Ok {| feature_range := feature_range self;
          attrs := Some {| data_min_ := data_min; data_max_ := data_max;
                           data_range_ := data_range; scale_ := scale;
                           min_ := min |} |}.

(** One column through the affine map; there is no clipping. *)
Definition transform_column (scale min : float) (col : list float)
  : list float :=
  map (fun x => fadd (fmul x scale) min) col.

(** [scaler.transform(X)] *)
Definition transform (self : MinMaxScaler) (X : list (list float))
  : result (list (list float)) :=
  match attrs self with
  | None => Raise NotFittedError
  | Some f =>
      if (n_samples X =? 0)%nat then Raise ValueError
      else if negb (length X =? length (scale_ f))%nat then Raise ValueError
      else Ok (zip_with (fun sm col => transform_column sm.1 sm.2 col)
                        (zip (scale_ f) (min_ f)) X)
  end.

End sklearn.

(** ** pandas *)

Module pd.

(** [pd.to_datetime(column)]: the column holds timestamps. *)
Definition to_datetime (s : Series) : result (list Timestamp) :=
  match s with
  | Times ts => Ok ts
  | _ => Raise ValueError
  end.

Definition as_ints (s : Series) : result (list Z) :=
  match s with
  | Ints zs => Ok zs
  | _ => Raise TypeError
  end.

(** *** The [.dt] accessors *)

Definition dt_hour (t : Timestamp) : Z := (t mod 86400) / 3600.
Definition dt_minute (t : Timestamp) : Z := (t mod 3600) / 60.
Definition dt_date (t : Timestamp) : Date := t / 86400.
(** 1970-01-01 was a Thursday; Monday is 0. *)
Definition dt_day_of_week (t : Timestamp) : Z := (t / 86400 + 3) mod 7.

(** Year, month and day of a day number (proleptic Gregorian calendar). *)
Definition civil_from_days (days : Z) : Z * Z * Z :=
  let z := days + 719468 in
  let era := z / 146097 in
  let doe := z - era * 146097 in
  let yoe := (doe - doe / 1460 + doe / 36524 - doe / 146096) / 365 in
  let doy := doe - (365 * yoe + yoe / 4 - yoe / 100) in
  let mp := (5 * doy + 2) / 153 in
  let d := doy - (153 * mp + 2) / 5 + 1 in
  let m := if mp <? 10 then mp + 3 else mp - 9 in
  let y := yoe + era * 400 + (if m <=? 2 then 1 else 0) in
  (y, m, d).

Definition is_leapyear (y : Z) : bool :=
  ((y mod 4 =? 0) && negb (y mod 100 =? 0)) || (y mod 400 =? 0).

Definition month_offset (leap : bool) : list Z :=
  if leap then [0; 31; 60; 91; 121; 152; 182; 213; 244; 274; 305; 335]
  else [0; 31; 59; 90; 120; 151; 181; 212; 243; 273; 304; 334].

Definition get_day_of_year (y m d : Z) : Z :=
  nth (Z.to_nat (m - 1)) (month_offset (is_leapyear y)) 0 + d.

Definition dt_day_of_year (t : Timestamp) : Z :=
  let '(y, m, d) := civil_from_days (dt_date t) in get_day_of_year y m d.

(** *** Series *)

(** [s.shift(periods)] for [periods >= 0]: the values move down, the
    first [periods] rows become null, the length is kept. *)
Definition shift (periods : nat) (xs : list float) : list float :=
  take (length xs) (replicate periods NaN ++ xs).

(** [s.max()] of an integer column; NaN on an empty one. *)
Definition max (zs : list Z) : option Z :=
  match zs with
  | [] => None
  | z :: rest => Some (foldr Z.max z rest)
  end.

(** [s.mean()]: nulls are skipped, the mean of no value is NaN. *)
Definition mean (xs : list float) : float :=
  let vs := omap id xs in
  match vs with
  | [] => NaN
  | _ => Some (foldr Qplus 0%Q vs / inject_Z (Z.of_nat (length vs)))%Q
  end.

(** [round(s, ndigits)] on a column of reals. *)
Definition round (ndigits : Z) (x : real) : real :=
  match x with
  | r_nan => r_nan
  | _ => r_round ndigits x
  end.

(** *** Angles: [2 * np.pi * s / s.max()] *)

Definition two_pi : angle := Some 2%Q.

Definition angle_mul (a : angle) (z : Z) : angle :=
  match a with Some q => Some (q * inject_Z z)%Q | None => None end.

(** Division by the column's maximum: a zero (or missing) maximum leaves
    no finite angle. *)
Definition angle_div (a : angle) (m : option Z) : angle :=
  match a, m with
  | Some q, Some z => if z =? 0 then None else Some (q / inject_Z z)%Q
  | _, _ => None
  end.

(** *** groupby *)

Fixpoint insert_key (d : Date) (ks : list Date) : list Date :=
  match ks with
  | [] => [d]
  | k :: rest =>
      if d <? k then d :: ks
      else if d =? k then ks
      else k :: insert_key d rest
  end.

(** The group keys: the distinct dates, ascending. *)
Definition group_keys (dates : list Date) : list Date :=
  foldr insert_key [] dates.

(** The values of the rows whose key is [k], in row order. *)
Definition group_values (k : Date) (dates : list Date) (ys : list float)
  : list float :=
  (filter (fun p => p.1 = k) (zip dates ys)).*2.

(** [data.groupby([by]).col.mean()]: a series indexed by the sorted group
    keys, given as its index and its values. *)
Definition groupby_mean (data : DataFrame) (by_ col : string)
  : result (list Date * list float) :=
  ks ← getitem data by_;
  match ks with
  | Dates dates =>
      ys ← getitem data col;
      ys ← as_floats ys;
      let keys := group_keys dates in
      Ok (keys, map (fun k => mean (group_values k dates ys)) keys)
  | _ => Raise TypeError
  end.

(** *** Frames *)

(** [frame.rename(columns={old: new})] *)
Definition rename (data : DataFrame) (old new : string) : DataFrame :=
  map (fun cs => if String.eqb cs.1 old then (new, cs.2) else cs) data.

(** The rows of a column at the positions [idx]. *)
Definition take_rows (idx : list nat) (s : Series) : Series :=
  match s with
  | Floats xs => Floats (omap (fun i => xs !! i) idx)
  | Ints xs => Ints (omap (fun i => xs !! i) idx)
  | Times xs => Times (omap (fun i => xs !! i) idx)
  | Dates xs => Dates (omap (fun i => xs !! i) idx)
  | Reals xs => Reals (omap (fun i => xs !! i) idx)
  end.

(** The row pairs of an inner join: every left row, in the order of the
    left frame, with each right row of the same key. *)
Definition inner_join (lk rk : list Date) : list (nat * nat) :=
  mjoin (imap (fun i k =>
                 omap (fun p => if decide (p.2 = k) then Some (i, p.1) else None)
                      (imap pair rk)) lk).

Definition has_column (data : DataFrame) (c : string) : bool :=
  existsb (String.eqb c) (column_names data).

(** [left.merge(right, left_on=on, right_on=on)]: an inner join on a date
    column, which keeps the order of the left keys as pandas documents it.
    (Releases before 2.2 put the rows of one key together, keys in order of
    first appearance; that is the same order whenever the rows of a date are
    next to each other, as in a table sorted by time.)  The key column
    appears once; another column name the two frames share gets the
    suffixes [_x] and [_y]. *)
Definition merge (left right : DataFrame) (on : string) : result DataFrame :=
  lk ← getitem left on;
  rk ← getitem right on;
  match lk, rk with
  | Dates lk, Dates rk =>
      let rows := inner_join lk rk in
      let shared c :=
        negb (String.eqb c on) && has_column left c && has_column right c in
      Ok (map (fun cs => (if shared cs.1 then cs.1 +:+ "_x" else cs.1,
                          take_rows rows.*1 cs.2)) left
          ++ map (fun cs => (if shared cs.1 then cs.1 +:+ "_y" else cs.1,
                             take_rows rows.*2 cs.2))
                 (filter (fun cs => cs.1 ≠ on) right))
  | _, _ => Raise TypeError
  end.

(** The columns of a frame other than [labels]. *)
Definition without (labels : list string) (data : DataFrame) : DataFrame :=
  List.filter (fun cs => negb (existsb (String.eqb cs.1) labels)) data.

(** [frame.drop(labels, axis=1)]: a label that is no column raises. *)
Definition drop (data : DataFrame) (labels : list string) : result DataFrame :=
  match List.find (fun c => negb (has_column data c)) labels with
  | Some c => Raise (KeyError c)
  | None => Ok (without labels data)
  end.

End pd.

(** ** The DataLoader *)

Record DataLoader := {
  scaler : sklearn.MinMaxScaler;
  scaler_is_trained : bool
}.

(** [DataLoader.__init__] *)
Definition init : DataLoader :=
  {| scaler := sklearn.new ((-1)%Q, 1%Q); scaler_is_trained := false |}.

(** Winsorizes the data in the y-column. *)
Definition winsorize_one_percent (data : DataFrame) : result DataFrame :=
  y ← getitem data "y";
  y ← as_floats y;
  winsorized ← mstats.winsorize y ((5 # 1000)%Q, (5 # 1000)%Q);
  Ok (setitem data "y" (Floats winsorized)).

Definition columns_to_scale : list string :=
  ["hydro"; "micro"; "thermal"; "wind"; "river"; "total"; "sys_reg"; "flow";
   "y"].

(** [data[columns]]: the columns named, as floats. *)
Fixpoint getitems (data : DataFrame) (columns : list string)
  : result (list (list float)) :=
  match columns with
  | [] => Ok []
  | c :: columns =>
      s ← getitem data c;
      col ← as_floats s;
      X ← getitems data columns;
      Ok (col :: X)
  end.

(** [data[columns] = X] *)
Definition setitems (data : DataFrame) (columns : list string)
  (X : list (list float)) : DataFrame :=
  foldl (fun d cx => setitem d cx.1 (Floats cx.2)) data (zip columns X).

(** Scales the given data; the scaler is fit when it has not been yet.  The
    loader comes back as the call leaves it, also when the call raises. *)
Definition scale_data (self : DataLoader) (data : DataFrame)
  : result DataFrame * DataLoader :=
  let fit_step : result unit * DataLoader :=
    if negb (scaler_is_trained self) then
      match getitems data columns_to_scale with
      | Raise e => (Raise e, self)
      | Ok X =>
          match sklearn.fit (scaler self) X with
          | Raise e => (Raise e, self)
          | Ok fitted_scaler =>
              (Ok tt, {| scaler := fitted_scaler; scaler_is_trained := true |})
          end
      end
    else (Ok tt, self) in
  match fit_step with
  | (Raise e, self) => (Raise e, self)
  | (Ok _, self) =>
      (X ← getitems data columns_to_scale;
       X ← sklearn.transform (scaler self) X;
       Ok (setitems data columns_to_scale X),
       self)
  end.

(** Add shifted y value as y_prev. *)
Definition shift_y (data : DataFrame) : result DataFrame :=
  y ← getitem data "y";
  y ← as_floats y;
  Ok (setitem data "y_prev" (Floats (pd.shift 1 y))).

(** Add the value of y from 24hrs ago. *)
Definition add_shifted_daily_value (data : DataFrame) : result DataFrame :=
  y ← getitem data "y";
  y ← as_floats y;
  Ok (setitem data "y_yesterday" (Floats (pd.shift 288 y))).

(** Add hour of the day as a feature. *)
Definition add_hour_of_day (data : DataFrame) : result DataFrame :=
  start_time ← getitem data "start_time";
  start_time ← pd.to_datetime start_time;
  let hour_of_day := pd.dt_hour <$> start_time in
  Ok (setitem data "hour_of_day" (Ints hour_of_day)).

(** [2 * np.pi * s / s.max()]: the angle of each row, as a multiple of
    pi. *)
Definition normalised (s : list Z) : list angle :=
  (fun x => pd.angle_div (pd.angle_mul pd.two_pi x) (pd.max s)) <$> s.

(** Add minute of day, with its sine and cosine. *)
Definition add_min_of_day (data : DataFrame) : result DataFrame :=
  start_time ← getitem data "start_time";
  start_time ← pd.to_datetime start_time;
  hour_of_day ← getitem data "hour_of_day";
  hour_of_day ← pd.as_ints hour_of_day;
  let min_of_day :=
    zip_with Z.add (pd.dt_minute <$> start_time)
                   ((fun h => h * 60) <$> hour_of_day) in
  let min_of_day_norm := normalised min_of_day in
  let sin_minute := pd.round 6 <$> (np.sin <$> min_of_day_norm) in
  let cos_minute := np.cos <$> min_of_day_norm in
  let data := setitem data "min_of_day" (Ints min_of_day) in
  let data := setitem data "cos_minute" (Reals cos_minute) in
  let data := setitem data "sin_minute" (Reals sin_minute) in
  Ok data.

(** Add day of week, Monday 0 to Sunday 6, with its sine and cosine. *)
Definition add_day_of_week (data : DataFrame) : result DataFrame :=
  start_time ← getitem data "start_time";
  start_time ← pd.to_datetime start_time;
  let day_of_week := pd.dt_day_of_week <$> start_time in
  let day_of_week_norm := normalised day_of_week in
  let sin_weekday := pd.round 2 <$> (np.sin <$> day_of_week_norm) in
  let cos_weekday := np.cos <$> day_of_week_norm in
  let data := setitem data "day_of_week" (Ints day_of_week) in
  let data := setitem data "cos_weekday" (Reals cos_weekday) in
  let data := setitem data "sin_weekday" (Reals sin_weekday) in
  Ok data.

(** Add day of year, 1 for the first of January, with its sine and cosine. *)
Definition add_day_of_year (data : DataFrame) : result DataFrame :=
  start_time ← getitem data "start_time";
  start_time ← pd.to_datetime start_time;
  let day_of_year := pd.dt_day_of_year <$> start_time in
  let day_of_year_norm := normalised day_of_year in
  let sin_yearday := np.sin <$> day_of_year_norm in
  let cos_yearday := np.cos <$> day_of_year_norm in
  let data := setitem data "day_of_year" (Ints day_of_year) in
  let data := setitem data "cos_yearday" (Reals cos_yearday) in
  let data := setitem data "sin_yearday" (Reals sin_yearday) in
  Ok data.

(** Add shifted daily mean: the mean value of y from the day before, stored
    for each timestep of the current day. *)
Definition add_shifted_daily_mean (data : DataFrame) : result DataFrame :=
  start_time ← getitem data "start_time";
  start_time ← pd.to_datetime start_time;
  let data := setitem data "date" (Dates (pd.dt_date <$> start_time)) in
  daily_mean ← pd.groupby_mean data "date" "y";
  let daily_mean : DataFrame :=
    setitem [("y", Floats daily_mean.2)] "date" (Dates daily_mean.1) in
  let daily_mean := pd.rename daily_mean "y" "daily_mean" in
  shifted ← getitem daily_mean "daily_mean";
  shifted ← as_floats shifted;
  let daily_mean := setitem daily_mean "daily_mean" (Floats (pd.shift 1 shifted)) in
  pd.merge data daily_mean "date".

(** Applies the preprocessing steps to the loaded data. *)
Definition apply_preprocessing (self : DataLoader) (data : DataFrame)
  : result DataFrame * DataLoader :=
  match getitem data "y" with
  | Raise e => (Raise e, self)
  | Ok y =>
      let data := setitem data "y_original" y in
      match winsorize_one_percent data with
      | Raise e => (Raise e, self)
      | Ok data =>
          match scale_data self data with
          | (Raise e, self) => (Raise e, self)
          | (Ok data, self) =>
              (data ← add_shifted_daily_value data; shift_y data, self)
          end
      end
  end.

(** Applies the feature engineering steps. *)
Definition apply_feature_engineering (data : DataFrame) : result DataFrame :=
  data ← add_hour_of_day data;
  data ← add_min_of_day data;
  data ← add_day_of_week data;
  data ← add_day_of_year data;
  add_shifted_daily_mean data.

(** The frame preprocessed and with engineered features; [data] is the
    frame [pd.read_csv] loaded. *)
Definition get_processed_data (self : DataLoader) (data : DataFrame)
  : result DataFrame * DataLoader :=
  match apply_preprocessing self data with
  | (Raise e, self) => (Raise e, self)
  | (Ok data, self) => (apply_feature_engineering data, self)
  end.

(** The loader called on one table after the other. *)
Fixpoint process_all (self : DataLoader) (tables : list DataFrame)
  : list (result DataFrame) * DataLoader :=
  match tables with
  | [] => ([], self)
  | data :: tables =>
      let '(r, self) := get_processed_data self data in
      let '(rs, self) := process_all self tables in
      (r :: rs, self)
  end.

(** [main]: the frame it prints, [data] being the frame [pd.read_csv] loaded
    from the training file. *)
Definition main (data : DataFrame) : result DataFrame :=
  let loader_train := init in
  processed ← (get_processed_data loader_train data).1;
  pd.drop processed
    ["hydro"; "micro"; "thermal"; "wind"; "river"; "total"; "sys_reg"; "flow";
     "min_of_day"; "day_of_week"; "cos_weekday"; "sin_weekday"].

(** ** Well-formed input *)

(** The number of rows of a frame, read off its first column. *)
Definition nrows (data : DataFrame) : nat :=
  match data with
  | [] => 0%nat
  | (_, s) :: _ => Series_len s
  end.

(** All columns of a pandas frame have the same number of rows. *)
Definition rectangular (data : DataFrame) : bool :=
  forallb (fun cs => (Series_len cs.2 =? nrows data)%nat) data.

Definition numeric (s : Series) : bool :=
  match s with Floats _ | Ints _ => true | _ => false end.

Definition is_times (s : Series) : bool :=
  match s with Times _ => true | _ => false end.

Definition column_is (p : Series -> bool) (data : DataFrame) (c : string) : bool :=
  match getitem data c with Ok s => p s | Raise _ => false end.

(** The input the pipeline is written for: a frame with at least one row,
    a timestamp column [start_time] and the nine numeric columns. *)
Definition valid_input (data : DataFrame) : bool :=
  rectangular data && (0 <? nrows data)%nat
  && column_is is_times data "start_time"
  && forallb (column_is numeric data) columns_to_scale.

(** A loader as [init] and the pipeline leave it: not yet trained, or
    holding a scaler fit on nine columns. *)
Definition valid_loader (self : DataLoader) : bool :=
  negb (scaler_is_trained self)
  || match sklearn.attrs (scaler self) with
     | Some f => (length (sklearn.scale_ f) =? 9)%nat
                 && (length (sklearn.min_ f) =? 9)%nat
     | None => false
     end.

(** A trained loader holds a fit scaler. *)
Definition fit_if_trained (self : DataLoader) : Prop :=
  scaler_is_trained self = true → sklearn.attrs (scaler self) ≠ None.

(** The columns the pipeline derives, in the order it creates them. *)
Definition derived_columns : list string :=
  ["y_original"; "y_yesterday"; "y_prev"; "hour_of_day"; "min_of_day";
   "cos_minute"; "sin_minute"; "day_of_week"; "cos_weekday"; "sin_weekday";
   "day_of_year"; "cos_yearday"; "sin_yearday"; "date"; "daily_mean"].

(** A timestamp from a day number, an hour and a minute. *)
Definition at_ (d h m : Z) : Timestamp := d * 86400 + h * 3600 + m * 60.

Definition constant (n : nat) (q : Q) : Series := Floats (replicate n (Some q)).

(** A small table: two rows on Sunday 1970-01-04 (day 3), two on the Monday
    and one on the Thursday after. *)
Definition sample : DataFrame :=
  [("start_time",
    Times [at_ 3 23 50; at_ 3 23 55; at_ 4 0 0; at_ 4 0 5; at_ 7 12 0]);
   ("hydro", Floats [Some 1%Q; Some 2%Q; Some 3%Q; Some 4%Q; Some 5%Q]);
   ("micro", constant 5 0%Q);
   ("thermal", constant 5 1%Q);
   ("wind", Floats [Some 5%Q; Some 4%Q; Some 3%Q; Some 2%Q; Some 1%Q]);
   ("river", constant 5 2%Q);
   ("total", Floats [Some 8%Q; Some 8%Q; Some 9%Q; Some 9%Q; Some 9%Q]);
   ("y", Floats [Some 10%Q; Some 20%Q; Some 30%Q; Some 25%Q; Some 5%Q]);
   ("sys_reg", constant 5 0%Q);
   ("flow", constant 5 (-3)%Q)].

(** A later table whose [y] leaves the range of [sample]. *)
Definition later : DataFrame :=
  [("start_time", Times [at_ 8 0 0; at_ 8 0 5]);
   ("hydro", constant 2 1%Q);
   ("micro", constant 2 0%Q);
   ("thermal", constant 2 1%Q);
   ("wind", constant 2 1%Q);
   ("river", constant 2 2%Q);
   ("total", constant 2 8%Q);
   ("y", Floats [Some 55%Q; Some 0%Q]);
   ("sys_reg", constant 2 0%Q);
   ("flow", constant 2 (-3)%Q)].


(** A table without rows. *)
Definition no_rows : DataFrame :=
  [("start_time", Times []);
   ("hydro", Floats []); ("micro", Floats []); ("thermal", Floats []);
   ("wind", Floats []); ("river", Floats []); ("total", Floats []);
   ("y", Floats []); ("sys_reg", Floats []); ("flow", Floats [])].

(** All rows on Monday 1970-01-05 (day 4), from 00:00. *)
Definition monday : DataFrame :=
  [("start_time", Times [at_ 4 0 0; at_ 4 0 5; at_ 4 0 10]);
   ("hydro", constant 3 1%Q);
   ("micro", constant 3 0%Q);
   ("thermal", constant 3 1%Q);
   ("wind", constant 3 1%Q);
   ("river", constant 3 2%Q);
   ("total", constant 3 8%Q);
   ("y", Floats [Some 1%Q; Some 2%Q; Some 3%Q]);
   ("sys_reg", constant 3 0%Q);
   ("flow", constant 3 (-3)%Q)].

(** One row, at 00:00 on Tuesday 1970-01-06 (day 5). *)
Definition midnight : DataFrame :=
  [("start_time", Times [at_ 5 0 0]);
   ("hydro", constant 1 1%Q);
   ("micro", constant 1 0%Q);
   ("thermal", constant 1 1%Q);
   ("wind", constant 1 1%Q);
   ("river", constant 1 2%Q);
   ("total", constant 1 8%Q);
   ("y", constant 1 7%Q);
   ("sys_reg", constant 1 0%Q);
   ("flow", constant 1 (-3)%Q)].

(** ** The previous-day mean, row by row *)

(** The position of the key [d] among the group keys. *)
Fixpoint position (keys : list Date) (d : Date) : nat :=
  match keys with
  | [] => 0%nat
  | k :: rest => if decide (k = d) then 0%nat else S (position rest d)
  end.

(** What [add_shifted_daily_mean] joins onto the rows: for each row the
    shifted group mean at the position of the row's date. *)
Definition daily_mean_column (dates : list Date) (ys : list float) : list float :=
  let keys := pd.group_keys dates in
  let means := (fun k => pd.mean (pd.group_values k dates ys)) <$> keys in
  omap (fun d => pd.shift 1 means !! position keys d) dates.

(** The name a column of the left frame gets in the join with the frame of
    daily means, and the name the means get. *)
Definition left_name (left : DataFrame) (c : string) : string :=
  if String.eqb c "daily_mean" && pd.has_column left "daily_mean"
  then "daily_mean_x" else c.

Definition means_name (left : DataFrame) : string :=
  if pd.has_column left "daily_mean" then "daily_mean_y" else "daily_mean".

(** ** Column order *)

(** A frame after the assignments [data[c] = s] of a list, in order. *)
Definition assign_all (data : DataFrame) (kvs : list (string * Series)) : DataFrame :=
  foldl (fun d cs => setitem d cs.1 cs.2) data kvs.

(** The column names after [data[c] = ...]: a new name goes last. *)
Definition add_name (names : list string) (c : string) : list string :=
  if existsb (String.eqb c) names then names else names ++ [c].

(** The calendar columns, in the order the feature engineering creates
    them. *)
Definition calendar_columns : list string :=
  ["hour_of_day"; "min_of_day"; "cos_minute"; "sin_minute"; "day_of_week";
   "cos_weekday"; "sin_weekday"; "day_of_year"; "cos_yearday"; "sin_yearday"].

(** The minute of day of each row. *)
Definition min_of_day (ts : list Timestamp) : list Z :=
  zip_with Z.add (pd.dt_minute <$> ts) ((fun h => h * 60) <$> (pd.dt_hour <$> ts)).

(** The calendar columns of a frame whose [start_time] is [ts]. *)
Definition calendar_features (ts : list Timestamp) : list (string * Series) :=
  [("hour_of_day", Ints (pd.dt_hour <$> ts));
   ("min_of_day", Ints (min_of_day ts));
   ("cos_minute", Reals (np.cos <$> normalised (min_of_day ts)));
   ("sin_minute", Reals (pd.round 6 <$> (np.sin <$> normalised (min_of_day ts))));
   ("day_of_week", Ints (pd.dt_day_of_week <$> ts));
   ("cos_weekday", Reals (np.cos <$> normalised (pd.dt_day_of_week <$> ts)));
   ("sin_weekday",
    Reals (pd.round 2 <$> (np.sin <$> normalised (pd.dt_day_of_week <$> ts))));
   ("day_of_year", Ints (pd.dt_day_of_year <$> ts));
   ("cos_yearday", Reals (np.cos <$> normalised (pd.dt_day_of_year <$> ts)));
   ("sin_yearday", Reals (np.sin <$> normalised (pd.dt_day_of_year <$> ts)))].

(** The columns the pipeline may assign. *)
Definition written_columns : list string :=
  "y_original" :: columns_to_scale ++ ["y_yesterday"; "y_prev"]
  ++ calendar_columns ++ ["date"; "daily_mean"; "daily_mean_x"; "daily_mean_y"].

(** ** A successful run, step by step

    [processed n self data self' out]: the values a run of
    [get_processed_data self data] on a frame of [n] rows went through to
    return [out] and leave the loader as [self']. *)
Inductive processed (n : nat) (self : DataLoader) (data : DataFrame)
  (self' : DataLoader) (out : DataFrame) : Prop :=
| Processed (y0 : Series) (y w : list float) (X X' : list (list float))
    (ys : list float) (calendar : list (string * Series))
    (scaled := setitems (setitem (setitem data "y_original" y0) "y" (Floats w))
                        columns_to_scale X')
    (lagged := assign_all scaled [("y_yesterday", Floats (pd.shift 288 ys));
                                  ("y_prev", Floats (pd.shift 1 ys))]) :
    getitem data "y" = Ok y0 ->
    as_floats y0 = Ok y ->
    mstats.winsorize y ((5 # 1000)%Q, (5 # 1000)%Q) = Ok w ->
    getitems (setitem data "y" (Floats w)) columns_to_scale = Ok X ->
    sklearn.transform (scaler self') X = Ok X' ->
    scaler_is_trained self' = true ->
    (if scaler_is_trained self then self' = self
     else sklearn.fit (scaler self) X = Ok (scaler self')) ->
    getitem scaled "y" = Ok (Floats ys) ->
    calendar.*1 = calendar_columns ->
    has_rows n scaled ->
    has_rows n (assign_all lagged calendar) ->
    add_shifted_daily_mean (assign_all lagged calendar) = Ok out ->
    forall ts : list Timestamp,
    (getitem data "start_time" ≫= pd.to_datetime) = Ok ts ->
    calendar = calendar_features ts ->
    processed n self data self' out.

(** ** Rows kept

    [same_rows W n data out]: [out] has the [n] rows of [data], and every
    column outside [W] is the column it was in [data], row for row. *)
Definition same_rows (W : list string) (n : nat) (data out : DataFrame) : Prop :=
  has_rows n out ∧ ∀ c, c ∉ W → getitem out c = getitem data c.

(** [keeps_rows W f]: whenever [f] returns a frame, it has the rows of the
    frame [f] was given. *)
Definition keeps_rows (W : list string) (f : DataFrame -> result DataFrame) : Prop :=
  ∀ n data out, has_rows n data → f data = Ok out → same_rows W n data out.


(** ** The encodings as real numbers *)

(** [np.rint]: the nearest integer, a tie going to the even one. *)
Definition rint (x : R) : Z :=
  let f := Int_part x in
  if Rlt_dec (x - IZR f) (1 / 2) then f
  else if Rlt_dec (1 / 2) (x - IZR f) then f + 1
  else if Z.even f then f else f + 1.

(** [np.round(x, ndigits)] *)
Definition round_R (ndigits : Z) (x : R) : R :=
  (IZR (rint (x * powerRZ 10 ndigits)) / powerRZ 10 ndigits)%R.

(** The real number a cell of a cyclical encoding stands for; none for
    NaN. *)
Fixpoint real_val (x : real) : option R :=
  match x with
  | r_nan => None
  | r_sin q => Some (sin (Q2R q * PI))
  | r_cos q => Some (cos (Q2R q * PI))
  | r_round ndigits y => round_R ndigits <$> real_val y
  end.

(** * Properties *)

(** ** Results *)

Lemma bind_Ok {A B} (r : result A) (f : A -> result B) (b : B) :
  r ≫= f = Ok b ↔ ∃ a, r = Ok a ∧ f a = Ok b.
Proof.
  destruct r as [a|e]; simpl; split.
  - intros H. by exists a.
  - by intros (a' & [= <-] & H).
  - intros H. discriminate H.
  - by intros (a' & [=] & _).
Qed.

(** Closes [c ∉ l] and [c ≠ c'] on column names given in full. *)
Ltac names := by (apply (bool_decide_unpack _); vm_compute).

(** ** Frames *)

Lemma getitem_setitem_eq data c s : getitem (setitem data c s) c = Ok s.
Proof.
  induction data as [|[k s'] rest IH]; simpl.
  - by rewrite String.eqb_refl.
  - destruct (String.eqb k c) eqn:E; simpl; rewrite E; done.
Qed.

Lemma getitem_setitem_ne data c c' s :
  c ≠ c' → getitem (setitem data c s) c' = getitem data c'.
Proof.
  intros Hne. induction data as [|[k s'] rest IH]; simpl.
  - apply String.eqb_neq in Hne. by rewrite Hne.
  - destruct (String.eqb k c) eqn:E; simpl.
    + apply String.eqb_eq in E as ->.
      apply String.eqb_neq in Hne. by rewrite Hne.
    + by rewrite IH.
Qed.

Lemma has_rows_setitem n data c s :
  has_rows n data → Series_len s = n → has_rows n (setitem data c s).
Proof.
  intros Hd Hs. induction Hd as [|[k s'] rest Hk Hrest IH]; simpl.
  - by repeat constructor.
  - destruct (String.eqb k c); constructor; auto.
Qed.

Lemma has_rows_getitem n data c s :
  has_rows n data → getitem data c = Ok s → Series_len s = n.
Proof.
  intros Hd. induction Hd as [|[k s'] rest Hk Hrest IH]; simpl; [done|].
  destruct (String.eqb k c); [by intros [= <-] | done].
Qed.

Lemma has_column_getitem data c :
  pd.has_column data c = true ↔ ∃ s, getitem data c = Ok s.
Proof.
  unfold pd.has_column, column_names.
  induction data as [|[k s'] rest IH]; simpl.
  - split; [done | by intros [? ?]].
  - rewrite (String.eqb_sym c k). destruct (String.eqb k c); simpl; [|done].
    split; eauto.
Qed.

Lemma has_column_false data c :
  pd.has_column data c = false ↔ getitem data c = Raise (KeyError c).
Proof.
  unfold pd.has_column, column_names.
  induction data as [|[k s'] rest IH]; simpl; [done|].
  rewrite (String.eqb_sym c k). destruct (String.eqb k c); simpl; [|done].
  split; discriminate.
Qed.

Lemma column_names_setitem data c s :
  column_names (setitem data c s) =
    if pd.has_column data c then column_names data else column_names data ++ [c].
Proof.
  unfold pd.has_column, column_names.
  induction data as [|[k s'] rest IH]; simpl; [done|].
  rewrite (String.eqb_sym c k). destruct (String.eqb k c) eqn:E; simpl; [done|].
  rewrite IH. by destruct (existsb _ _).
Qed.

Lemma rectangular_has_rows data :
  rectangular data = true → has_rows (nrows data) data.
Proof.
  unfold rectangular, has_rows. rewrite forallb_forall, Forall_forall.
  intros H cs Hin. apply Nat.eqb_eq, H. by apply list_elem_of_In.
Qed.

(** ** Stages that keep the rows *)

Lemma keeps_rows_setitem n data c s :
  has_rows n data → Series_len s = n →
  has_rows n (setitem data c s)
  ∧ ∀ c', c' ∉ [c] → getitem (setitem data c s) c' = getitem data c'.
Proof.
  intros Hn Hs. split; [by apply has_rows_setitem|].
  intros c' Hc'. apply getitem_setitem_ne. intros ->. apply Hc'. constructor.
Qed.

Lemma as_floats_length n s xs :
  Series_len s = n → as_floats s = Ok xs → length xs = n.
Proof.
  destruct s; simpl; intros <- [= <-]; by rewrite ?length_map.
Qed.

Lemma shift_length k xs : length (pd.shift k xs) = length xs.
Proof.
  unfold pd.shift. rewrite length_take, length_app. lia.
Qed.



Lemma to_datetime_length n s ts :
  Series_len s = n → pd.to_datetime s = Ok ts → length ts = n.
Proof. destruct s; simpl; intros <- [= <-]; done. Qed.

Lemma as_ints_length n s zs :
  Series_len s = n → pd.as_ints s = Ok zs → length zs = n.
Proof. destruct s; simpl; intros <- [= <-]; done. Qed.

Lemma normalised_length s : length (normalised s) = length s.
Proof. unfold normalised. by rewrite length_fmap. Qed.

Lemma getitem_setitem3_other data c1 s1 c2 s2 c3 s3 c :
  c ∉ [c1; c2; c3] →
  getitem (setitem (setitem (setitem data c1 s1) c2 s2) c3 s3) c = getitem data c.
Proof.
  intros Hc. rewrite !not_elem_of_cons in Hc. destruct Hc as (? & ? & ? & _).
  rewrite !getitem_setitem_ne; done.
Qed.

Lemma keeps_rows_add_hour_of_day : keeps_rows ["hour_of_day"] add_hour_of_day.
Proof.
  intros n data out Hn H. unfold add_hour_of_day in H.
  apply bind_Ok in H as (st & Hst & H). apply bind_Ok in H as (ts & Hts & [= <-]).
  apply keeps_rows_setitem; [done|]. simpl. rewrite length_fmap.
  eauto using to_datetime_length, has_rows_getitem.
Qed.

Lemma keeps_rows_add_min_of_day :
  keeps_rows ["min_of_day"; "cos_minute"; "sin_minute"] add_min_of_day.
Proof.
  intros n data out Hn H. unfold add_min_of_day in H.
  apply bind_Ok in H as (st & Hst & H). apply bind_Ok in H as (ts & Hts & H).
  apply bind_Ok in H as (h & Hh & H). apply bind_Ok in H as (hs & Hhs & [= <-]).
  assert (length ts = n) by eauto using to_datetime_length, has_rows_getitem.
  assert (length hs = n) by eauto using as_ints_length, has_rows_getitem.
  split; [|by apply getitem_setitem3_other].
  repeat apply has_rows_setitem; try done; simpl;
    rewrite ?length_fmap, ?normalised_length, ?length_zip_with, ?length_fmap; lia.
Qed.

Lemma keeps_rows_add_day_of_week :
  keeps_rows ["day_of_week"; "cos_weekday"; "sin_weekday"] add_day_of_week.
Proof.
  intros n data out Hn H. unfold add_day_of_week in H.
  apply bind_Ok in H as (st & Hst & H). apply bind_Ok in H as (ts & Hts & [= <-]).
  assert (length ts = n) by eauto using to_datetime_length, has_rows_getitem.
  split; [|by apply getitem_setitem3_other].
  repeat apply has_rows_setitem; try done; simpl;
    rewrite ?length_fmap, ?normalised_length, ?length_fmap; lia.
Qed.

Lemma keeps_rows_add_day_of_year :
  keeps_rows ["day_of_year"; "cos_yearday"; "sin_yearday"] add_day_of_year.
Proof.
  intros n data out Hn H. unfold add_day_of_year in H.
  apply bind_Ok in H as (st & Hst & H). apply bind_Ok in H as (ts & Hts & [= <-]).
  assert (length ts = n) by eauto using to_datetime_length, has_rows_getitem.
  split; [|by apply getitem_setitem3_other].
  repeat apply has_rows_setitem; try done; simpl;
    rewrite ?length_fmap, ?normalised_length, ?length_fmap; lia.
Qed.

(** ** Sorting and winsorizing *)

Lemma float_le_refl x : np.float_le x x.
Proof. destruct x; simpl; [lra | done]. Qed.

Lemma float_le_trans x y z : np.float_le x y → np.float_le y z → np.float_le x z.
Proof. destruct x, y, z; simpl; try done; lra. Qed.

#[local] Instance by_value_total : Total np.by_value.
Proof.
  intros [[a|] i] [[b|] j]; unfold np.by_value; simpl; try tauto.
  destruct (Qlt_le_dec b a); [right | left]; lra.
Qed.

#[local] Instance by_value_trans : Transitive np.by_value.
Proof. intros p q r. apply float_le_trans. Qed.

Lemma put_length a idx v : length (np.put a idx v) = length a.
Proof.
  unfold np.put. revert a. induction idx as [|i idx IH]; intros a; simpl; [done|].
  by rewrite IH, length_insert.
Qed.

Lemma put_lookup_notin a idx v p : p ∉ idx → np.put a idx v !! p = a !! p.
Proof.
  unfold np.put. revert a. induction idx as [|i idx IH]; intros a Hp; simpl; [done|].
  apply not_elem_of_cons in Hp as [Hne Hp].
  rewrite IH by done. by apply list_lookup_insert_ne.
Qed.

Lemma put_lookup_in a idx v p :
  p ∈ idx → (p < length a)%nat → np.put a idx v !! p = Some v.
Proof.
  unfold np.put. revert a. induction idx as [|i idx IH]; intros a Hp Hlt; simpl.
  - by apply elem_of_nil in Hp.
  - destruct (decide (p ∈ idx)) as [Hin|Hnin].
    + apply IH; [done | by rewrite length_insert].
    + apply elem_of_cons in Hp as [->|?]; [|done].
      fold (np.put (<[i:=v]> a) idx v). rewrite put_lookup_notin by done.
      by apply list_lookup_insert_eq.
Qed.

Lemma StronglySorted_lookup {A} (R : relation A) l i j x y :
  StronglySorted R l → l !! i = Some x → l !! j = Some y → (i < j)%nat → R x y.
Proof.
  intros Hs. revert i j. induction Hs as [|z l Hs IH Hz]; intros i j Hi Hj Hlt.
  - done.
  - destruct j as [|j]; [lia|]. simpl in Hj. destruct i as [|i]; simpl in Hi.
    + injection Hi as ->. rewrite Forall_forall in Hz.
      apply Hz. by eapply list_elem_of_lookup_2.
    + apply (IH i j); [done | done | lia].
Qed.

Section argsort.
Variable a : list float.

Let pairs := merge_sort np.by_value (zip a (seq 0 (length a))).

Lemma sorted_pairs_perm : pairs ≡ₚ zip a (seq 0 (length a)).
Proof. apply merge_sort_Permutation. Qed.

Lemma sorted_pairs_sorted : StronglySorted np.by_value pairs.
Proof.
  apply Sorted_StronglySorted; [apply _|]. apply Sorted_merge_sort, _.
Qed.

Lemma sorted_pairs_length : length pairs = length a.
Proof.
  rewrite sorted_pairs_perm, length_zip, length_seq. lia.
Qed.

Lemma sorted_pairs_lookup k v i :
  pairs !! k = Some (v, i) → a !! i = Some v.
Proof.
  intros Hk. apply list_elem_of_lookup_2 in Hk.
  rewrite sorted_pairs_perm in Hk.
  apply list_elem_of_lookup_1 in Hk as [j Hj].
  apply lookup_zip_with_Some in Hj as (x & y & [= <- <-] & Hx & Hy).
  apply lookup_seq in Hy as [-> _]. done.
Qed.

Lemma argsort_perm : np.argsort a ≡ₚ seq 0 (length a).
Proof.
  unfold np.argsort. fold pairs. rewrite sorted_pairs_perm.
  rewrite snd_zip; [done | by rewrite length_seq].
Qed.

Lemma argsort_length : length (np.argsort a) = length a.
Proof. by rewrite argsort_perm, length_seq. Qed.

Lemma argsort_NoDup : NoDup (np.argsort a).
Proof. rewrite argsort_perm. apply NoDup_seq. Qed.

Lemma sort_length : length (np.sort a) = length a.
Proof. unfold np.sort. fold pairs. by rewrite length_fmap, sorted_pairs_length. Qed.

(** [np.sort a] holds the values of [a] ... *)
Lemma sort_perm : np.sort a ≡ₚ a.
Proof.
  unfold np.sort. fold pairs. rewrite sorted_pairs_perm.
  rewrite fst_zip; [done | by rewrite length_seq].
Qed.

(** ... in ascending order, NaN last. *)
Lemma sort_sorted k l x y :
  (k ≤ l)%nat → np.sort a !! k = Some x → np.sort a !! l = Some y →
  np.float_le x y.
Proof.
  unfold np.sort. fold pairs. rewrite !list_lookup_fmap.
  intros Hkl Hx Hy.
  destruct (pairs !! k) as [p|] eqn:Hp; [|done].
  destruct (pairs !! l) as [q|] eqn:Hq; [|done].
  simpl in *. injection Hx as <-. injection Hy as <-.
  destruct (decide (k = l)) as [->|Hne].
  - rewrite Hp in Hq. injection Hq as <-. apply float_le_refl.
  - pose proof sorted_pairs_sorted as Hs.
    apply (StronglySorted_lookup _ _ k l p q Hs); [done | done | lia].
Qed.

(** The value at the position [argsort] ranks [k]-th is the [k]-th
    smallest. *)
Lemma argsort_sort k i :
  np.argsort a !! k = Some i → a !! i = np.sort a !! k ∧ (i < length a)%nat.
Proof.
  unfold np.argsort, np.sort. fold pairs. rewrite !list_lookup_fmap.
  destruct (pairs !! k) as [[v j]|] eqn:Hp; [|done].
  simpl. intros [= <-]. apply sorted_pairs_lookup in Hp.
  split; [done | by eapply lookup_lt_Some].
Qed.
End argsort.

Lemma py_int_low n :
  py_int ((5 # 1000) * inject_Z (Z.of_nat n)) = Z.of_nat (n / 200).
Proof.
  unfold py_int.
  assert (Hf : Qfloor ((5 # 1000) * inject_Z (Z.of_nat n)) = Z.of_nat (n / 200)).
  { unfold Qfloor, Qmult, inject_Z; simpl Qnum; simpl Qden.
    change (Z.pos (1000 * 1)) with (5 * 200)%Z.
    rewrite Z.div_mul_cancel_l by lia. by rewrite Nat2Z.inj_div. }
  destruct (Qle_bool 0 _) eqn:E; [done|].
  exfalso. rewrite <- not_true_iff_false, Qle_bool_iff in E. apply E.
  unfold Qle, Qmult, inject_Z; simpl. lia.
Qed.

Lemma py_int_up n :
  py_int (inject_Z (Z.of_nat n) * (5 # 1000)) = Z.of_nat (n / 200).
Proof.
  unfold py_int.
  assert (Hf : Qfloor (inject_Z (Z.of_nat n) * (5 # 1000)) = Z.of_nat (n / 200)).
  { unfold Qfloor, Qmult, inject_Z; simpl Qnum; simpl Qden.
    change (Z.pos (1 * 1000)) with (5 * 200)%Z.
    rewrite (Z.mul_comm _ 5), Z.div_mul_cancel_l by lia.
    by rewrite Nat2Z.inj_div. }
  destruct (Qle_bool 0 _) eqn:E; [done|].
  exfalso. rewrite <- not_true_iff_false, Qle_bool_iff in E. apply E.
  unfold Qle, Qmult, inject_Z; simpl. lia.
Qed.

Lemma py_index_nat {A} (l : list A) k x :
  l !! k = Some x → py_index l (Z.of_nat k) = Ok x.
Proof.
  intros Hk. pose proof (lookup_lt_Some _ _ _ Hk) as Hlt.
  unfold py_index.
  destruct (Z.of_nat k <? 0) eqn:E1; [lia|].
  destruct (Z.of_nat k <? 0) eqn:E2; [lia|].
  destruct (Z.of_nat (length l) <=? Z.of_nat k) eqn:E3; [lia|].
  simpl. by rewrite Nat2Z.id, Hk.
Qed.

Lemma py_bound_nat n k : py_bound n (Z.of_nat k) = k.
Proof. unfold py_bound. destruct (Z.of_nat k <? 0) eqn:E; lia. Qed.

(** The two ranks [winsorize] clips to in a column of [n] values. *)
Lemma winsorize_ranks n :
  (0 < n → n / 200 < n ∧ n / 200 ≤ n - n / 200 - 1 ∧ n - n / 200 - 1 < n)%nat.
Proof.
  intros Hn. pose proof (Nat.div_mod_eq n 200) as Hdiv.
  pose proof (Nat.mod_upper_bound n 200). lia.
Qed.

(** Winsorizing a non-empty column succeeds, and every value of the result
    is a value of the input that lies between the values of rank [n / 200]
    and [n - n / 200 - 1] of the sorted input. *)
Lemma winsorize_bounds (a : list float) :
  a ≠ [] →
  ∃ w lo hi,
    mstats.winsorize a ((5 # 1000)%Q, (5 # 1000)%Q) = Ok w
    ∧ length w = length a
    ∧ np.sort a !! (length a / 200)%nat = Some lo
    ∧ np.sort a !! (length a - length a / 200 - 1)%nat = Some hi
    ∧ Forall (fun x => x ∈ a ∧ np.float_le lo x ∧ np.float_le x hi) w.
Proof.
  intros Ha.
  assert (Hn : (0 < length a)%nat) by (destruct a; [done | simpl; lia]).
  destruct (winsorize_ranks _ Hn) as (Hk1 & Hk2 & Hk3).
  set (n := length a) in *. set (k := (n / 200)%nat) in *.
  set (idx := np.argsort a).
  assert (Hlen : length idx = n) by apply argsort_length.
  assert (Hnd : NoDup idx) by apply argsort_NoDup.
  destruct (lookup_lt_is_Some_2 idx k) as [i Hi]; [lia|].
  destruct (lookup_lt_is_Some_2 idx (n - k - 1)) as [j Hj]; [lia|].
  destruct (argsort_sort a _ _ Hi) as [Hlo Hilt].
  destruct (argsort_sort a _ _ Hj) as [Hhi Hjlt].
  destruct (lookup_lt_is_Some_2 a i) as [lo Hai]; [done|].
  destruct (lookup_lt_is_Some_2 a j) as [hi Haj]; [done|].
  set (a1 := np.put a (take k idx) lo).
  assert (Ha1j : a1 !! j = Some hi).
  { unfold a1. rewrite put_lookup_notin; [done|].
    intros (r & Hr & Hrk)%elem_of_take.
    pose proof (NoDup_lookup _ _ _ _ Hnd Hr Hj). lia. }
  exists (np.put a1 (drop (n - k) idx) hi), lo, hi.
  split; [|split; [|split; [|split]]].
  - unfold mstats.winsorize, mstats.winsorize1D. simpl negb. cbv iota.
    change (Qeq_bool (5 # 1000) 0) with false. cbv iota.
    fold n. rewrite py_int_low, py_int_up. fold k idx.
    rewrite (py_index_nat _ _ _ Hi). simpl.
    rewrite (py_index_nat _ _ _ Hai). simpl.
    rewrite py_bound_nat. fold a1.
    replace (Z.of_nat n - Z.of_nat k - 1) with (Z.of_nat (n - k - 1)) by lia.
    rewrite (py_index_nat _ _ _ Hj). simpl.
    rewrite (py_index_nat _ _ _ Ha1j). simpl.
    replace (Z.of_nat n - Z.of_nat k) with (Z.of_nat (n - k)) by lia.
    by rewrite py_bound_nat.
  - unfold a1. by rewrite !put_length.
  - by rewrite <- Hlo.
  - by rewrite <- Hhi.
  - pose proof (list_elem_of_lookup_2 _ _ _ Hai) as Hloin.
    pose proof (list_elem_of_lookup_2 _ _ _ Haj) as Hhiin.
    rewrite Hlo in Hai. rewrite Hhi in Haj.
    assert (Hlohi : np.float_le lo hi) by (eapply (sort_sorted a k (n - k - 1)); done).
    apply Forall_lookup. intros p x Hp.
    assert (Hpn : (p < n)%nat).
    { apply lookup_lt_Some in Hp. unfold a1 in Hp. by rewrite !put_length in Hp. }
    assert (Hpin : p ∈ idx).
    { unfold idx. rewrite argsort_perm. apply elem_of_seq. lia. }
    apply list_elem_of_lookup_1 in Hpin as [r Hr].
    pose proof (lookup_lt_Some _ _ _ Hr) as Hrn.
    destruct (argsort_sort a _ _ Hr) as [Hpr _].
    destruct (decide (n - k ≤ r)%nat) as [Hup|Hup].
    + rewrite put_lookup_in in Hp.
      * injection Hp as <-. split; [done|]. split; [done | apply float_le_refl].
      * apply list_elem_of_lookup. exists (r - (n - k))%nat.
        rewrite lookup_drop. by replace (n - k + (r - (n - k)))%nat with r by lia.
      * unfold a1. rewrite put_length. done.
    + rewrite put_lookup_notin in Hp.
      2:{ intros (r' & Hr')%list_elem_of_lookup_1. rewrite lookup_drop in Hr'.
          pose proof (NoDup_lookup _ _ _ _ Hnd Hr Hr'). lia. }
      destruct (decide (r < k)%nat) as [Hlow|Hlow].
      * unfold a1 in Hp. rewrite put_lookup_in in Hp.
        -- injection Hp as <-. split; [done|]. split; [apply float_le_refl | done].
        -- apply elem_of_take. eauto.
        -- done.
      * unfold a1 in Hp. rewrite put_lookup_notin in Hp.
        2:{ intros (r' & Hr' & Hlt)%elem_of_take.
            pose proof (NoDup_lookup _ _ _ _ Hnd Hr Hr'). lia. }
        pose proof (list_elem_of_lookup_2 _ _ _ Hp) as Hxin.
        rewrite Hpr in Hp. split; [done|]. split.
        -- eapply (sort_sorted a k r); [lia | done | done].
        -- eapply (sort_sorted a r (n - k - 1)); [lia | done | done].
Qed.

(** On the 200 values 0, 1, ..., 199 the smallest is raised to 1 and the
    largest lowered to 198. *)
Example winsorize_200 :
  mstats.winsorize ((fun k => Some (inject_Z (Z.of_nat k))) <$> seq 0 200)
                   ((5 # 1000)%Q, (5 # 1000)%Q)
  = Ok ((fun k => Some (inject_Z (Z.of_nat k)))
          <$> ([1%nat] ++ seq 1 198 ++ [198%nat])).
Proof. by vm_compute. Qed.

(** ** Scaling *)

Lemma getitems_Ok data columns X :
  getitems data columns = Ok X →
  length X = length columns
  ∧ ∀ i c, columns !! i = Some c →
      ∃ s col, getitem data c = Ok s ∧ as_floats s = Ok col ∧ X !! i = Some col.
Proof.
  revert X. induction columns as [|c0 columns IH]; intros X H; simpl in H.
  - injection H as <-. split; [done|]. intros i c Hi. done.
  - apply bind_Ok in H as (s0 & Hs0 & H). apply bind_Ok in H as (col0 & Hcol0 & H).
    apply bind_Ok in H as (X0 & HX0 & [= <-]).
    destruct (IH _ HX0) as [Hlen Hcols]. split; [simpl; lia|].
    intros [|i] c Hi; simpl in Hi.
    + injection Hi as <-. eauto.
    + destruct (Hcols _ _ Hi) as (s & col & ? & ? & ?). eauto.
Qed.

Lemma getitem_setitems_other data columns X c :
  c ∉ columns → getitem (setitems data columns X) c = getitem data c.
Proof.
  unfold setitems. revert data X.
  induction columns as [|c0 columns IH]; intros data X Hc; [done|].
  destruct X as [|x X]; [done|]. simpl.
  apply not_elem_of_cons in Hc as [Hne Hc].
  rewrite IH by done. by apply getitem_setitem_ne.
Qed.

Lemma getitem_setitems data columns X i c col :
  NoDup columns → columns !! i = Some c → X !! i = Some col →
  getitem (setitems data columns X) c = Ok (Floats col).
Proof.
  unfold setitems. revert data X i.
  induction columns as [|c0 columns IH]; intros data X i Hnd Hc Hx; [done|].
  destruct X as [|x X]; [done|]. simpl. apply NoDup_cons in Hnd as [Hc0 Hnd].
  destruct i as [|i]; simpl in *.
  - injection Hc as <-. injection Hx as ->.
    fold (setitems (setitem data c0 (Floats col)) columns X).
    rewrite getitem_setitems_other by done. apply getitem_setitem_eq.
  - by apply (IH _ _ i).
Qed.

Lemma has_rows_setitems n data columns X :
  has_rows n data → Forall (fun col => length col = n) X →
  has_rows n (setitems data columns X).
Proof.
  unfold setitems. revert data X.
  induction columns as [|c0 columns IH]; intros data X Hn HX; [done|].
  destruct X as [|x X]; [done|]. simpl. apply Forall_cons in HX as [Hx HX].
  apply IH; [|done]. by apply has_rows_setitem.
Qed.

Lemma getitems_has_rows n data columns X :
  has_rows n data → getitems data columns = Ok X →
  Forall (fun col => length col = n) X.
Proof.
  intros Hn HX. apply getitems_Ok in HX as [Hlen Hcols].
  apply Forall_lookup. intros i col Hi.
  destruct (lookup_lt_is_Some_2 columns i) as [c Hc].
  { rewrite <- Hlen. by eapply lookup_lt_Some. }
  destruct (Hcols _ _ Hc) as (s & col' & Hs & Hf & Hi').
  rewrite Hi in Hi'. injection Hi' as <-.
  eauto using as_floats_length, has_rows_getitem.
Qed.

Lemma transform_Ok self X X' :
  sklearn.transform self X = Ok X' →
  ∃ f, sklearn.attrs self = Some f
       ∧ X' = zip_with (fun sm col => sklearn.transform_column sm.1 sm.2 col)
                       (zip (sklearn.scale_ f) (sklearn.min_ f)) X.
Proof.
  unfold sklearn.transform. destruct (sklearn.attrs self) as [f|]; [|done].
  destruct (sklearn.n_samples X =? 0)%nat; [done|].
  destruct (negb _); [done|].
  intros [= <-]. eauto.
Qed.

Lemma transform_has_rows n self X X' :
  sklearn.transform self X = Ok X' →
  Forall (fun col => length col = n) X → Forall (fun col => length col = n) X'.
Proof.
  intros (f & _ & ->)%transform_Ok HX.
  apply Forall_lookup. intros i col Hi.
  apply lookup_zip_with_Some in Hi as (sm & x & -> & _ & Hx).
  unfold sklearn.transform_column. rewrite length_map.
  by apply (Forall_lookup_1 _ _ _ _ HX Hx).
Qed.

(** What a call of [scale_data] that returns a frame has done. *)
Lemma scale_data_Ok self data out self' :
  scale_data self data = (Ok out, self') →
  ∃ X X',
    getitems data columns_to_scale = Ok X
    ∧ sklearn.transform (scaler self') X = Ok X'
    ∧ out = setitems data columns_to_scale X'
    ∧ scaler_is_trained self' = true
    ∧ (if scaler_is_trained self then self' = self
       else sklearn.fit (scaler self) X = Ok (scaler self')).
Proof.
  unfold scale_data. destruct (scaler_is_trained self) eqn:Htr; cbn [negb].
  - destruct (getitems data columns_to_scale) as [X|] eqn:HX;
      cbn [mbind result_bind]; [|done].
    destruct (sklearn.transform _ X) as [X'|] eqn:HX'; [|done].
    intros [= <- <-]. exists X, X'. by rewrite Htr.
  - destruct (getitems data columns_to_scale) as [X|] eqn:HX; [|done].
    destruct (sklearn.fit (scaler self) X) as [sc|] eqn:Hfit; [|done].
    cbn [mbind result_bind scaler].
    destruct (sklearn.transform sc X) as [X'|] eqn:HX'; [|done].
    intros [= <- <-]. exists X, X'. done.
Qed.



(** ** Group keys and the join *)

Lemma insert_key_elem d ks x : x ∈ pd.insert_key d ks ↔ x = d ∨ x ∈ ks.
Proof.
  induction ks as [|k rest IH]; simpl.
  - rewrite list_elem_of_singleton, elem_of_nil. tauto.
  - destruct (d <? k) eqn:E1; [by rewrite elem_of_cons|].
    destruct (d =? k) eqn:E2.
    + apply Z.eqb_eq in E2 as ->. rewrite elem_of_cons. tauto.
    + rewrite !elem_of_cons, IH. tauto.
Qed.

Lemma insert_key_sorted d ks :
  StronglySorted Z.lt ks → StronglySorted Z.lt (pd.insert_key d ks).
Proof.
  induction 1 as [|k rest Hs IH Hk]; simpl.
  - repeat constructor.
  - destruct (d <? k) eqn:E1.
    + apply Z.ltb_lt in E1. constructor; [by constructor|].
      constructor; [done|]. eapply Forall_impl; [exact Hk|]. simpl. lia.
    + destruct (d =? k) eqn:E2; [by constructor|].
      apply Z.ltb_ge in E1. apply Z.eqb_neq in E2.
      constructor; [done|]. apply Forall_forall.
      intros x [->|Hx]%insert_key_elem; [lia|].
      rewrite Forall_forall in Hk. by apply Hk.
Qed.

Lemma group_keys_elem ds x : x ∈ pd.group_keys ds ↔ x ∈ ds.
Proof.
  unfold pd.group_keys. induction ds as [|d ds IH]; simpl; [done|].
  rewrite insert_key_elem, elem_of_cons, IH. done.
Qed.

Lemma group_keys_sorted ds : StronglySorted Z.lt (pd.group_keys ds).
Proof.
  unfold pd.group_keys. induction ds as [|d ds IH]; simpl; [constructor|].
  by apply insert_key_sorted.
Qed.

Lemma sorted_lt_NoDup ks : StronglySorted Z.lt ks → NoDup ks.
Proof.
  induction 1 as [|k rest Hs IH Hk]; constructor; [|done].
  intros Hin. rewrite Forall_forall in Hk. specialize (Hk _ Hin). lia.
Qed.

Lemma position_lookup keys d : d ∈ keys → keys !! position keys d = Some d.
Proof.
  induction keys as [|k rest IH]; simpl.
  - by intros ?%elem_of_nil.
  - intros Hin. destruct (decide (k = d)) as [->|Hne]; [done|].
    apply elem_of_cons in Hin as [->|Hin]; [done|]. by apply IH.
Qed.

Lemma omap_nil_all {A B} (f : A → option B) l :
  (∀ x, x ∈ l → f x = None) → omap f l = [].
Proof.
  induction l as [|x l IH]; intros H; [done|]. csimpl.
  rewrite (H x) by constructor. apply IH. intros y Hy. apply H. by constructor.
Qed.

(** A key of a duplicate-free key column is matched by exactly one row of
    it. *)
Lemma join_row keys d (i off : nat) :
  NoDup keys → d ∈ keys →
  omap (fun p : nat * Date => if decide (p.2 = d) then Some (i, p.1) else None)
       (imap (fun j k => (off + j, k)%nat) keys)
  = [(i, (off + position keys d)%nat)].
Proof.
  revert off. induction keys as [|k rest IH]; intros off Hnd Hin.
  - by apply elem_of_nil in Hin.
  - apply NoDup_cons in Hnd as [Hk Hnd]. rewrite imap_cons. csimpl.
    destruct (decide (k = d)) as [->|Hne].
    + rewrite omap_nil_all; [done|].
      intros [j k'] Hjk. simpl. destruct (decide (k' = d)) as [->|]; [|done].
      exfalso. apply Hk.
      apply list_elem_of_lookup_1 in Hjk as [m Hm].
      rewrite list_lookup_imap in Hm.
      destruct (rest !! m) as [z|] eqn:Hz; [|done].
      simpl in Hm. injection Hm as _ ->. by eapply list_elem_of_lookup_2.
    + apply elem_of_cons in Hin as [->|Hin]; [done|].
      rewrite (imap_ext _ (fun j k0 => (S off + j, k0)%nat)).
      * rewrite IH by done. do 2 f_equal. lia.
      * intros j k0 _. simpl. f_equal. lia.
Qed.

Lemma join_singletons {A B} (F : nat → A → list B) (g : nat → A → B) l :
  (∀ i x, l !! i = Some x → F i x = [g i x]) → mjoin (imap F l) = imap g l.
Proof.
  revert F g. induction l as [|x l IH]; intros F g H; [done|].
  rewrite !imap_cons. simpl. rewrite (H 0%nat x) by done. simpl. f_equal.
  apply IH. intros i y Hi. apply (H (S i)). done.
Qed.

Lemma inner_join_keys dates keys :
  NoDup keys → (∀ d, d ∈ dates → d ∈ keys) →
  pd.inner_join dates keys = imap (fun i d => (i, position keys d)) dates.
Proof.
  intros Hnd Hin. unfold pd.inner_join. apply join_singletons.
  intros i d Hi.
  rewrite (imap_ext _ (fun j k => (0 + j, k)%nat)) by done.
  rewrite join_row; [done | done |]. apply Hin. by eapply list_elem_of_lookup_2.
Qed.

Lemma imap_fst_seq {A B} (g : A → B) (l : list A) :
  (imap (fun i d => (i, g d)) l).*1 = seq 0 (length l).
Proof.
  rewrite fmap_imap. rewrite (imap_ext _ (fun i _ => id i)) by done.
  rewrite imap_seq_0. by rewrite list_fmap_id.
Qed.

Lemma imap_snd_fmap {A B} (g : A → B) (l : list A) :
  (imap (fun i d => (i, g d)) l).*2 = g <$> l.
Proof.
  rewrite fmap_imap. rewrite (imap_ext _ (const g)) by done.
  apply imap_const.
Qed.

Lemma omap_lookup_seq {A} (xs : list A) :
  omap (fun i => xs !! i) (seq 0 (length xs)) = xs.
Proof.
  induction xs as [|x xs IH] using rev_ind; [done|].
  rewrite length_app. simpl. rewrite Nat.add_1_r, seq_S, omap_app. simpl.
  rewrite lookup_app_r, Nat.sub_diag by done. simpl. f_equal.
  rewrite <- IH at 2. apply list_omap_ext, Forall2_same_length_lookup.
  split; [done|]. intros i a b Ha. rewrite Ha. intros [= <-].
  apply lookup_seq in Ha as [-> Hlt]. by apply lookup_app_l.
Qed.

Lemma take_rows_all s : pd.take_rows (seq 0 (Series_len s)) s = s.
Proof. destruct s; simpl; by rewrite omap_lookup_seq. Qed.

Arguments pd.shift : simpl never.
Arguments pd.mean : simpl never.
Arguments pd.group_keys : simpl never.
Arguments pd.group_values : simpl never.
Arguments pd.inner_join : simpl never.

Lemma omap_fmap_compose {A B C} (f : B → option C) (g : A → B) (l : list A) :
  omap f (g <$> l) = omap (fun x => f (g x)) l.
Proof. induction l as [|x l IH]; [done|]. csimpl. by rewrite IH. Qed.

Lemma getitem_app data1 data2 c :
  getitem (data1 ++ data2) c =
    match getitem data1 c with Ok s => Ok s | Raise _ => getitem data2 c end.
Proof.
  induction data1 as [|[k s] rest IH]; simpl; [done|].
  by destruct (String.eqb k c).
Qed.

Lemma getitem_renamed (ren : string → string) data c :
  (∀ k, ren k = c ↔ k = c) →
  getitem ((fun cs => (ren cs.1, cs.2)) <$> data) c = getitem data c.
Proof.
  intros Hren. induction data as [|[k s] rest IH]; simpl; [done|].
  destruct (String.eqb k c) eqn:E.
  - apply String.eqb_eq in E. apply Hren in E. apply String.eqb_eq in E.
    by rewrite E.
  - destruct (String.eqb (ren k) c) eqn:E'; [|done].
    apply String.eqb_eq in E'. apply (proj1 (Hren k)) in E'.
    apply String.eqb_neq in E. contradiction.
Qed.

Lemma has_column_in data cs : cs ∈ data → pd.has_column data cs.1 = true.
Proof.
  intros Hin. unfold pd.has_column, column_names. apply existsb_exists.
  exists cs.1. split; [|apply String.eqb_refl].
  apply in_map, list_elem_of_In, Hin.
Qed.

Lemma right_has_column s1 s2 c :
  pd.has_column [("daily_mean", s1); ("date", s2)] c
  = String.eqb c "daily_mean" || String.eqb c "date".
Proof.
  unfold pd.has_column, column_names. cbn [map fst existsb].
  by rewrite orb_false_r.
Qed.

(** The join of the rows with the frame of shifted means: the rows stay as
    they are, in their order, and get one more column. *)
Lemma merge_daily_mean n left dates shifted keys :
  has_rows n left → getitem left "date" = Ok (Dates dates) →
  NoDup keys → (∀ d, d ∈ dates → d ∈ keys) →
  pd.merge left [("daily_mean", Floats shifted); ("date", Dates keys)] "date"
  = Ok (((fun cs => (left_name left cs.1, cs.2)) <$> left)
        ++ [(means_name left,
             Floats (omap (fun d => shifted !! position keys d) dates))]).
Proof.
  intros Hn Hdate Hnd Hin. unfold pd.merge. rewrite Hdate.
  replace (getitem [("daily_mean", Floats shifted); ("date", Dates keys)] "date")
    with (Ok (Dates keys)) by reflexivity.
  cbn [mbind result_bind]. cbv zeta.
  rewrite inner_join_keys by done. rewrite imap_fst_seq, imap_snd_fmap.
  assert (Hlen : length dates = n) by apply (has_rows_getitem _ _ _ _ Hn Hdate).
  rewrite Hlen. do 2 f_equal.
  - apply Forall_fmap_ext. unfold has_rows in Hn.
    rewrite Forall_forall in Hn. apply Forall_forall. intros cs Hcs.
    rewrite <- (Hn cs Hcs) at 1. rewrite take_rows_all. f_equal.
    unfold left_name. rewrite (has_column_in _ _ Hcs), right_has_column.
    destruct (String.eqb cs.1 "date") eqn:E1.
    + apply String.eqb_eq in E1. rewrite E1. done.
    + destruct (String.eqb cs.1 "daily_mean") eqn:E2; [|done].
      apply String.eqb_eq in E2. rewrite <- E2.
      rewrite (has_column_in _ _ Hcs). cbn [negb andb orb]. by rewrite E2.
  - replace (filter (fun cs : string * Series => cs.1 ≠ "date")
               [("daily_mean", Floats shifted); ("date", Dates keys)])
      with [("daily_mean", Floats shifted)] by reflexivity.
    cbn [map fst snd pd.take_rows]. rewrite right_has_column.
    unfold means_name. rewrite omap_fmap_compose.
    by destruct (pd.has_column left "daily_mean").
Qed.

(** ** The previous-day mean *)

Lemma omap_total {A B} (f : A → option B) (g : A → B) (l : list A) :
  (∀ x, x ∈ l → f x = Some (g x)) → omap f l = g <$> l.
Proof.
  induction l as [|x l IH]; intros H; [done|]. csimpl.
  rewrite (H x) by constructor. f_equal. apply IH.
  intros y Hy. apply H. by constructor.
Qed.

Section daily_mean_column.
Variables (dates : list Date) (ys : list float).

Let keys := pd.group_keys dates.
Let means := (fun k => pd.mean (pd.group_values k dates ys)) <$> keys.

Lemma shifted_means_lookup d :
  d ∈ dates →
  pd.shift 1 means !! position keys d =
    Some (match position keys d with
          | O => NaN
          | S j => default NaN (means !! j)
          end).
Proof.
  intros Hd. apply group_keys_elem in Hd. fold keys in Hd.
  apply position_lookup in Hd. apply lookup_lt_Some in Hd.
  assert (Hlen : length means = length keys) by apply length_fmap.
  unfold pd.shift. rewrite lookup_take_lt by lia.
  destruct (position keys d) as [|j]; [done|]. simpl.
  destruct (means !! j) eqn:Hj; [done|].
  apply lookup_ge_None in Hj. lia.
Qed.

Lemma daily_mean_column_lookup i d :
  dates !! i = Some d →
  daily_mean_column dates ys !! i = pd.shift 1 means !! position keys d.
Proof.
  intros Hi. unfold daily_mean_column. fold keys means.
  rewrite (omap_total _ (fun d => match position keys d with
                                  | O => NaN
                                  | S j => default NaN (means !! j)
                                  end)).
  - rewrite list_lookup_fmap, Hi. simpl. symmetry.
    apply shifted_means_lookup. by eapply list_elem_of_lookup_2.
  - intros x Hx. by apply shifted_means_lookup.
Qed.

Lemma daily_mean_column_length :
  length (daily_mean_column dates ys) = length dates.
Proof.
  unfold daily_mean_column. fold keys means.
  rewrite (omap_total _ (fun d => match position keys d with
                                  | O => NaN
                                  | S j => default NaN (means !! j)
                                  end)).
  - apply length_fmap.
  - intros x Hx. by apply shifted_means_lookup.
Qed.

(** A row of the earliest date gets a null. *)
Lemma daily_mean_first i d :
  dates !! i = Some d → (∀ q, q ∈ dates → d ≤ q) →
  daily_mean_column dates ys !! i = Some NaN.
Proof.
  intros Hi Hmin. rewrite (daily_mean_column_lookup i d Hi).
  assert (Hd : d ∈ dates) by (by eapply list_elem_of_lookup_2).
  rewrite shifted_means_lookup by done.
  destruct (position keys d) as [|j] eqn:Hpos; [done|]. exfalso.
  apply group_keys_elem in Hd. fold keys in Hd.
  apply position_lookup in Hd. rewrite Hpos in Hd.
  destruct (lookup_lt_is_Some_2 keys 0) as [k0 Hk0].
  { apply lookup_lt_Some in Hd. lia. }
  pose proof (StronglySorted_lookup _ _ 0%nat (S j) k0 d
                (group_keys_sorted dates) Hk0 Hd ltac:(lia)) as Hlt.
  assert (k0 ∈ dates) as Hk0in.
  { apply group_keys_elem. by eapply list_elem_of_lookup_2. }
  specialize (Hmin _ Hk0in). lia.
Qed.

End daily_mean_column.





Lemma has_column_setitem_ne data c c' s :
  c ≠ c' → pd.has_column (setitem data c s) c' = pd.has_column data c'.
Proof.
  intros Hne. destruct (pd.has_column data c') eqn:E.
  - apply has_column_getitem in E as [s' Hs']. apply has_column_getitem.
    exists s'. by rewrite getitem_setitem_ne.
  - apply has_column_false in E. apply has_column_false.
    by rewrite getitem_setitem_ne.
Qed.

(** What a call of [add_shifted_daily_mean] that returns a frame has done. *)
Lemma add_shifted_daily_mean_Ok n data out :
  has_rows n data → add_shifted_daily_mean data = Ok out →
  ∃ st ts y ys,
    getitem data "start_time" = Ok st ∧ pd.to_datetime st = Ok ts
    ∧ getitem data "y" = Ok y ∧ as_floats y = Ok ys
    ∧ length ts = n ∧ length ys = n
    ∧ out = ((fun cs => (left_name data cs.1, cs.2))
               <$> setitem data "date" (Dates (pd.dt_date <$> ts)))
            ++ [(means_name data,
                 Floats (daily_mean_column (pd.dt_date <$> ts) ys))].
Proof.
  intros Hn H. unfold add_shifted_daily_mean in H.
  apply bind_Ok in H as (st & Hst & H). apply bind_Ok in H as (ts & Hts & H).
  apply bind_Ok in H as ([keys means] & Hg & H).
  unfold pd.groupby_mean in Hg. rewrite getitem_setitem_eq in Hg.
  cbn [mbind result_bind] in Hg.
  rewrite getitem_setitem_ne in Hg by done.
  apply bind_Ok in Hg as (y & Hy & Hg). apply bind_Ok in Hg as (ys & Hys & Hg).
  injection Hg as <- <-.
  assert (Hlts : length ts = n) by eauto using to_datetime_length, has_rows_getitem.
  exists st, ts, y, ys. repeat (split; [done|]).
  split; [eauto using as_floats_length, has_rows_getitem|].
  cbn [fst snd] in H.
  change (getitem _ "daily_mean" ≫= _) with
    (Ok (pd.shift 1 ((fun k => pd.mean (pd.group_values k (pd.dt_date <$> ts) ys))
                       <$> pd.group_keys (pd.dt_date <$> ts)))
     ≫= (fun shifted =>
           pd.merge (setitem data "date" (Dates (pd.dt_date <$> ts)))
             [("daily_mean", Floats shifted);
              ("date", Dates (pd.group_keys (pd.dt_date <$> ts)))] "date")) in H.
  cbn [mbind result_bind] in H.
  rewrite (merge_daily_mean n _ (pd.dt_date <$> ts)) in H.
  - injection H as <-. unfold left_name, means_name.
    by rewrite has_column_setitem_ne by done.
  - apply has_rows_setitem; [done|]. simpl. by rewrite length_fmap.
  - apply getitem_setitem_eq.
  - apply sorted_lt_NoDup, group_keys_sorted.
  - intros d Hd. by apply group_keys_elem.
Qed.

Lemma getitem_Raise data c e : getitem data c = Raise e → e = KeyError c.
Proof.
  induction data as [|[k s] rest IH]; simpl; [by intros [= <-]|].
  by destruct (String.eqb k c).
Qed.

Lemma left_name_other data c k :
  c ∉ ["daily_mean"; "daily_mean_x"] → left_name data k = c ↔ k = c.
Proof.
  intros Hc. rewrite !not_elem_of_cons in Hc. destruct Hc as (Hc1 & Hc2 & _).
  unfold left_name.
  destruct (String.eqb k "daily_mean") eqn:E; simpl; [|done].
  apply String.eqb_eq in E as ->.
  destruct (pd.has_column data "daily_mean"); [|done].
  split; intros <-; done.
Qed.

Lemma keeps_rows_add_shifted_daily_mean :
  keeps_rows ["date"; "daily_mean"; "daily_mean_x"; "daily_mean_y"]
             add_shifted_daily_mean.
Proof.
  intros n data out Hn H.
  destruct (add_shifted_daily_mean_Ok _ _ _ Hn H)
    as (st & ts & y & ys & Hst & Hts & Hy & Hys & Hlts & Hlys & ->).
  split.
  - apply Forall_app. split.
    + apply Forall_fmap, Forall_forall. intros cs Hcs. simpl.
      assert (has_rows n (setitem data "date" (Dates (pd.dt_date <$> ts)))) as Hn'.
      { apply has_rows_setitem; [done|]. simpl. by rewrite length_fmap. }
      unfold has_rows in Hn'. rewrite Forall_forall in Hn'. by apply Hn'.
    + repeat constructor. simpl.
      by rewrite daily_mean_column_length, length_fmap.
  - intros c Hc. rewrite !not_elem_of_cons in Hc.
    destruct Hc as (Hc1 & Hc2 & Hc3 & Hc4 & _).
    rewrite getitem_app, getitem_renamed.
    2:{ intros k. apply left_name_other. rewrite !not_elem_of_cons.
        repeat split; try done. apply not_elem_of_nil. }
    rewrite getitem_setitem_ne by done.
    destruct (getitem data c) as [s|e] eqn:E; [done|].
    apply getitem_Raise in E as ->. simpl.
    assert (String.eqb (means_name data) c = false) as ->; [|done].
    apply String.eqb_neq. unfold means_name.
    destruct (pd.has_column data "daily_mean"); done.
Qed.

(** In a frame without a column [daily_mean], the last stage sets the
    column [date] and appends the column [daily_mean]. *)
Lemma add_shifted_daily_mean_fresh n data out :
  has_rows n data → pd.has_column data "daily_mean" = false →
  add_shifted_daily_mean data = Ok out →
  ∃ ts ys,
    (getitem data "start_time" ≫= pd.to_datetime) = Ok ts
    ∧ (getitem data "y" ≫= as_floats) = Ok ys
    ∧ length ts = n ∧ length ys = n
    ∧ out = setitem data "date" (Dates (pd.dt_date <$> ts))
            ++ [("daily_mean", Floats (daily_mean_column (pd.dt_date <$> ts) ys))].
Proof.
  intros Hn Hfresh H.
  destruct (add_shifted_daily_mean_Ok _ _ _ Hn H)
    as (st & ts & y & ys & Hst & Hts & Hy & Hys & Hlts & Hlys & ->).
  exists ts, ys. rewrite Hst, Hy. repeat (split; [done|]).
  unfold means_name. rewrite Hfresh. f_equal.
  rewrite <- (list_fmap_id (setitem _ _ _)) at 2.
  apply list_fmap_ext. intros i [k s] _. unfold left_name. simpl.
  by rewrite Hfresh, andb_false_r.
Qed.

(** ** Stages as column assignments *)

Lemma assign_all_names data kvs :
  column_names (assign_all data kvs) = foldl add_name (column_names data) kvs.*1.
Proof.
  unfold assign_all. revert data.
  induction kvs as [|[c s] kvs IH]; intros data; [done|]. simpl.
  rewrite IH. f_equal. unfold add_name. apply column_names_setitem.
Qed.

Lemma add_name_fresh names c :
  existsb (String.eqb c) names = false → add_name names c = names ++ [c].
Proof. unfold add_name. by intros ->. Qed.

Lemma getitem_setitems_floats data columns X c s w :
  getitem data c = Ok (Floats w) → getitem (setitems data columns X) c = Ok s →
  ∃ col, s = Floats col.
Proof.
  unfold setitems. revert data X w.
  induction columns as [|c0 columns IH]; intros data X w Hc Hs.
  - simpl in Hs. rewrite Hc in Hs. injection Hs as <-. eauto.
  - destruct X as [|x X]; simpl in Hs.
    + rewrite Hc in Hs. injection Hs as <-. eauto.
    + destruct (decide (c0 = c)) as [->|Hne].
      * eapply (IH _ _ x); [|exact Hs]. apply getitem_setitem_eq.
      * eapply (IH _ _ w); [|exact Hs]. by rewrite getitem_setitem_ne.
Qed.

Lemma getitems_ext data data' columns :
  (∀ c, c ∈ columns → getitem data c = getitem data' c) →
  getitems data columns = getitems data' columns.
Proof.
  induction columns as [|c0 columns IH]; intros H; simpl; [done|].
  rewrite (H c0) by constructor. rewrite IH; [done|].
  intros c Hc. apply H. by constructor.
Qed.

(** What a call of [apply_preprocessing] that returns a frame has done. *)
Lemma apply_preprocessing_Ok self data out self' :
  apply_preprocessing self data = (Ok out, self') →
  ∃ y0 y w X X' ys,
    getitem data "y" = Ok y0 ∧ as_floats y0 = Ok y
    ∧ mstats.winsorize y ((5 # 1000)%Q, (5 # 1000)%Q) = Ok w
    ∧ getitems (setitem data "y" (Floats w)) columns_to_scale = Ok X
    ∧ sklearn.transform (scaler self') X = Ok X'
    ∧ scaler_is_trained self' = true
    ∧ (if scaler_is_trained self then self' = self
       else sklearn.fit (scaler self) X = Ok (scaler self'))
    ∧ getitem (setitems (setitem (setitem data "y_original" y0) "y" (Floats w))
                        columns_to_scale X') "y" = Ok (Floats ys)
    ∧ out = assign_all
              (setitems (setitem (setitem data "y_original" y0) "y" (Floats w))
                        columns_to_scale X')
              [("y_yesterday", Floats (pd.shift 288 ys));
               ("y_prev", Floats (pd.shift 1 ys))].
Proof.
  unfold apply_preprocessing.
  destruct (getitem data "y") as [y0|] eqn:Hy0; [|done].
  destruct (winsorize_one_percent _) as [d2|] eqn:Hw; [|done].
  destruct (scale_data self d2) as [[d3|] self1] eqn:Hs; [|done].
  intros [= H <-].
  unfold winsorize_one_percent in Hw.
  rewrite getitem_setitem_ne in Hw by done. rewrite Hy0 in Hw.
  cbn [mbind result_bind] in Hw.
  apply bind_Ok in Hw as (y & Hy & Hw). apply bind_Ok in Hw as (w & Hwin & [= <-]).
  apply scale_data_Ok in Hs as (X & X' & HX & HX' & -> & Htr & Hfit).
  apply bind_Ok in H as (d4 & Hd4 & H).
  unfold add_shifted_daily_value in Hd4.
  apply bind_Ok in Hd4 as (sy & Hsy & Hd4).
  apply bind_Ok in Hd4 as (ys & Hys & [= <-]).
  unfold shift_y in H. rewrite getitem_setitem_ne in H by done.
  rewrite Hsy in H. cbn [mbind result_bind] in H. rewrite Hys in H.
  cbn [mbind result_bind] in H. injection H as <-.
  destruct (getitem_setitems_floats _ _ _ _ _ w
              (getitem_setitem_eq _ _ _) Hsy) as [col ->].
  simpl in Hys. injection Hys as ->.
  exists y0, y, w, X, X', ys. repeat (split; [done|]).
  split; [|done].
  rewrite <- HX. apply getitems_ext. intros c Hc.
  destruct (decide (c = "y")) as [->|Hne].
  - by rewrite !getitem_setitem_eq.
  - rewrite !(getitem_setitem_ne _ "y") by done.
    symmetry. apply getitem_setitem_ne. intros <-.
    unfold columns_to_scale in Hc. rewrite !elem_of_cons in Hc.
    rewrite elem_of_nil in Hc. intuition discriminate.
Qed.

Lemma getitem_assign_all_other data kvs c :
  c ∉ kvs.*1 → getitem (assign_all data kvs) c = getitem data c.
Proof.
  unfold assign_all. revert data.
  induction kvs as [|[k s] kvs IH]; intros data Hc; [done|]. simpl in *.
  apply not_elem_of_cons in Hc as [Hne Hc].
  rewrite IH by done. by apply getitem_setitem_ne.
Qed.

Lemma apply_feature_engineering_Ok n data out :
  has_rows n data → apply_feature_engineering data = Ok out →
  ∃ ts,
    (getitem data "start_time" ≫= pd.to_datetime) = Ok ts
    ∧ has_rows n (assign_all data (calendar_features ts))
    ∧ add_shifted_daily_mean (assign_all data (calendar_features ts)) = Ok out.
Proof.
  intros Hn H. unfold apply_feature_engineering in H.
  apply bind_Ok in H as (d1 & H1 & H). apply bind_Ok in H as (d2 & H2 & H).
  apply bind_Ok in H as (d3 & H3 & H). apply bind_Ok in H as (d4 & H4 & H).
  destruct (keeps_rows_add_hour_of_day _ _ _ Hn H1) as [Hn1 _].
  destruct (keeps_rows_add_min_of_day _ _ _ Hn1 H2) as [Hn2 _].
  destruct (keeps_rows_add_day_of_week _ _ _ Hn2 H3) as [Hn3 _].
  destruct (keeps_rows_add_day_of_year _ _ _ Hn3 H4) as [Hn4 _].
  unfold add_hour_of_day in H1.
  apply bind_Ok in H1 as (st & Hst & H1). apply bind_Ok in H1 as (ts & Hts & [= <-]).
  unfold add_min_of_day in H2.
  rewrite (getitem_setitem_ne _ _ "start_time"), Hst in H2 by done. cbn [mbind result_bind] in H2.
  rewrite Hts in H2. cbn [mbind result_bind] in H2.
  rewrite getitem_setitem_eq in H2. cbn [mbind result_bind pd.as_ints] in H2.
  injection H2 as <-.
  unfold add_day_of_week in H3.
  rewrite !(getitem_setitem_ne _ _ "start_time"), Hst in H3 by done. cbn [mbind result_bind] in H3.
  rewrite Hts in H3. cbn [mbind result_bind] in H3. injection H3 as <-.
  unfold add_day_of_year in H4.
  rewrite !(getitem_setitem_ne _ _ "start_time"), Hst in H4 by done. cbn [mbind result_bind] in H4.
  rewrite Hts in H4. cbn [mbind result_bind] in H4. injection H4 as <-.
  exists ts. rewrite Hst. split; [done|]. split; [exact Hn4 | exact H].
Qed.

Lemma winsorize_length y w :
  mstats.winsorize y ((5 # 1000)%Q, (5 # 1000)%Q) = Ok w → length w = length y.
Proof.
  intros Hw. destruct y as [|y1 y]; [done|].
  destruct (winsorize_bounds (y1 :: y)) as (w' & _ & _ & Hw' & Hlen & _); [done|].
  rewrite Hw in Hw'. by injection Hw' as <-.
Qed.

Lemma apply_preprocessing_scaled_rows n data (self' : DataLoader) y0 y w X X' :
  has_rows n data → getitem data "y" = Ok y0 → as_floats y0 = Ok y →
  mstats.winsorize y ((5 # 1000)%Q, (5 # 1000)%Q) = Ok w →
  getitems (setitem data "y" (Floats w)) columns_to_scale = Ok X →
  sklearn.transform (scaler self') X = Ok X' →
  has_rows n (setitems (setitem (setitem data "y_original" y0) "y" (Floats w))
                       columns_to_scale X').
Proof.
  intros Hn Hy0 Hy Hw HX HX'.
  assert (Hlen : length w = n).
  { rewrite (winsorize_length _ _ Hw).
    eauto using as_floats_length, has_rows_getitem. }
  apply has_rows_setitems.
  - repeat apply has_rows_setitem; eauto using has_rows_getitem.
  - eapply transform_has_rows; [exact HX'|].
    eapply getitems_has_rows; [|exact HX]. by apply has_rows_setitem.
Qed.

(** Every run that returns a frame went through the steps of
    [processed]. *)
Lemma get_processed_data_Ok n self data out self' :
  has_rows n data → get_processed_data self data = (Ok out, self') →
  processed n self data self' out.
Proof.
  intros Hn. unfold get_processed_data.
  destruct (apply_preprocessing self data) as [[d|] self1] eqn:Hpre; [|done].
  intros [= H <-].
  destruct (apply_preprocessing_Ok _ _ _ _ Hpre)
    as (y0 & y & w & X & X' & ys & Hy0 & Hy & Hw & HX & HX' & Htr & Hfit & Hys & ->).
  pose proof (apply_preprocessing_scaled_rows _ _ _ _ _ _ _ _ Hn Hy0 Hy Hw HX HX')
    as Hn3.
  assert (Hys' : length ys = n) by apply (has_rows_getitem _ _ _ _ Hn3 Hys).
  assert (Hn5 : has_rows n (assign_all
      (setitems (setitem (setitem data "y_original" y0) "y" (Floats w))
                columns_to_scale X')
      [("y_yesterday", Floats (pd.shift 288 ys));
       ("y_prev", Floats (pd.shift 1 ys))])).
  { unfold assign_all. simpl.
    repeat apply has_rows_setitem; try done; simpl; by rewrite shift_length. }
  destruct (apply_feature_engineering_Ok _ _ _ Hn5 H) as (ts & Hts & Hn9 & Hout).
  eapply (Processed n self data self1 out y0 y w X X' ys (calendar_features ts));
    try done.
  rewrite <- Hts. rewrite getitem_assign_all_other by names.
  rewrite getitem_setitems_other by names.
  by rewrite !getitem_setitem_ne by done.
Qed.

(** ** The columns of a processed frame *)

Section processed_frame.
Context {n : nat} {self self' : DataLoader} {data out : DataFrame}.
Hypothesis Hrun : processed n self data self' out.

Lemma processed_has_rows : has_rows n out.
Proof.
  destruct Hrun as [y0 y w X X' ys calendar scaled lagged
                      Hy0 Hy Hw HX HX' Htr Hfit Hys Hcal Hn3 Hn9 Hout ts0 Hts0 Hfeat].
  by destruct (keeps_rows_add_shifted_daily_mean _ _ _ Hn9 Hout).
Qed.


Lemma processed_y_original : getitem out "y_original" = getitem data "y".
Proof.
  destruct Hrun as [y0 y w X X' ys calendar scaled lagged
                      Hy0 Hy Hw HX HX' Htr Hfit Hys Hcal Hn3 Hn9 Hout ts0 Hts0 Hfeat].
  destruct (keeps_rows_add_shifted_daily_mean _ _ _ Hn9 Hout) as [_ ->]; [|names].
  rewrite getitem_assign_all_other by (rewrite Hcal; names).
  unfold lagged. rewrite getitem_assign_all_other by names.
  unfold scaled. rewrite getitem_setitems_other by names.
  rewrite getitem_setitem_ne by done. by rewrite getitem_setitem_eq.
Qed.


(** The lagged columns are shifts of the scaled [y]. *)
Lemma processed_lags :
  ∃ ys,
    getitem out "y" = Ok (Floats ys) ∧ length ys = n
    ∧ getitem out "y_prev" = Ok (Floats (pd.shift 1 ys))
    ∧ getitem out "y_yesterday" = Ok (Floats (pd.shift 288 ys)).
Proof.
  destruct Hrun as [y0 y w X X' ys calendar scaled lagged
                      Hy0 Hy Hw HX HX' Htr Hfit Hys Hcal Hn3 Hn9 Hout ts0 Hts0 Hfeat].
  destruct (keeps_rows_add_shifted_daily_mean _ _ _ Hn9 Hout) as [_ Hlast].
  exists ys. rewrite !Hlast by names.
  rewrite !getitem_assign_all_other by (rewrite Hcal; names).
  unfold lagged, assign_all. simpl.
  rewrite !(getitem_setitem_ne _ _ "y") by done.
  rewrite getitem_setitem_eq.
  rewrite (getitem_setitem_ne _ "y_prev" "y_yesterday") by done.
  rewrite getitem_setitem_eq.
  repeat split; try done. apply (has_rows_getitem _ _ _ _ Hn3 Hys).
Qed.

(** Without a column [daily_mean] in the input, the output has the dates
    of the rows and the previous-day means in [date] and [daily_mean]. *)
Lemma processed_daily_mean :
  pd.has_column data "daily_mean" = false →
  ∃ ts ys,
    (getitem data "start_time" ≫= pd.to_datetime) = Ok ts
    ∧ length ts = n
    ∧ getitem out "y" = Ok (Floats ys) ∧ length ys = n
    ∧ getitem out "date" = Ok (Dates (pd.dt_date <$> ts))
    ∧ getitem out "daily_mean"
      = Ok (Floats (daily_mean_column (pd.dt_date <$> ts) ys)).
Proof.
  intros Hfresh.
  destruct processed_lags as (ys' & Hys' & Hlys' & _).
  destruct Hrun as [y0 y w X X' ys calendar scaled lagged
                      Hy0 Hy Hw HX HX' Htr Hfit Hys Hcal Hn3 Hn9 Hout ts0 Hts0 Hfeat].
  assert (Hother : ∀ c, c ∉ written_columns →
            getitem (assign_all lagged calendar) c = getitem data c).
  { intros c Hc. unfold written_columns in Hc.
    rewrite not_elem_of_cons, !not_elem_of_app in Hc.
    destruct Hc as (Hc0 & Hc1 & Hc2 & Hc3 & Hc4).
    rewrite getitem_assign_all_other by (by rewrite Hcal).
    unfold lagged. rewrite getitem_assign_all_other by done.
    unfold scaled. rewrite getitem_setitems_other by done.
    rewrite !getitem_setitem_ne; [done | done |].
    intros <-. apply Hc1. names. }
  assert (Hfresh' : pd.has_column (assign_all lagged calendar) "daily_mean" = false).
  { apply has_column_false in Hfresh. apply has_column_false.
    rewrite getitem_assign_all_other by (rewrite Hcal; names).
    unfold lagged. rewrite getitem_assign_all_other by names.
    unfold scaled. rewrite getitem_setitems_other by names.
    by rewrite !getitem_setitem_ne by done. }
  destruct (add_shifted_daily_mean_fresh _ _ _ Hn9 Hfresh' Hout)
    as (ts & ys2 & Hts & Hys2 & Hlts & Hlys2 & Heq).
  rewrite Hother in Hts by names.
  assert (getitem (assign_all lagged calendar) "y" = Ok (Floats ys2)) as Hy9.
  { destruct (getitem (assign_all lagged calendar) "y") as [sy|] eqn:E; [|done].
    destruct (keeps_rows_add_shifted_daily_mean _ _ _ Hn9 Hout) as [_ Hlast].
    rewrite Hlast, E in Hys' by names. injection Hys' as ->.
    simpl in Hys2. by injection Hys2 as ->. }
  exists ts, ys2. repeat (split; [done|]).
  subst out. rewrite !getitem_app, getitem_setitem_eq.
  rewrite !getitem_setitem_ne by done. rewrite Hy9.
  apply has_column_false in Hfresh'. rewrite Hfresh'. done.
Qed.
End processed_frame.

(** ** Valid input is processed *)

Lemma feature_engineering_succeeds n data ts ys :
  has_rows n data → getitem data "start_time" = Ok (Times ts) →
  getitem data "y" = Ok (Floats ys) →
  ∃ out, apply_feature_engineering data = Ok out.
Proof.
  intros Hn Hts Hys. unfold apply_feature_engineering.
  unfold add_hour_of_day. rewrite Hts. cbn [mbind result_bind pd.to_datetime].
  unfold add_min_of_day. rewrite getitem_setitem_eq.
  rewrite getitem_setitem_ne, Hts by done.
  cbn [mbind result_bind pd.to_datetime pd.as_ints].
  unfold add_day_of_week. rewrite !getitem_setitem_ne, Hts by done.
  cbn [mbind result_bind pd.to_datetime].
  unfold add_day_of_year. rewrite !getitem_setitem_ne, Hts by done.
  cbn [mbind result_bind pd.to_datetime].
  match goal with |- ∃ out, add_shifted_daily_mean ?d = _ => set (d9 := d) end.
  assert (Hts9 : getitem d9 "start_time" = Ok (Times ts)).
  { unfold d9. by rewrite !getitem_setitem_ne by done. }
  assert (Hys9 : getitem d9 "y" = Ok (Floats ys)).
  { unfold d9. by rewrite !getitem_setitem_ne by done. }
  assert (Hlts : length ts = n) by apply (has_rows_getitem _ _ _ _ Hn Hts).
  assert (Hn9 : has_rows n d9).
  { unfold d9. repeat apply has_rows_setitem; try done; simpl;
      rewrite ?length_fmap, ?normalised_length,
        ?length_zip_with, ?length_fmap; lia. }
  clearbody d9. unfold add_shifted_daily_mean. rewrite Hts9.
  cbn [mbind result_bind pd.to_datetime].
  unfold pd.groupby_mean. rewrite getitem_setitem_eq.
  cbn [mbind result_bind]. rewrite getitem_setitem_ne, Hys9 by done.
  cbn [mbind result_bind as_floats fst snd].
  change (getitem _ "daily_mean" ≫= _) with
    (Ok (pd.shift 1 ((fun k => pd.mean (pd.group_values k (pd.dt_date <$> ts) ys))
                       <$> pd.group_keys (pd.dt_date <$> ts)))
     ≫= (fun shifted =>
           pd.merge (setitem d9 "date" (Dates (pd.dt_date <$> ts)))
             [("daily_mean", Floats shifted);
              ("date", Dates (pd.group_keys (pd.dt_date <$> ts)))] "date")).
  cbn [mbind result_bind].
  rewrite (merge_daily_mean n _ (pd.dt_date <$> ts)); [eauto | | | |].
  - apply has_rows_setitem; [done|]. simpl. by rewrite length_fmap.
  - apply getitem_setitem_eq.
  - apply sorted_lt_NoDup, group_keys_sorted.
  - intros d Hd. by apply group_keys_elem.
Qed.

Lemma lags_succeed data ys :
  getitem data "y" = Ok (Floats ys) →
  (d ← add_shifted_daily_value data; shift_y d)
  = Ok (assign_all data [("y_yesterday", Floats (pd.shift 288 ys));
                         ("y_prev", Floats (pd.shift 1 ys))]).
Proof.
  intros Hys. unfold add_shifted_daily_value, shift_y. rewrite Hys.
  cbn [mbind result_bind as_floats].
  rewrite getitem_setitem_ne, Hys by done. done.
Qed.

Lemma getitems_succeeds data columns :
  forallb (column_is numeric data) columns = true →
  ∃ X, getitems data columns = Ok X.
Proof.
  induction columns as [|c columns IH]; simpl; [eauto|].
  intros [Hc Hcols]%andb_prop. destruct (IH Hcols) as [X ->].
  unfold column_is in Hc. destruct (getitem data c) as [s|]; [|done].
  destruct s; try done; simpl; eauto.
Qed.

Lemma fit_succeeds self X :
  sklearn.n_samples X ≠ 0%nat →
  ∃ f, sklearn.fit self X
       = Ok {| sklearn.feature_range := sklearn.feature_range self;
               sklearn.attrs := Some f |}
       ∧ length (sklearn.scale_ f) = length X
       ∧ length (sklearn.min_ f) = length X.
Proof.
  intros HX. unfold sklearn.fit.
  destruct (sklearn.n_samples X =? 0)%nat eqn:E; [by apply Nat.eqb_eq in E|].
  destruct (sklearn.feature_range self) as [fmin fmax].
  eexists. split; [reflexivity|]. simpl.
  rewrite ?length_zip_with, ?length_map, ?length_zip_with, ?length_map. lia.
Qed.

Lemma transform_succeeds self f X :
  sklearn.attrs self = Some f → sklearn.n_samples X ≠ 0%nat →
  length (sklearn.scale_ f) = length X → length (sklearn.min_ f) = length X →
  ∃ X', sklearn.transform self X = Ok X' ∧ length X' = length X.
Proof.
  intros Hf HX Hs Hm. unfold sklearn.transform. rewrite Hf.
  destruct (sklearn.n_samples X =? 0)%nat eqn:E; [by apply Nat.eqb_eq in E|].
  rewrite Hs, Nat.eqb_refl. simpl. eexists. split; [reflexivity|].
  rewrite length_zip_with, length_zip. lia.
Qed.

Lemma scale_data_succeeds self data X :
  valid_loader self = true → getitems data columns_to_scale = Ok X →
  sklearn.n_samples X ≠ 0%nat →
  ∃ X' self',
    scale_data self data = (Ok (setitems data columns_to_scale X'), self')
    ∧ sklearn.transform (scaler self') X = Ok X'
    ∧ length X' = 9%nat ∧ valid_loader self' = true.
Proof.
  intros Hv HX Hrows.
  assert (HlX : length X = 9%nat) by apply (getitems_Ok _ _ _ HX).
  unfold scale_data, valid_loader in *. rewrite HX.
  destruct (scaler_is_trained self) eqn:Htr; cbn [negb orb] in *.
  - destruct (sklearn.attrs (scaler self)) as [f|] eqn:Hf; [|done].
    apply andb_prop in Hv as [Hs%Nat.eqb_eq Hm%Nat.eqb_eq].
    destruct (transform_succeeds _ f X Hf Hrows) as (X' & HX' & HlX'); [lia..|].
    cbn [mbind result_bind]. rewrite HX'. exists X', self.
    repeat split; [done | lia |]. rewrite Htr, Hf. simpl.
    by rewrite Hs, Hm.
  - destruct (fit_succeeds (scaler self) X Hrows) as (f & Hfit & Hs & Hm).
    rewrite Hfit. cbn [mbind result_bind scaler].
    destruct (transform_succeeds {| sklearn.feature_range := sklearn.feature_range (scaler self);
                                    sklearn.attrs := Some f |} f X)
      as (X' & HX' & HlX'); [done | done | lia | lia |].
    rewrite HX'. eexists X', _. repeat split; [done | lia |]. simpl.
    by rewrite Hs, Hm, HlX.
Qed.

(** A valid loader processes every valid input, and stays valid. *)
Lemma get_processed_data_succeeds self data :
  valid_loader self = true → valid_input data = true →
  ∃ out self',
    get_processed_data self data = (Ok out, self') ∧ valid_loader self' = true.
Proof.
  intros Hv Hin. unfold valid_input in Hin.
  apply andb_prop in Hin as [Hin Hnum]. apply andb_prop in Hin as [Hin Htimes].
  apply andb_prop in Hin as [Hrect Hpos%Nat.ltb_lt].
  apply rectangular_has_rows in Hrect. set (n := nrows data) in *.
  assert (Hcol : ∀ c, c ∈ columns_to_scale →
            ∃ s col, getitem data c = Ok s ∧ as_floats s = Ok col ∧ length col = n).
  { intros c Hc. rewrite forallb_forall in Hnum.
    specialize (Hnum c (proj1 (list_elem_of_In _ _) Hc)). unfold column_is in Hnum.
    destruct (getitem data c) as [s|] eqn:Hs; [|done].
    pose proof (has_rows_getitem _ _ _ _ Hrect Hs) as Hlen.
    destruct s; try done; simpl in *; eexists _, _;
      (split; [done|]); (split; [done|]); by rewrite ?length_map. }
  destruct (Hcol "y") as (y0 & y & Hy0 & Hy & Hly); [names|].
  destruct (winsorize_bounds y) as (w & _ & _ & Hw & Hlw & _).
  { intros ->. simpl in Hly. lia. }
  unfold column_is in Htimes.
  destruct (getitem data "start_time") as [[| |ts| |]|] eqn:Hts; try done.
  unfold get_processed_data, apply_preprocessing. rewrite Hy0.
  unfold winsorize_one_percent. rewrite getitem_setitem_ne, Hy0 by done.
  cbn [mbind result_bind]. rewrite Hy. cbn [mbind result_bind]. rewrite Hw.
  cbn [mbind result_bind].
  set (d2 := setitem (setitem data "y_original" y0) "y" (Floats w)).
  assert (Hn2 : has_rows n d2).
  { unfold d2. repeat apply has_rows_setitem; try done; [|simpl; congruence].
    eauto using has_rows_getitem. }
  destruct (getitems_succeeds d2 columns_to_scale) as [X HX].
  { apply forallb_forall. intros c Hc%list_elem_of_In. unfold column_is, d2.
    destruct (decide (c = "y")) as [->|Hne].
    - by rewrite getitem_setitem_eq.
    - rewrite getitem_setitem_ne by done. rewrite getitem_setitem_ne.
      + destruct (Hcol c Hc) as (s & col & -> & Hs & _). by destruct s.
      + intros <-. revert Hc. names. }
  assert (Hrows : sklearn.n_samples X ≠ 0%nat).
  { destruct (getitems_Ok _ _ _ HX) as [HlX Hcols].
    destruct (Hcols 0%nat "hydro" eq_refl) as (s & col & Hs & Hcol0 & HX0).
    destruct X as [|col0 X]; [done|]. simpl in *. injection HX0 as ->.
    rewrite (as_floats_length n s col); [lia | | done].
    by eapply has_rows_getitem. }
  destruct (scale_data_succeeds self d2 X Hv HX Hrows)
    as (X' & self' & -> & HX' & HlX' & Hv').
  destruct (lookup_lt_is_Some_2 X' 8) as [ys Hys]; [lia|].
  set (d3 := setitems d2 columns_to_scale X').
  assert (Hys3 : getitem d3 "y" = Ok (Floats ys)).
  { apply (getitem_setitems _ _ _ 8); [names | done | done]. }
  assert (Hn3 : has_rows n d3).
  { apply has_rows_setitems; [done|].
    eauto using transform_has_rows, getitems_has_rows. }
  assert (Hts3 : getitem d3 "start_time" = Ok (Times ts)).
  { unfold d3. rewrite getitem_setitems_other by names.
    unfold d2. by rewrite !getitem_setitem_ne by done. }
  rewrite (lags_succeed _ _ Hys3).
  destruct (feature_engineering_succeeds n
              (assign_all d3 [("y_yesterday", Floats (pd.shift 288 ys));
                              ("y_prev", Floats (pd.shift 1 ys))]) ts ys)
    as [out Hout].
  - pose proof (has_rows_getitem _ _ _ _ Hn3 Hys3) as Hlys. simpl in Hlys.
    unfold assign_all. simpl.
    repeat apply has_rows_setitem; try done; simpl; by rewrite shift_length.
  - by rewrite getitem_assign_all_other by names.
  - by rewrite getitem_assign_all_other by names.
  - exists out, self'. by rewrite Hout.
Qed.

(** ** Column order *)

Lemma add_names_fresh names new :
  NoDup new → Forall (fun c => existsb (String.eqb c) names = false) new →
  foldl add_name names new = names ++ new.
Proof.
  revert names. induction new as [|c new IH]; intros names Hnd Hfresh; simpl.
  - by rewrite app_nil_r.
  - apply NoDup_cons in Hnd as [Hc Hnd]. apply Forall_cons in Hfresh as [Hfc Hfresh].
    rewrite (add_name_fresh _ _ Hfc), IH, <- app_assoc; [done | done |].
    apply Forall_forall. intros c' Hc'. rewrite existsb_app.
    rewrite Forall_forall in Hfresh. rewrite (Hfresh c' Hc'). simpl.
    rewrite orb_false_r. apply String.eqb_neq. by intros ->.
Qed.

Lemma column_names_setitem_old data c s :
  pd.has_column data c = true → column_names (setitem data c s) = column_names data.
Proof. intros H. by rewrite column_names_setitem, H. Qed.

Lemma column_names_setitems data columns X :
  Forall (fun c => pd.has_column data c = true) columns →
  column_names (setitems data columns X) = column_names data.
Proof.
  unfold setitems. revert data X.
  induction columns as [|c columns IH]; intros data X Hall; [done|].
  destruct X as [|x X]; [done|]. simpl.
  apply Forall_cons in Hall as [Hc Hall].
  rewrite IH; [by apply column_names_setitem_old|].
  eapply Forall_impl; [exact Hall|]. intros c' Hc'. simpl in *.
  unfold pd.has_column in *. by rewrite column_names_setitem_old.
Qed.

(** On an input without any of the derived columns, the output has the
    input's columns followed by the derived ones in the order of
    [derived_columns]. *)
Lemma processed_names n self data self' out :
  processed n self data self' out →
  Forall (fun c => pd.has_column data c = false) derived_columns →
  column_names out = column_names data ++ derived_columns.
Proof.
  intros Hrun Hfresh.
  assert (Hdm : pd.has_column data "daily_mean" = false).
  { rewrite Forall_forall in Hfresh. apply Hfresh. names. }
  destruct Hrun as [y0 y w X X' ys calendar scaled lagged
                      Hy0 Hy Hw HX HX' Htr Hfit Hys Hcal Hn3 Hn9 Hout ts0 Hts0 Hfeat].
  assert (Hfresh' : pd.has_column (assign_all lagged calendar) "daily_mean" = false).
  { apply has_column_false in Hdm. apply has_column_false.
    rewrite getitem_assign_all_other by (rewrite Hcal; names).
    unfold lagged. rewrite getitem_assign_all_other by names.
    unfold scaled. rewrite getitem_setitems_other by names.
    by rewrite !getitem_setitem_ne by done. }
  destruct (add_shifted_daily_mean_fresh _ _ _ Hn9 Hfresh' Hout)
    as (ts & ys2 & _ & _ & _ & _ & ->).
  assert (Hy_old : pd.has_column data "y" = true).
  { apply has_column_getitem. eauto. }
  assert (Hscaled : column_names scaled = column_names data ++ ["y_original"]).
  { unfold scaled. rewrite column_names_setitems.
    - rewrite column_names_setitem_old.
      + rewrite column_names_setitem.
        rewrite Forall_forall in Hfresh. by rewrite (Hfresh "y_original") by names.
      + apply has_column_getitem. rewrite getitem_setitem_ne by done. eauto.
    - apply Forall_forall. intros c Hc. apply has_column_getitem.
      apply list_elem_of_lookup_1 in Hc as [i Hi].
      destruct (getitems_Ok _ _ _ HX) as [_ Hcols].
      destruct (Hcols i c Hi) as (s & col & Hs & _ & _).
      destruct (decide (c = "y")) as [->|Hne].
      + rewrite getitem_setitem_eq. eauto.
      + rewrite getitem_setitem_ne in Hs by done.
        rewrite getitem_setitem_ne by done. rewrite getitem_setitem_ne; [eauto|].
        intros <-. apply list_elem_of_lookup_2 in Hi. revert Hi. names. }
  unfold column_names at 1. rewrite map_app.
  fold (column_names (setitem (assign_all lagged calendar) "date"
                              (Dates (pd.dt_date <$> ts)))).
  change (column_names (setitem ?d "date" ?s))
    with (column_names (assign_all d [("date", s)])).
  rewrite !assign_all_names. unfold lagged. rewrite assign_all_names, Hscaled, Hcal.
  rewrite <- !foldl_app.
  rewrite add_names_fresh.
  - by rewrite <- !app_assoc.
  - names.
  - apply Forall_forall. intros c Hc. rewrite existsb_app.
    rewrite Forall_forall in Hfresh. unfold pd.has_column in Hfresh.
    rewrite Hfresh.
    + simpl. rewrite orb_false_r. apply String.eqb_neq. intros ->. revert Hc. names.
    + revert Hc. cbn [fmap list_fmap fst app calendar_columns derived_columns].
      rewrite !elem_of_cons, elem_of_nil. intuition (subst; names).
Qed.

(** ** The scaler *)



(** What [fit] stores. *)
Lemma fit_Ok self X sc :
  sklearn.fit self X = Ok sc →
  ∃ f,
    sklearn.attrs sc = Some f
    ∧ sklearn.feature_range sc = sklearn.feature_range self
    ∧ sklearn.data_min_ f = np.nanmin <$> X
    ∧ sklearn.data_max_ f = np.nanmax <$> X
    ∧ sklearn.data_range_ f
      = zip_with fsub (sklearn.data_max_ f) (sklearn.data_min_ f)
    ∧ sklearn.scale_ f
      = (fun r => fdiv (Some ((sklearn.feature_range self).2
                              - (sklearn.feature_range self).1)%Q)
                       (sklearn.handle_zeros_in_scale r))
          <$> sklearn.data_range_ f
    ∧ sklearn.min_ f
      = zip_with (fun m s => fsub (Some (sklearn.feature_range self).1) (fmul m s))
                 (sklearn.data_min_ f) (sklearn.scale_ f).
Proof.
  unfold sklearn.fit. destruct (sklearn.n_samples X =? 0)%nat; [done|].
  destruct (sklearn.feature_range self) as [fmin fmax] eqn:Hfr.
  intros [= <-]. eexists. repeat split.
Qed.


(** ** Shifts *)

Lemma shift_lookup_lt k xs i :
  (i < k)%nat → (i < length xs)%nat → pd.shift k xs !! i = Some NaN.
Proof.
  intros Hk Hi. unfold pd.shift. rewrite lookup_take_lt by done.
  rewrite lookup_app_l by (by rewrite length_replicate).
  by apply lookup_replicate_2.
Qed.

Lemma shift_lookup_ge k xs i :
  (k ≤ i)%nat → (i < length xs)%nat → pd.shift k xs !! i = xs !! (i - k)%nat.
Proof.
  intros Hk Hi. unfold pd.shift. rewrite lookup_take_lt by done.
  rewrite lookup_app_r by (by rewrite length_replicate).
  by rewrite length_replicate.
Qed.


Lemma valid_input_rows data :
  valid_input data = true → has_rows (nrows data) data ∧ (0 < nrows data)%nat.
Proof.
  unfold valid_input. intros Hin.
  apply andb_prop in Hin as [Hin _]. apply andb_prop in Hin as [Hin _].
  apply andb_prop in Hin as [Hrect Hpos%Nat.ltb_lt].
  split; [by apply rectangular_has_rows | done].
Qed.

(** The mean of a non-empty group of numbers is their sum over their
    count. *)
Lemma mean_of_numbers (vs : list Q) :
  vs ≠ [] →
  pd.mean (Some <$> vs)
  = Some (foldr Qplus 0%Q vs / inject_Z (Z.of_nat (length vs)))%Q.
Proof.
  intros Hne. unfold pd.mean.
  assert (omap id (Some <$> vs) = vs) as ->.
  { induction vs as [|v vs IH]; [done|]. csimpl.
    destruct vs; [done|]. by rewrite IH. }
  by destruct vs.
Qed.

(** ** The calendar columns *)

Lemma getitem_assign_all data kvs c s :
  NoDup kvs.*1 → (c, s) ∈ kvs → getitem (assign_all data kvs) c = Ok s.
Proof.
  unfold assign_all. revert data.
  induction kvs as [|[k s'] kvs IH]; intros data Hnd Hin.
  - by apply elem_of_nil in Hin.
  - simpl in *. apply NoDup_cons in Hnd as [Hk Hnd].
    apply elem_of_cons in Hin as [[= -> ->]|Hin].
    + fold (assign_all (setitem data k s') kvs).
      rewrite getitem_assign_all_other by done. apply getitem_setitem_eq.
    + by apply IH.
Qed.

(** The calendar columns of the output are the calendar features of the
    input's [start_time]. *)
Lemma processed_calendar n self data self' out :
  processed n self data self' out →
  ∃ ts,
    (getitem data "start_time" ≫= pd.to_datetime) = Ok ts
    ∧ ∀ c s, (c, s) ∈ calendar_features ts → getitem out c = Ok s.
Proof.
  intros Hrun.
  destruct Hrun as [y0 y w X X' ys calendar scaled lagged
                      Hy0 Hy Hw HX HX' Htr Hfit Hys Hcal Hn3 Hn9 Hout ts Hts ->].
  exists ts. split; [done|]. intros c s Hin.
  assert (Hc : c ∈ calendar_columns).
  { rewrite <- Hcal. by apply (list_elem_of_fmap_2 fst) in Hin. }
  destruct (keeps_rows_add_shifted_daily_mean _ _ _ Hn9 Hout) as [_ ->].
  - apply getitem_assign_all; [|done]. rewrite Hcal. names.
  - assert (Hcols : Forall (fun c => c ∉ ["date"; "daily_mean"; "daily_mean_x";
                                          "daily_mean_y"]) calendar_columns)
      by names.
    rewrite Forall_forall in Hcols. by apply Hcols.
Qed.

Lemma max_all_zero (zs : list Z) :
  zs ≠ [] → Forall (fun z => z = 0) zs → pd.max zs = Some 0.
Proof.
  intros Hne Hall. destruct zs as [|z zs]; [done|].
  apply Forall_cons in Hall as [-> Hall]. simpl. f_equal.
  induction Hall as [|z zs -> _ IH]; [done|].
  cbn [foldr]. by rewrite IH.
Qed.

(** A column of zeros has no finite normalised angle. *)
Lemma normalised_all_zero (zs : list Z) :
  zs ≠ [] → Forall (fun z => z = 0) zs →
  normalised zs = replicate (length zs) None.
Proof.
  intros Hne Hall. unfold normalised. rewrite (max_all_zero _ Hne Hall).
  clear. induction zs as [|z zs IH]; [done|].
  rewrite fmap_cons, IH. done.
Qed.

(** ** The encodings as real numbers *)

Lemma rint_near (x : R) : (Rabs (IZR (rint x) - x) <= 1 / 2)%R.
Proof.
  unfold rint. destruct (base_Int_part x) as [Hle Hgt].
  set (f := Int_part x) in *.
  destruct (Rlt_dec (x - IZR f) (1 / 2)) as [Hlt|Hge].
  - apply Rabs_le. Lra.lra.
  - destruct (Rlt_dec (1 / 2) (x - IZR f)) as [Hgt'|Hle'].
    + rewrite plus_IZR. apply Rabs_le. simpl. Lra.lra.
    + destruct (Z.even f); [apply Rabs_le; Lra.lra|].
      rewrite plus_IZR. apply Rabs_le. simpl. Lra.lra.
Qed.

Lemma round_near (ndigits : Z) (x : R) :
  (Rabs (round_R ndigits x - x) <= / (2 * powerRZ 10 ndigits))%R.
Proof.
  unfold round_R.
  assert (Hp : (0 < powerRZ 10 ndigits)%R) by (apply powerRZ_lt; Lra.lra).
  set (p := powerRZ 10 ndigits) in *.
  replace (IZR (rint (x * p)) / p - x)%R
    with ((IZR (rint (x * p)) - x * p) * / p)%R by (field; Lra.lra).
  rewrite Rabs_mult, (Rabs_right (/ p)).
  - rewrite Rinv_mult. apply Rmult_le_compat_r.
    + left. by apply Rinv_0_lt_compat.
    + pose proof (rint_near (x * p)). Lra.lra.
  - left. by apply Rinv_0_lt_compat.
Qed.

Lemma Rabs_le_between (x b : R) : (Rabs x <= b)%R → (- b <= x <= b)%R.
Proof.
  intros H. pose proof (Rle_abs x). pose proof (Rle_abs (- x)) as H'.
  rewrite Rabs_Ropp in H'. Lra.lra.
Qed.

(** A sine within [delta] of the true one stays near the unit circle with
    the cosine. *)
Lemma near_unit_circle (theta s delta : R) :
  (Rabs (s - sin theta) <= delta)%R →
  (Rabs (s * s + cos theta * cos theta - 1) <= delta * (2 + delta))%R.
Proof.
  intros Hs. pose proof (sin2_cos2 theta) as Hcirc. unfold Rsqr in Hcirc.
  pose proof (SIN_bound theta) as [Hlo Hhi].
  apply Rabs_le_between in Hs. apply Rabs_le.
  set (e := (s - sin theta)%R) in *.
  replace (s * s + cos theta * cos theta - 1)%R
    with (2 * e * sin theta + e * e)%R by (unfold e; Lra.nra).
  assert (0 <= delta)%R by Lra.lra.
  split; Lra.nra.
Qed.

Lemma max_ge (zs : list Z) i x m :
  zs !! i = Some x → pd.max zs = Some m → x ≤ m.
Proof.
  destruct zs as [|z zs]; [done|]. simpl. intros Hi [= <-].
  revert i Hi. induction zs as [|z' zs IH]; intros i Hi.
  - destruct i; [|done]. simpl in *. injection Hi as ->. lia.
  - destruct i as [|[|i]]; simpl in *.
    + specialize (IH 0%nat Hi). lia.
    + injection Hi as ->. lia.
    + specialize (IH (S i) Hi). lia.
Qed.

Lemma normalised_lookup (zs : list Z) i x m :
  zs !! i = Some x → pd.max zs = Some m → m ≠ 0 →
  normalised zs !! i = Some (Some (2 * inject_Z x / inject_Z m)%Q : angle).
Proof.
  intros Hi Hm Hne. unfold normalised. rewrite list_lookup_fmap, Hi, Hm. simpl.
  destruct (m =? 0) eqn:E; [lia | done].
Qed.

(** Where the column's maximum is not 0, a sine rounded to [ndigits]
    decimals and the cosine of the same angle are on the unit circle up to
    the rounding. *)
Lemma rounded_encoding_near_circle (zs : list Z) (ndigits : Z) i x m :
  zs !! i = Some x → pd.max zs = Some m → m ≠ 0 →
  ∃ s c,
    ((pd.round ndigits <$> (np.sin <$> normalised zs)) !! i ≫= real_val) = Some s
    ∧ ((np.cos <$> normalised zs) !! i ≫= real_val) = Some c
    ∧ (Rabs (s * s + c * c - 1)
       <= / (2 * powerRZ 10 ndigits) * (2 + / (2 * powerRZ 10 ndigits)))%R.
Proof.
  intros Hi Hm Hne. rewrite !list_lookup_fmap.
  rewrite (normalised_lookup _ _ _ _ Hi Hm Hne). simpl.
  eexists _, _. split; [reflexivity|]. split; [reflexivity|].
  apply near_unit_circle, round_near.
Qed.

Lemma encoding_on_circle (zs : list Z) i x m :
  zs !! i = Some x → pd.max zs = Some m → m ≠ 0 →
  ∃ s c,
    ((np.sin <$> normalised zs) !! i ≫= real_val) = Some s
    ∧ ((np.cos <$> normalised zs) !! i ≫= real_val) = Some c
    ∧ (s * s + c * c = 1)%R.
Proof.
  intros Hi Hm Hne. rewrite !list_lookup_fmap.
  rewrite (normalised_lookup _ _ _ _ Hi Hm Hne). simpl.
  eexists _, _. split; [reflexivity|]. split; [reflexivity|].
  apply sin2_cos2.
Qed.

Lemma month_offset_nonneg leap k : 0 ≤ nth k (pd.month_offset leap) 0.
Proof.
  destruct leap; do 13 (destruct k as [|k]; [simpl; lia|]); simpl; lia.
Qed.

(** The day of year starts at 1. *)
Lemma dt_day_of_year_pos t : 1 ≤ pd.dt_day_of_year t.
Proof.
  unfold pd.dt_day_of_year, pd.civil_from_days, pd.get_day_of_year.
  cbv zeta. match goal with |- 1 ≤ nth ?k (pd.month_offset ?l) 0 + ?d =>
    pose proof (month_offset_nonneg l k); assert (1 ≤ d); [|lia] end.
  match goal with |- 1 ≤ ?doy - (153 * ((5 * ?doy + 2) / 153) + 2) / 5 + 1 =>
    generalize doy end.
  intros doy. Z.to_euclidean_division_equations. lia.
Qed.

(** X1.  Off the failing inputs the encodings are on the unit circle: on a
    valid input, in every row, the weekday pair is within the rounding to 2
    decimals when some row is not a Monday, the minute pair within the
    rounding to 6 decimals when some row is not at 00:00, and the yearday
    pair exactly on it. *)
Lemma encodings_near_unit_circle (self : DataLoader) (data : DataFrame)
  (ts : list Timestamp) :
  valid_loader self = true → valid_input data = true →
  getitem data "start_time" = Ok (Times ts) →
  ∃ out self' sin_w cos_w sin_m cos_m sin_y cos_y,
    get_processed_data self data = (Ok out, self')
    ∧ getitem out "sin_weekday" = Ok (Reals sin_w)
    ∧ getitem out "cos_weekday" = Ok (Reals cos_w)
    ∧ getitem out "sin_minute" = Ok (Reals sin_m)
    ∧ getitem out "cos_minute" = Ok (Reals cos_m)
    ∧ getitem out "sin_yearday" = Ok (Reals sin_y)
    ∧ getitem out "cos_yearday" = Ok (Reals cos_y)
    ∧ ∀ i, (i < length ts)%nat →
        (pd.max (pd.dt_day_of_week <$> ts) ≠ Some 0 →
         ∃ s c,
           (sin_w !! i ≫= real_val) = Some s ∧ (cos_w !! i ≫= real_val) = Some c
           ∧ (Rabs (s * s + c * c - 1)
              <= / (2 * powerRZ 10 2) * (2 + / (2 * powerRZ 10 2)))%R)
        ∧ (pd.max (min_of_day ts) ≠ Some 0 →
           ∃ s c,
             (sin_m !! i ≫= real_val) = Some s ∧ (cos_m !! i ≫= real_val) = Some c
             ∧ (Rabs (s * s + c * c - 1)
                <= / (2 * powerRZ 10 6) * (2 + / (2 * powerRZ 10 6)))%R)
        ∧ (∃ s c,
             (sin_y !! i ≫= real_val) = Some s ∧ (cos_y !! i ≫= real_val) = Some c
             ∧ (s * s + c * c = 1)%R).
Proof.
  intros Hv Hin Hst.
  destruct (get_processed_data_succeeds self data Hv Hin) as (out & self' & Hrun & _).
  destruct (valid_input_rows _ Hin) as [Hn Hpos].
  destruct (processed_calendar _ _ _ _ _ (get_processed_data_Ok _ _ _ _ _ Hn Hrun))
    as (ts' & Hts & Hcal).
  rewrite Hst in Hts. injection Hts as <-.
  exists out, self'. eexists _, _, _, _, _, _. split; [done|].
  do 6 (split; [apply Hcal; unfold calendar_features; rewrite !elem_of_cons;
                auto 12|]).
  intros i Hi.
  assert (Hcol : ∀ (g : Timestamp → Z), ∃ x m,
            (g <$> ts) !! i = Some x ∧ pd.max (g <$> ts) = Some m).
  { intros g. destruct (lookup_lt_is_Some_2 ts i Hi) as [t Ht].
    exists (g t). rewrite list_lookup_fmap, Ht.
    destruct ts as [|t0 ts0]; [done|]. simpl. eauto. }
  split; [|split].
  - intros Hmax. destruct (Hcol pd.dt_day_of_week) as (x & m & Hx & Hm).
    apply (rounded_encoding_near_circle _ 2 i x m Hx Hm). intros ->. by apply Hmax.
  - intros Hmax.
    assert (∃ x m, min_of_day ts !! i = Some x ∧ pd.max (min_of_day ts) = Some m)
      as (x & m & Hx & Hm).
    { destruct (lookup_lt_is_Some_2 (min_of_day ts) i) as [x Hx].
      { unfold min_of_day. rewrite length_zip_with, !length_fmap. lia. }
      exists x. destruct (min_of_day ts) as [|z zs]; [done|]. simpl. eauto. }
    apply (rounded_encoding_near_circle _ 6 i x m Hx Hm). intros ->. by apply Hmax.
  - destruct (Hcol pd.dt_day_of_year) as (x & m & Hx & Hm).
    apply (encoding_on_circle _ i x m Hx Hm).
    pose proof (max_ge _ _ _ _ Hx Hm).
    apply list_lookup_fmap_Some in Hx as (t & -> & _).
    pose proof (dt_day_of_year_pos t). lia.
Qed.

Lemma encodings_near_unit_circle_witness :
  valid_loader init = true ∧ valid_input sample = true
  ∧ getitem sample "start_time"
    = Ok (Times [at_ 3 23 50; at_ 3 23 55; at_ 4 0 0; at_ 4 0 5; at_ 7 12 0])
  ∧ ∃ out self' sin_w cos_w sin_m cos_m sin_y cos_y,
      get_processed_data init sample = (Ok out, self')
      ∧ getitem out "sin_weekday" = Ok (Reals sin_w)
      ∧ getitem out "cos_weekday" = Ok (Reals cos_w)
      ∧ getitem out "sin_minute" = Ok (Reals sin_m)
      ∧ getitem out "cos_minute" = Ok (Reals cos_m)
      ∧ getitem out "sin_yearday" = Ok (Reals sin_y)
      ∧ getitem out "cos_yearday" = Ok (Reals cos_y)
      ∧ ∀ i,
          (i < length [at_ 3 23 50; at_ 3 23 55; at_ 4 0 0; at_ 4 0 5;
                       at_ 7 12 0])%nat →
          (pd.max (pd.dt_day_of_week <$>
                     [at_ 3 23 50; at_ 3 23 55; at_ 4 0 0; at_ 4 0 5; at_ 7 12 0])
           ≠ Some 0 →
           ∃ s c,
             (sin_w !! i ≫= real_val) = Some s ∧ (cos_w !! i ≫= real_val) = Some c
             ∧ (Rabs (s * s + c * c - 1)
                <= / (2 * powerRZ 10 2) * (2 + / (2 * powerRZ 10 2)))%R)
          ∧ (pd.max (min_of_day [at_ 3 23 50; at_ 3 23 55; at_ 4 0 0; at_ 4 0 5;
                                 at_ 7 12 0]) ≠ Some 0 →
             ∃ s c,
               (sin_m !! i ≫= real_val) = Some s ∧ (cos_m !! i ≫= real_val) = Some c
               ∧ (Rabs (s * s + c * c - 1)
                  <= / (2 * powerRZ 10 6) * (2 + / (2 * powerRZ 10 6)))%R)
          ∧ (∃ s c,
               (sin_y !! i ≫= real_val) = Some s ∧ (cos_y !! i ≫= real_val) = Some c
               ∧ (s * s + c * c = 1)%R).
Proof.
  split; [reflexivity|]. split; [reflexivity|]. split; [reflexivity|].
  apply encodings_near_unit_circle; reflexivity.
Defined.

(** The loader that processed [sample] then processes [later], whose [y]
    holds 55 where [sample] has at most 30: the scaler is the one fit on
    [sample], and 55 is scaled to 3, outside [-1, 1]. *)
Example later_table_is_not_clamped :
  let '(_, self1) := get_processed_data init sample in
  let '(out, self2) := get_processed_data self1 later in
  self2 = self1
  ∧ (out ≫= fun out => getitem out "y") = Ok (Floats [Some (1875 # 625); Some (-875 # 625)])
  ∧ (1875 # 625 == 3)%Q.
Proof. vm_compute. repeat split. Qed.

(** The minute encoding has no value either when every row is at 00:00;
    the weekday encoding of the same table (a Tuesday) has. *)
Example minute_encoding_at_midnight_is_nan :
  valid_input midnight = true
  ∧ ((get_processed_data init midnight).1 ≫= fun out => getitem out "cos_minute")
    = Ok (Reals [r_nan])
  ∧ ((get_processed_data init midnight).1 ≫= fun out => getitem out "sin_minute")
    = Ok (Reals [r_nan])
  ∧ ((get_processed_data init midnight).1 ≫= fun out => getitem out "cos_weekday")
    = Ok (Reals [r_cos (2 # 1)]).
Proof. by vm_compute. Qed.

(** * The claims *)





(** C3.  For every valid input of [n] rows, processing succeeds and in the
    output [y_prev] is null in row 0 and holds [y] of row [i - 1] in every
    row [i >= 1], and [y_yesterday] is null in the rows below 288 and holds
    [y] of row [i - 288] in every row [i >= 288]; [y] is the scaled column
    of the output. *)
Theorem lagged_targets (self : DataLoader) (data : DataFrame) :
  valid_loader self = true → valid_input data = true →
  ∃ out self' y y_prev y_yesterday,
    get_processed_data self data = (Ok out, self')
    ∧ getitem out "y" = Ok (Floats y)
    ∧ getitem out "y_prev" = Ok (Floats y_prev)
    ∧ getitem out "y_yesterday" = Ok (Floats y_yesterday)
    ∧ length y = nrows data
    ∧ y_prev !! 0%nat = Some NaN
    ∧ (∀ i, (1 ≤ i < nrows data)%nat → y_prev !! i = y !! (i - 1)%nat)
    ∧ (∀ i, (i < 288)%nat → (i < nrows data)%nat → y_yesterday !! i = Some NaN)
    ∧ (∀ i, (288 ≤ i < nrows data)%nat → y_yesterday !! i = y !! (i - 288)%nat).
Proof.
  intros Hv Hin.
  destruct (get_processed_data_succeeds self data Hv Hin) as (out & self' & Hrun & _).
  assert (has_rows (nrows data) data ∧ (0 < nrows data)%nat) as [Hn Hpos].
  { by apply valid_input_rows. }
  destruct (processed_lags (get_processed_data_Ok _ _ _ _ _ Hn Hrun))
    as (ys & Hy & Hlen & Hprev & Hyest).
  exists out, self', ys, (pd.shift 1 ys), (pd.shift 288 ys).
  repeat (split; [done|]). split; [|split; [|split]].
  - apply shift_lookup_lt; lia.
  - intros i Hi. apply shift_lookup_ge; lia.
  - intros i Hi Hi'. apply shift_lookup_lt; lia.
  - intros i Hi. apply shift_lookup_ge; lia.
Qed.

Lemma lagged_targets_witness :
  valid_loader init = true ∧ valid_input sample = true
  ∧ ∃ out self' y y_prev y_yesterday,
      get_processed_data init sample = (Ok out, self')
      ∧ getitem out "y" = Ok (Floats y)
      ∧ getitem out "y_prev" = Ok (Floats y_prev)
      ∧ getitem out "y_yesterday" = Ok (Floats y_yesterday)
      ∧ length y = nrows sample
      ∧ y_prev !! 0%nat = Some NaN
      ∧ (∀ i, (1 ≤ i < nrows sample)%nat → y_prev !! i = y !! (i - 1)%nat)
      ∧ (∀ i, (i < 288)%nat → (i < nrows sample)%nat → y_yesterday !! i = Some NaN)
      ∧ (∀ i, (288 ≤ i < nrows sample)%nat → y_yesterday !! i = y !! (i - 288)%nat).
Proof.
  split; [reflexivity|]. split; [reflexivity|].
  apply lagged_targets; reflexivity.
Defined.



(** C5.  Winsorizing a frame whose column [y] has [n >= 1] values succeeds,
    and every value of the resulting [y] (the column the scaling then reads)
    is a value of the input [y] and does not lie outside the interval from
    the value of rank [n / 200] to the value of rank [n - n / 200 - 1] of
    that call's sorted input [y]: the 0.5th and 99.5th percentile values the
    lowest and highest 0.5% are set to.  The order is the one of the sort:
    the order of the numbers, with NaN last. *)
Theorem winsorized_within_percentiles (data : DataFrame) (y : list float) :
  (getitem data "y" ≫= as_floats) = Ok y → y ≠ [] →
  ∃ out w lo hi,
    winsorize_one_percent data = Ok out
    ∧ getitem out "y" = Ok (Floats w)
    ∧ length w = length y
    ∧ np.sort y !! (length y / 200)%nat = Some lo
    ∧ np.sort y !! (length y - length y / 200 - 1)%nat = Some hi
    ∧ Forall (fun x => x ∈ y ∧ np.float_le lo x ∧ np.float_le x hi) w.
Proof.
  intros Hy Hne.
  destruct (winsorize_bounds y Hne) as (w & lo & hi & Hw & Hlen & Hlo & Hhi & Hall).
  exists (setitem data "y" (Floats w)), w, lo, hi.
  split; [|by rewrite getitem_setitem_eq].
  unfold winsorize_one_percent.
  apply bind_Ok in Hy as (s & -> & Hs). cbn [mbind result_bind].
  rewrite Hs. cbn [mbind result_bind]. by rewrite Hw.
Qed.

Lemma winsorized_within_percentiles_witness :
  (getitem sample "y" ≫= as_floats)
  = Ok [Some 10%Q; Some 20%Q; Some 30%Q; Some 25%Q; Some 5%Q]
  ∧ [Some 10%Q; Some 20%Q; Some 30%Q; Some 25%Q; Some 5%Q] ≠ []
  ∧ ∃ out w lo hi,
      winsorize_one_percent sample = Ok out
      ∧ getitem out "y" = Ok (Floats w)
      ∧ length w = 5%nat
      ∧ np.sort [Some 10%Q; Some 20%Q; Some 30%Q; Some 25%Q; Some 5%Q] !! 0%nat
        = Some lo
      ∧ np.sort [Some 10%Q; Some 20%Q; Some 30%Q; Some 25%Q; Some 5%Q] !! 4%nat
        = Some hi
      ∧ Forall (fun x => x ∈ [Some 10%Q; Some 20%Q; Some 30%Q; Some 25%Q; Some 5%Q]
                         ∧ np.float_le lo x ∧ np.float_le x hi) w.
Proof.
  split; [reflexivity|]. split; [discriminate|].
  apply (winsorized_within_percentiles sample
           [Some 10%Q; Some 20%Q; Some 30%Q; Some 25%Q; Some 5%Q]);
    [reflexivity | discriminate].
Defined.

(** C6.  For every valid input, processing succeeds and the column
    [y_original] of the output is the column [y] of the input as it came
    in, before any clipping or scaling: the same series, row for row. *)
Theorem y_original_is_raw_y (self : DataLoader) (data : DataFrame) :
  valid_loader self = true → valid_input data = true →
  ∃ out self',
    get_processed_data self data = (Ok out, self')
    ∧ getitem out "y_original" = getitem data "y".
Proof.
  intros Hv Hin.
  destruct (get_processed_data_succeeds self data Hv Hin) as (out & self' & Hrun & _).
  exists out, self'. split; [done|].
  destruct (valid_input_rows _ Hin) as [Hn _].
  apply (processed_y_original (get_processed_data_Ok _ _ _ _ _ Hn Hrun)).
Qed.

Lemma y_original_is_raw_y_witness :
  valid_loader init = true ∧ valid_input sample = true
  ∧ ∃ out self',
      get_processed_data init sample = (Ok out, self')
      ∧ getitem out "y_original" = getitem sample "y".
Proof.
  split; [reflexivity|]. split; [reflexivity|].
  apply y_original_is_raw_y; reflexivity.
Defined.

(** C7, as the code has it.  On a valid input that has none of the derived
    columns yet, processing succeeds and the output has the input's columns
    (with [y] and the features scaled in place) followed by the derived
    columns in the order they are created: [y_original], [y_yesterday]
    (lag 288), [y_prev] (lag 1), the calendar columns, [date] and
    [daily_mean].  [y_yesterday] is created before [y_prev]. *)
Theorem derived_columns_in_creation_order (self : DataLoader) (data : DataFrame) :
  valid_loader self = true → valid_input data = true →
  Forall (fun c => pd.has_column data c = false) derived_columns →
  ∃ out self',
    get_processed_data self data = (Ok out, self')
    ∧ column_names out = column_names data ++ derived_columns.
Proof.
  intros Hv Hin Hfresh.
  destruct (get_processed_data_succeeds self data Hv Hin) as (out & self' & Hrun & _).
  exists out, self'. split; [done|].
  destruct (valid_input_rows _ Hin) as [Hn _].
  apply (processed_names _ _ _ _ _ (get_processed_data_Ok _ _ _ _ _ Hn Hrun) Hfresh).
Qed.

Lemma derived_columns_in_creation_order_witness :
  valid_loader init = true ∧ valid_input sample = true
  ∧ Forall (fun c => pd.has_column sample c = false) derived_columns
  ∧ ∃ out self',
      get_processed_data init sample = (Ok out, self')
      ∧ column_names out = column_names sample ++ derived_columns.
Proof.
  assert (Hfresh : Forall (fun c => pd.has_column sample c = false) derived_columns).
  { repeat constructor. }
  split; [reflexivity|]. split; [reflexivity|]. split; [exact Hfresh|].
  apply derived_columns_in_creation_order; [reflexivity | reflexivity | exact Hfresh].
Defined.

(** C7, as stated, fails on [sample]: the derived columns of the output are
    not in the order that puts [y_prev] before [y_yesterday]. *)
Lemma y_prev_is_not_created_first :
  ∃ out self',
    get_processed_data init sample = (Ok out, self')
    ∧ column_names out ≠
        column_names sample
        ++ ["y_original"; "y_prev"; "y_yesterday"; "hour_of_day"; "min_of_day";
            "cos_minute"; "sin_minute"; "day_of_week"; "cos_weekday";
            "sin_weekday"; "day_of_year"; "cos_yearday"; "sin_yearday"; "date";
            "daily_mean"].
Proof.
  eexists _, _. split; [reflexivity|]. vm_compute. discriminate.
Qed.

(** C8, as the code has it.  A table without rows makes the pipeline raise
    on every call, whether the scaler has been fit or not, and the call
    leaves the loader as it was. *)
Theorem no_rows_always_raises (self : DataLoader) (data : DataFrame) :
  has_rows 0 data →
  ∃ e, get_processed_data self data = (Raise e, self).
Proof.
  intros Hn. unfold get_processed_data, apply_preprocessing.
  destruct (getitem data "y") as [y0|e] eqn:Hy0; [|eauto].
  unfold winsorize_one_percent. rewrite getitem_setitem_ne, Hy0 by done.
  cbn [mbind result_bind].
  destruct (as_floats y0) as [y|e] eqn:Hy; [|eauto].
  pose proof (has_rows_getitem _ _ _ _ Hn Hy0) as Hlen.
  apply (as_floats_length _ _ _ Hlen) in Hy. destruct y; [|done].
  exists IndexError. reflexivity.
Qed.

Lemma no_rows_always_raises_witness :
  has_rows 0 no_rows ∧ ∃ e, get_processed_data init no_rows = (Raise e, init).
Proof.
  assert (Hn : has_rows 0 no_rows) by (repeat constructor).
  split; [exact Hn|]. apply no_rows_always_raises. exact Hn.
Defined.

(** C8, as stated, fails: the loader that has processed [sample] is trained,
    and its call on the table without rows raises instead of returning an
    empty table. *)
Lemma transform_only_call_on_no_rows_raises :
  scaler_is_trained (get_processed_data init sample).2 = true
  ∧ (get_processed_data (get_processed_data init sample).2 no_rows).1
    = Raise IndexError
  ∧ ¬ ∃ out, (get_processed_data (get_processed_data init sample).2 no_rows).1
             = Ok out.
Proof.
  split; [by vm_compute|]. split; [by vm_compute|].
  intros [out Hout]. vm_compute in Hout. discriminate Hout.
Qed.

(** C9 fails on the code.  On a valid input whose rows all fall on a
    Monday, the largest weekday of the table is 0, the angle
    [2 * pi * 0 / 0] is not a number, and [cos_weekday] and [sin_weekday] are
    NaN in every row of the output: their squares do not add up to 1. *)
Theorem weekday_encoding_of_mondays_is_nan (self : DataLoader) (data : DataFrame)
  (ts : list Timestamp) :
  valid_loader self = true → valid_input data = true →
  getitem data "start_time" = Ok (Times ts) →
  Forall (fun t => pd.dt_day_of_week t = 0) ts →
  ∃ out self',
    get_processed_data self data = (Ok out, self')
    ∧ getitem out "cos_weekday" = Ok (Reals (replicate (length ts) r_nan))
    ∧ getitem out "sin_weekday" = Ok (Reals (replicate (length ts) r_nan)).
Proof.
  intros Hv Hin Hst Hmon.
  destruct (get_processed_data_succeeds self data Hv Hin) as (out & self' & Hrun & _).
  destruct (valid_input_rows _ Hin) as [Hn Hpos].
  destruct (processed_calendar _ _ _ _ _ (get_processed_data_Ok _ _ _ _ _ Hn Hrun))
    as (ts' & Hts & Hcal).
  rewrite Hst in Hts. injection Hts as <-.
  assert (Hlen : length ts = nrows data) by apply (has_rows_getitem _ _ _ _ Hn Hst).
  assert (Hnorm : normalised (pd.dt_day_of_week <$> ts) = replicate (length ts) None).
  { rewrite <- (length_fmap pd.dt_day_of_week ts). apply normalised_all_zero.
    - destruct ts; [simpl in Hlen; lia | done].
    - by apply Forall_fmap. }
  exists out, self'. split; [done|]. split.
  - rewrite (Hcal "cos_weekday" (Reals (np.cos <$> normalised (pd.dt_day_of_week <$> ts)))).
    + by rewrite Hnorm, fmap_replicate.
    + unfold calendar_features. rewrite !elem_of_cons. auto 10.
  - rewrite (Hcal "sin_weekday"
               (Reals (pd.round 2 <$> (np.sin <$> normalised (pd.dt_day_of_week <$> ts))))).
    + by rewrite Hnorm, !fmap_replicate.
    + unfold calendar_features. rewrite !elem_of_cons. auto 10.
Qed.

Lemma weekday_encoding_of_mondays_is_nan_witness :
  valid_loader init = true ∧ valid_input monday = true
  ∧ getitem monday "start_time" = Ok (Times [at_ 4 0 0; at_ 4 0 5; at_ 4 0 10])
  ∧ Forall (fun t => pd.dt_day_of_week t = 0) [at_ 4 0 0; at_ 4 0 5; at_ 4 0 10]
  ∧ ∃ out self',
      get_processed_data init monday = (Ok out, self')
      ∧ getitem out "cos_weekday" = Ok (Reals (replicate 3 r_nan))
      ∧ getitem out "sin_weekday" = Ok (Reals (replicate 3 r_nan)).
Proof.
  assert (Hmon : Forall (fun t => pd.dt_day_of_week t = 0)
                   [at_ 4 0 0; at_ 4 0 5; at_ 4 0 10]).
  { repeat (apply Forall_cons_2; [reflexivity|]). apply Forall_nil_2. }
  split; [reflexivity|]. split; [reflexivity|]. split; [reflexivity|].
  split; [exact Hmon|].
  apply (weekday_encoding_of_mondays_is_nan init monday
           [at_ 4 0 0; at_ 4 0 5; at_ 4 0 10]);
    [reflexivity | reflexivity | reflexivity | exact Hmon].
Defined.



(** * Further properties *)

(** ** The range of the scaled columns *)














(** ** Winsorizing, row by row *)

(** What [winsorize] with the limits 0.005 returns on a non-empty column:
    the [n / 200] positions of lowest rank are set to the value of rank
    [n / 200], the [n / 200] positions of highest rank to the value of rank
    [n - n / 200 - 1]. *)
Lemma winsorize_Ok (a : list float) :
  a ≠ [] →
  ∃ lo hi,
    np.sort a !! (length a / 200)%nat = Some lo
    ∧ np.sort a !! (length a - length a / 200 - 1)%nat = Some hi
    ∧ mstats.winsorize a ((5 # 1000)%Q, (5 # 1000)%Q)
      = Ok (np.put (np.put a (take (length a / 200) (np.argsort a)) lo)
                   (drop (length a - length a / 200) (np.argsort a)) hi).
Proof.
  intros Ha.
  assert (Hn : (0 < length a)%nat) by (destruct a; [done | simpl; lia]).
  destruct (winsorize_ranks _ Hn) as (Hk1 & Hk2 & Hk3).
  set (n := length a) in *. set (k := (n / 200)%nat) in *.
  set (idx := np.argsort a).
  assert (Hlen : length idx = n) by apply argsort_length.
  assert (Hnd : NoDup idx) by apply argsort_NoDup.
  destruct (lookup_lt_is_Some_2 idx k) as [i Hi]; [lia|].
  destruct (lookup_lt_is_Some_2 idx (n - k - 1)) as [j Hj]; [lia|].
  destruct (argsort_sort a _ _ Hi) as [Hlo Hilt].
  destruct (argsort_sort a _ _ Hj) as [Hhi Hjlt].
  destruct (lookup_lt_is_Some_2 a i) as [lo Hai]; [done|].
  destruct (lookup_lt_is_Some_2 a j) as [hi Haj]; [done|].
  set (a1 := np.put a (take k idx) lo).
  assert (Ha1j : a1 !! j = Some hi).
  { unfold a1. rewrite put_lookup_notin; [done|].
    intros (r & Hr & Hrk)%elem_of_take.
    pose proof (NoDup_lookup _ _ _ _ Hnd Hr Hj). lia. }
  exists lo, hi. split; [by rewrite <- Hlo|]. split; [by rewrite <- Hhi|].
  unfold mstats.winsorize, mstats.winsorize1D. simpl negb. cbv iota.
  change (Qeq_bool (5 # 1000) 0) with false. cbv iota.
  fold n. rewrite py_int_low, py_int_up. fold k idx.
  rewrite (py_index_nat _ _ _ Hi). simpl.
  rewrite (py_index_nat _ _ _ Hai). simpl.
  rewrite py_bound_nat. fold a1.
  replace (Z.of_nat n - Z.of_nat k - 1) with (Z.of_nat (n - k - 1)) by lia.
  rewrite (py_index_nat _ _ _ Hj). simpl.
  rewrite (py_index_nat _ _ _ Ha1j). simpl.
  replace (Z.of_nat n - Z.of_nat k) with (Z.of_nat (n - k)) by lia.
  by rewrite py_bound_nat.
Qed.

(** X4.  On a table of fewer than 200 rows [winsorize_one_percent] changes
    no value: [int(0.005 * n)] is 0, so no position is clipped, and [y] comes
    back as it was (as a float column). *)
Theorem short_table_is_not_winsorized (data : DataFrame) (y : list float) :
  (getitem data "y" ≫= as_floats) = Ok y → y ≠ [] → (length y < 200)%nat →
  winsorize_one_percent data = Ok (setitem data "y" (Floats y)).
Proof.
  intros Hy Hne Hlen.
  destruct (winsorize_Ok y Hne) as (lo & hi & _ & _ & Hw).
  rewrite (Nat.div_small _ _ Hlen), Nat.sub_0_r, take_0 in Hw.
  rewrite drop_ge in Hw by (by rewrite argsort_length).
  unfold winsorize_one_percent.
  apply bind_Ok in Hy as (s & -> & Hs). cbn [mbind result_bind].
  rewrite Hs. cbn [mbind result_bind]. by rewrite Hw.
Qed.

Lemma short_table_is_not_winsorized_witness :
  (getitem sample "y" ≫= as_floats)
  = Ok [Some 10%Q; Some 20%Q; Some 30%Q; Some 25%Q; Some 5%Q]
  ∧ [Some 10%Q; Some 20%Q; Some 30%Q; Some 25%Q; Some 5%Q] ≠ []
  ∧ (length [Some 10%Q; Some 20%Q; Some 30%Q; Some 25%Q; Some 5%Q] < 200)%nat
  ∧ winsorize_one_percent sample
    = Ok (setitem sample "y"
            (Floats [Some 10%Q; Some 20%Q; Some 30%Q; Some 25%Q; Some 5%Q])).
Proof.
  split; [reflexivity|]. split; [discriminate|]. split; [simpl; lia|].
  apply short_table_is_not_winsorized; [reflexivity | discriminate | simpl; lia].
Defined.

(** X5.  What [winsorize_one_percent] does to each row, by the rank [r] of
    the row in the argsort of [y] ([n] rows, [k = n / 200]): a row of rank
    below [k] gets the value of rank [k], a row of rank [n - k] or above gets
    the value of rank [n - k - 1], and every other row keeps its value. *)
Theorem winsorize_by_rank (data : DataFrame) (y : list float) :
  (getitem data "y" ≫= as_floats) = Ok y → y ≠ [] →
  ∃ out w lo hi,
    winsorize_one_percent data = Ok out
    ∧ getitem out "y" = Ok (Floats w)
    ∧ np.sort y !! (length y / 200)%nat = Some lo
    ∧ np.sort y !! (length y - length y / 200 - 1)%nat = Some hi
    ∧ ∀ r p, np.argsort y !! r = Some p →
        ((r < length y / 200)%nat → w !! p = Some lo)
        ∧ ((length y / 200 ≤ r < length y - length y / 200)%nat →
           w !! p = y !! p)
        ∧ ((length y - length y / 200 ≤ r)%nat → w !! p = Some hi).
Proof.
  intros Hy Hne.
  destruct (winsorize_Ok y Hne) as (lo & hi & Hlo & Hhi & Hw).
  eexists _, _, lo, hi. split; [|split; [apply getitem_setitem_eq|]].
  - unfold winsorize_one_percent.
    apply bind_Ok in Hy as (s & -> & Hs). cbn [mbind result_bind].
    rewrite Hs. cbn [mbind result_bind]. by rewrite Hw.
  - split; [done|]. split; [done|].
    intros r p Hr. pose proof (argsort_NoDup y) as Hnd.
    destruct (argsort_sort y _ _ Hr) as [_ Hp].
    assert (Hn : (0 < length y)%nat) by lia.
    destruct (winsorize_ranks _ Hn) as (Hk1 & Hk2 & Hk3).
    split; [|split].
    + intros Hrk. rewrite put_lookup_notin.
      * apply put_lookup_in; [|done]. apply elem_of_take. eauto.
      * intros (r' & Hr')%list_elem_of_lookup_1. rewrite lookup_drop in Hr'.
        pose proof (NoDup_lookup _ _ _ _ Hnd Hr Hr'). lia.
    + intros Hrk. rewrite !put_lookup_notin; [done| |].
      * intros (r' & Hr' & Hlt)%elem_of_take.
        pose proof (NoDup_lookup _ _ _ _ Hnd Hr Hr'). lia.
      * intros (r' & Hr')%list_elem_of_lookup_1. rewrite lookup_drop in Hr'.
        pose proof (NoDup_lookup _ _ _ _ Hnd Hr Hr'). lia.
    + intros Hrk. apply put_lookup_in; [|by rewrite put_length].
      apply list_elem_of_lookup. exists (r - (length y - length y / 200))%nat.
      rewrite lookup_drop. rewrite <- Hr. f_equal. lia.
Qed.

Lemma winsorize_by_rank_witness :
  (getitem sample "y" ≫= as_floats)
  = Ok [Some 10%Q; Some 20%Q; Some 30%Q; Some 25%Q; Some 5%Q]
  ∧ [Some 10%Q; Some 20%Q; Some 30%Q; Some 25%Q; Some 5%Q] ≠ []
  ∧ ∃ out w lo hi,
      winsorize_one_percent sample = Ok out
      ∧ getitem out "y" = Ok (Floats w)
      ∧ np.sort [Some 10%Q; Some 20%Q; Some 30%Q; Some 25%Q; Some 5%Q]
          !! (5 / 200)%nat = Some lo
      ∧ np.sort [Some 10%Q; Some 20%Q; Some 30%Q; Some 25%Q; Some 5%Q]
          !! (5 - 5 / 200 - 1)%nat = Some hi
      ∧ ∀ r p,
          np.argsort [Some 10%Q; Some 20%Q; Some 30%Q; Some 25%Q; Some 5%Q] !! r
          = Some p →
          ((r < 5 / 200)%nat → w !! p = Some lo)
          ∧ ((5 / 200 ≤ r < 5 - 5 / 200)%nat →
             w !! p = [Some 10%Q; Some 20%Q; Some 30%Q; Some 25%Q; Some 5%Q] !! p)
          ∧ ((5 - 5 / 200 ≤ r)%nat → w !! p = Some hi).
Proof.
  split; [reflexivity|]. split; [discriminate|].
  apply (winsorize_by_rank sample
           [Some 10%Q; Some 20%Q; Some 30%Q; Some 25%Q; Some 5%Q]);
    [reflexivity | discriminate].
Defined.

(** ** The same call again *)

Lemma scale_data_again self data r self' :
  scale_data self data = (r, self') → scale_data self' data = (r, self').
Proof.
  unfold scale_data. destruct (scaler_is_trained self) eqn:Htr; cbn [negb].
  - intros [= <- <-]. by rewrite Htr.
  - destruct (getitems data columns_to_scale) as [X|e] eqn:HX.
    + destruct (sklearn.fit (scaler self) X) as [sc|e] eqn:Hfit.
      * by intros [= <- <-].
      * intros [= <- <-]. by rewrite Htr, Hfit.
    + intros [= <- <-]. by rewrite Htr.
Qed.

(** X6.  Whatever a call returns, calling again with the same frame on the
    loader the call left gives the same result and leaves the loader as it
    is: the call that fits the scaler scales its table as every later call
    will. *)
Theorem same_table_again (self : DataLoader) (data : DataFrame)
  (r : result DataFrame) (self' : DataLoader) :
  get_processed_data self data = (r, self') →
  get_processed_data self' data = (r, self').
Proof.
  unfold get_processed_data, apply_preprocessing.
  destruct (getitem data "y") as [y0|e]; [|by intros [= <- <-]].
  destruct (winsorize_one_percent _) as [d2|e]; [|by intros [= <- <-]].
  destruct (scale_data self d2) as [[d3|e] s1] eqn:Hs;
    pose proof (scale_data_again _ _ _ _ Hs) as Hs'.
  - destruct (_ ≫= _) as [d5|e] eqn:Hl; intros [= <- <-]; by rewrite Hs', Hl.
  - intros [= <- <-]. by rewrite Hs'.
Qed.

Lemma same_table_again_witness :
  get_processed_data init sample
  = ((get_processed_data init sample).1, (get_processed_data init sample).2)
  ∧ get_processed_data (get_processed_data init sample).2 sample
    = ((get_processed_data init sample).1, (get_processed_data init sample).2).
Proof.
  split; [reflexivity|]. apply (same_table_again init). reflexivity.
Defined.

(** ** One loader, many tables *)

(** X7.  One loader processes any number of valid tables, one after the
    other: every call returns a frame, with the rows of its table.  The
    scaler fit by the first call fits the nine columns of every later
    one. *)
Theorem valid_tables_are_all_processed (tables : list DataFrame) :
  Forall (fun data => valid_input data = true) tables →
  Forall2 (fun data r => ∃ out, r = Ok out ∧ has_rows (nrows data) out)
          tables (process_all init tables).1.
Proof.
  assert (Hv : valid_loader init = true) by done.
  revert Hv. generalize init.
  induction tables as [|data tables IH]; intros self Hv Hall; simpl; [constructor|].
  apply Forall_cons in Hall as [Hin Hall].
  destruct (get_processed_data_succeeds self data Hv Hin) as (out & self1 & Hrun & Hv1).
  rewrite Hrun. specialize (IH self1 Hv1 Hall).
  destruct (process_all self1 tables) as [rs self2]. constructor; [|done].
  exists out. split; [done|].
  destruct (valid_input_rows _ Hin) as [Hn _].
  apply (processed_has_rows (get_processed_data_Ok _ _ _ _ _ Hn Hrun)).
Qed.

Lemma valid_tables_are_all_processed_witness :
  Forall (fun data => valid_input data = true) [sample; later]
  ∧ Forall2 (fun data r => ∃ out, r = Ok out ∧ has_rows (nrows data) out)
            [sample; later] (process_all init [sample; later]).1.
Proof.
  assert (Hall : Forall (fun data => valid_input data = true) [sample; later]).
  { repeat constructor. }
  split; [exact Hall|]. apply valid_tables_are_all_processed. exact Hall.
Defined.

(** ** The errors raised *)

Lemma bind_Raise {A B} (r : result A) (f : A -> result B) (e : exn) :
  r ≫= f = Raise e → r = Raise e ∨ ∃ a, r = Ok a ∧ f a = Raise e.
Proof. destruct r as [a|e']; simpl; [eauto | intros [= ->]; eauto]. Qed.

Lemma py_index_Raise {A} (l : list A) i e : py_index l i = Raise e → e = IndexError.
Proof.
  unfold py_index. destruct (_ || _); [by intros [= <-]|].
  destruct (l !! _); [done | by intros [= <-]].
Qed.

Lemma winsorize_Raise a limits e :
  mstats.winsorize a limits = Raise e → e = IndexError ∨ e = ValueError.
Proof.
  unfold mstats.winsorize, mstats.winsorize1D. destruct limits as [lo up].
  destruct (negb _); [intros [= <-]; auto|].
  destruct (negb _); [intros [= <-]; auto|].
  destruct (Qeq_bool lo 0).
  - cbn [mbind result_bind].
    intros [H|(j & _ & [H|(v & _ & H)]%bind_Raise)]%bind_Raise;
      [left; by eapply py_index_Raise.. | done].
  - intros [[H|(i & _ & [H|(v & _ & H)]%bind_Raise)]%bind_Raise
           |(a1 & _ & [H|(j & _ & [H|(v & _ & H)]%bind_Raise)]%bind_Raise)]%bind_Raise;
      first [done | left; by eapply py_index_Raise].
Qed.

Lemma as_floats_Raise s e : as_floats s = Raise e → e = TypeError.
Proof. destruct s; simpl; congruence. Qed.

Lemma getitems_Raise data columns e :
  getitems data columns = Raise e → e ≠ NotFittedError.
Proof.
  induction columns as [|c columns IH]; simpl; [done|].
  intros [H%getitem_Raise
         |(s & _ & [H%as_floats_Raise
                   |(col & _ & [H|(X & _ & H)]%bind_Raise)]%bind_Raise)]%bind_Raise;
    subst; try done. by apply IH.
Qed.

Lemma merge_Raise left right on e :
  pd.merge left right on = Raise e → e ≠ NotFittedError.
Proof.
  unfold pd.merge.
  intros [H%getitem_Raise|(lk & _ & [H%getitem_Raise|(rk & _ & H)]%bind_Raise)]%bind_Raise;
    subst; try done.
  destruct lk, rk; by intros ->.
Qed.

Lemma to_datetime_Raise s e : pd.to_datetime s = Raise e → e = ValueError.
Proof. destruct s; simpl; congruence. Qed.

Lemma start_time_Raise data e :
  (getitem data "start_time" ≫= pd.to_datetime) = Raise e → e ≠ NotFittedError.
Proof.
  intros [H%getitem_Raise|(s & _ & H%to_datetime_Raise)]%bind_Raise; by subst.
Qed.

Lemma as_ints_Raise s e : pd.as_ints s = Raise e → e = TypeError.
Proof. destruct s; simpl; congruence. Qed.

Lemma groupby_mean_Raise data by_ col e :
  pd.groupby_mean data by_ col = Raise e → e ≠ NotFittedError.
Proof.
  unfold pd.groupby_mean. intros [H%getitem_Raise|(ks & _ & H)]%bind_Raise;
    [by subst|].
  destruct ks; try (by intros ->).
  apply bind_Raise in H as [H%getitem_Raise|(s & _ & H)]; [by subst|].
  apply bind_Raise in H as [H%as_floats_Raise|(ys & _ & H)]; by subst.
Qed.

(** The feature engineering raises no [NotFittedError]. *)
Lemma feature_engineering_Raise data e :
  apply_feature_engineering data = Raise e → e ≠ NotFittedError.
Proof.
  unfold apply_feature_engineering. intros H.
  apply bind_Raise in H as [H|(d1 & _ & H)].
  { unfold add_hour_of_day in H.
    apply bind_Raise in H as [H%getitem_Raise|(s & _ & H)]; [by subst|].
    apply bind_Raise in H as [H%to_datetime_Raise|(ts & _ & H)]; by subst. }
  apply bind_Raise in H as [H|(d2 & _ & H)].
  { unfold add_min_of_day in H.
    apply bind_Raise in H as [H%getitem_Raise|(s & _ & H)]; [by subst|].
    apply bind_Raise in H as [H%to_datetime_Raise|(ts & _ & H)]; [by subst|].
    apply bind_Raise in H as [H%getitem_Raise|(h & _ & H)]; [by subst|].
    apply bind_Raise in H as [H%as_ints_Raise|(hs & _ & H)]; by subst. }
  apply bind_Raise in H as [H|(d3 & _ & H)].
  { unfold add_day_of_week in H.
    apply bind_Raise in H as [H%getitem_Raise|(s & _ & H)]; [by subst|].
    apply bind_Raise in H as [H%to_datetime_Raise|(ts & _ & H)]; by subst. }
  apply bind_Raise in H as [H|(d4 & _ & H)].
  { unfold add_day_of_year in H.
    apply bind_Raise in H as [H%getitem_Raise|(s & _ & H)]; [by subst|].
    apply bind_Raise in H as [H%to_datetime_Raise|(ts & _ & H)]; by subst. }
  unfold add_shifted_daily_mean in H.
  apply bind_Raise in H as [H%getitem_Raise|(s & _ & H)]; [by subst|].
  apply bind_Raise in H as [H%to_datetime_Raise|(ts & _ & H)]; [by subst|].
  apply bind_Raise in H as [H%groupby_mean_Raise|(dm & _ & H)]; [done|].
  apply bind_Raise in H as [H%getitem_Raise|(sh & _ & H)]; [by subst|].
  apply bind_Raise in H as [H%as_floats_Raise|(shf & _ & H)]; [by subst|].
  by apply merge_Raise in H.
Qed.

Lemma fit_Raise self X e : sklearn.fit self X = Raise e → e = ValueError.
Proof.
  unfold sklearn.fit. destruct (_ =? _)%nat; [congruence|].
  by destruct (sklearn.feature_range self).
Qed.

Lemma transform_Raise self X e :
  sklearn.transform self X = Raise e →
  e = ValueError ∨ (e = NotFittedError ∧ sklearn.attrs self = None).
Proof.
  unfold sklearn.transform. destruct (sklearn.attrs self); [|intros [= <-]; auto].
  destruct (_ =? _)%nat; [intros [= <-]; auto|].
  destruct (negb _); [intros [= <-]; auto | done].
Qed.

Lemma scale_data_fit_if_trained self data r self' :
  fit_if_trained self → scale_data self data = (r, self') →
  r ≠ Raise NotFittedError ∧ fit_if_trained self'.
Proof.
  unfold scale_data, fit_if_trained. intros Hinv.
  destruct (getitems data columns_to_scale) as [X|e] eqn:HX.
  2:{ apply getitems_Raise in HX.
      destruct (scaler_is_trained self) eqn:Htr; cbn [negb mbind result_bind];
        intros [= <- <-]; (split; [congruence | by rewrite Htr]). }
  destruct (scaler_is_trained self) eqn:Htr; cbn [negb mbind result_bind].
  - intros [= <- <-]. split; [|by rewrite Htr].
    intros [[H|[_ H]]%transform_Raise|(X' & _ & H)]%bind_Raise;
      [done | by apply Hinv | done].
  - destruct (sklearn.fit (scaler self) X) as [sc|e] eqn:Hfit.
    + destruct (fit_Ok _ _ _ Hfit) as (f & Hf & _).
      intros [= <- <-]. cbn [scaler]. split; [|by rewrite Hf].
      intros [[H|[_ H]]%transform_Raise|(X' & _ & H)]%bind_Raise;
        [done | by rewrite Hf in H | done].
    + intros [= <- <-]. apply fit_Raise in Hfit as ->. split; [done|].
      by rewrite Htr.
Qed.

Lemma get_processed_data_fit_if_trained self data r self' :
  fit_if_trained self → get_processed_data self data = (r, self') →
  r ≠ Raise NotFittedError ∧ fit_if_trained self'.
Proof.
  intros Hinv. unfold get_processed_data, apply_preprocessing.
  destruct (getitem data "y") as [y0|e] eqn:Hy0.
  2:{ intros [= <- <-]. apply getitem_Raise in Hy0 as ->. done. }
  destruct (winsorize_one_percent _) as [d2|e] eqn:Hw.
  2:{ intros [= <- <-]. split; [|done]. unfold winsorize_one_percent in Hw.
      apply bind_Raise in Hw as [H%getitem_Raise|(s & _ & H)]; [by subst|].
      apply bind_Raise in H as [H%as_floats_Raise|(y & _ & H)]; [by subst|].
      apply bind_Raise in H as [[-> | ->]%winsorize_Raise|(w & _ & H)]; done. }
  destruct (scale_data self d2) as [[d3|e] s1] eqn:Hs;
    destruct (scale_data_fit_if_trained _ _ _ _ Hinv Hs) as [Hr Hinv'].
  2:{ by intros [= <- <-]. }
  destruct (_ ≫= _) as [d5|e] eqn:Hl; intros [= <- <-]; (split; [|done]).
  - destruct (apply_feature_engineering d5) eqn:Hfe; [done|].
    apply feature_engineering_Raise in Hfe. congruence.
  - apply bind_Raise in Hl as [H|(d4 & _ & H)].
    + unfold add_shifted_daily_value in H.
      apply bind_Raise in H as [H%getitem_Raise|(s & _ & H)]; [by subst|].
      apply bind_Raise in H as [H%as_floats_Raise|(y & _ & H)]; by subst.
    + unfold shift_y in H.
      apply bind_Raise in H as [H%getitem_Raise|(s & _ & H)]; [by subst|].
      apply bind_Raise in H as [H%as_floats_Raise|(y & _ & H)]; by subst.
Qed.

(** X8.  Whatever tables a new loader is called on, no call raises
    [NotFittedError]: the scaler is never asked to transform before it has
    been fit, also after calls that raised. *)
Theorem never_raises_NotFittedError (tables : list DataFrame) :
  Forall (fun r => r ≠ Raise NotFittedError) (process_all init tables).1.
Proof.
  assert (Hinv : fit_if_trained init) by done.
  revert Hinv. generalize init. induction tables as [|data tables IH];
    intros self Hinv; simpl; [done|].
  destruct (get_processed_data self data) as [r self1] eqn:Hrun.
  destruct (get_processed_data_fit_if_trained _ _ _ _ Hinv Hrun) as [Hr Hinv1].
  specialize (IH self1 Hinv1).
  destruct (process_all self1 tables) as [rs self2]. by constructor.
Qed.

(** ** A frame without some of its columns *)

Lemma in_labels c labels : existsb (String.eqb c) labels = true ↔ c ∈ labels.
Proof.
  rewrite existsb_exists. split.
  - intros (x & Hx%list_elem_of_In & ->%String.eqb_eq). done.
  - intros Hc. exists c. by rewrite <- list_elem_of_In, String.eqb_refl.
Qed.

Lemma getitem_without_in data labels c :
  c ∈ labels → getitem (pd.without labels data) c = Raise (KeyError c).
Proof.
  intros Hc. unfold pd.without. induction data as [|[k s] data IH]; [done|].
  simpl. destruct (existsb (String.eqb k) labels) eqn:E; simpl; [done|].
  destruct (String.eqb k c) eqn:Ek; [|done].
  apply String.eqb_eq in Ek as ->. apply in_labels in Hc. congruence.
Qed.

Lemma getitem_without_notin data labels c :
  c ∉ labels → getitem (pd.without labels data) c = getitem data c.
Proof.
  intros Hc. unfold pd.without. induction data as [|[k s] data IH]; [done|].
  simpl. destruct (existsb (String.eqb k) labels) eqn:E; simpl.
  - destruct (String.eqb k c) eqn:Ek; [|done].
    apply String.eqb_eq in Ek as ->. by apply in_labels in E.
  - by rewrite IH.
Qed.

Lemma without_setitem data labels c s :
  c ∉ labels →
  pd.without labels (setitem data c s) = setitem (pd.without labels data) c s.
Proof.
  intros Hc. unfold pd.without. induction data as [|[k s'] data IH]; simpl.
  - destruct (existsb (String.eqb c) labels) eqn:E; [|done]. by apply in_labels in E.
  - destruct (String.eqb k c) eqn:Ek; simpl.
    + apply String.eqb_eq in Ek as ->.
      destruct (existsb (String.eqb c) labels) eqn:E; [by apply in_labels in E|].
      simpl. by rewrite String.eqb_refl.
    + destruct (existsb (String.eqb k) labels) eqn:E; simpl; [done|].
      by rewrite Ek, IH.
Qed.

Lemma without_setitems data labels columns X :
  (∀ c, c ∈ columns → c ∉ labels) →
  pd.without labels (setitems data columns X)
  = setitems (pd.without labels data) columns X.
Proof.
  unfold setitems. revert data X.
  induction columns as [|c columns IH]; intros data X Hc; [done|].
  destruct X as [|col X]; [done|]. simpl.
  rewrite IH by (intros c' Hc'; apply Hc; by constructor).
  rewrite without_setitem; [done|]. apply Hc. constructor.
Qed.

Lemma drop_Ok data labels :
  Forall (fun c => pd.has_column data c = true) labels →
  pd.drop data labels = Ok (pd.without labels data).
Proof.
  intros Hall. unfold pd.drop.
  destruct (find _ labels) as [c|] eqn:E; [|done].
  apply find_some in E as [Hc%list_elem_of_In Hmiss].
  rewrite Forall_forall in Hall. by rewrite (Hall c Hc) in Hmiss.
Qed.

(** [data[columns]] raises the [KeyError] of a missing column when the
    columns before it are numeric. *)
Lemma getitems_missing data columns c :
  c ∈ columns → getitem data c = Raise (KeyError c) →
  (∀ c', c' ∈ columns → c' ≠ c → column_is numeric data c' = true) →
  getitems data columns = Raise (KeyError c).
Proof.
  intros Hc Hmiss. induction columns as [|c' columns IH]; intros Hnum.
  - by apply elem_of_nil in Hc.
  - simpl. destruct (decide (c' = c)) as [->|Hne]; [by rewrite Hmiss|].
    pose proof (Hnum c' (list_elem_of_here _ _) Hne) as Hc'.
    unfold column_is in Hc'. destruct (getitem data c') as [s|]; [|done].
    cbn [mbind result_bind].
    rewrite IH.
    + by destruct s.
    + apply elem_of_cons in Hc as [->|Hc]; done.
    + intros c'' Hc''. apply Hnum. by constructor.
Qed.

Lemma scale_data_missing self data c :
  getitems data columns_to_scale = Raise (KeyError c) →
  scale_data self data = (Raise (KeyError c), self).
Proof.
  intros HX. unfold scale_data. rewrite HX.
  by destruct (scaler_is_trained self).
Qed.

Lemma valid_input_numeric data c :
  valid_input data = true → c ∈ columns_to_scale →
  ∃ s col, getitem data c = Ok s ∧ numeric s = true ∧ as_floats s = Ok col
           ∧ length col = nrows data.
Proof.
  intros Hin Hc. pose proof (valid_input_rows _ Hin) as [Hn _].
  unfold valid_input in Hin. apply andb_prop in Hin as [_ Hnum].
  rewrite forallb_forall in Hnum.
  specialize (Hnum c (proj1 (list_elem_of_In _ _) Hc)). unfold column_is in Hnum.
  destruct (getitem data c) as [s|] eqn:Hs; [|done].
  pose proof (has_rows_getitem _ _ _ _ Hn Hs) as Hlen.
  destruct s; try done; simpl in *; eexists _, _;
    (split; [done|]); (split; [done|]); (split; [done|]); by rewrite ?length_map.
Qed.

(** X9.  Take one of the nine scaled columns out of a valid table: the
    call raises the [KeyError] of that column and leaves the loader as it
    was; an untrained loader is not fit. *)
Theorem missing_scaled_column_raises_KeyError (self : DataLoader)
  (data : DataFrame) (c : string) :
  valid_input data = true → c ∈ columns_to_scale →
  ∃ d, pd.drop data [c] = Ok d
       ∧ get_processed_data self d = (Raise (KeyError c), self).
Proof.
  intros Hin Hc. exists (pd.without [c] data). split.
  { apply drop_Ok. constructor; [|done].
    destruct (valid_input_numeric data c Hin Hc) as (s & _ & Hs & _).
    apply has_column_getitem. eauto. }
  set (d := pd.without [c] data).
  assert (Hmiss : getitem d c = Raise (KeyError c)).
  { apply getitem_without_in. constructor. }
  assert (Hkeep : ∀ c', c' ≠ c → getitem d c' = getitem data c').
  { intros c' Hne. apply getitem_without_notin. by intros ->%list_elem_of_singleton. }
  unfold get_processed_data, apply_preprocessing.
  destruct (decide (c = "y")) as [->|Hne]; [by rewrite Hmiss|].
  destruct (valid_input_numeric data "y" Hin) as (y0 & y & Hy0 & _ & Hy & Hly);
    [names|].
  destruct (valid_input_rows _ Hin) as [_ Hpos].
  rewrite Hkeep, Hy0 by done. unfold winsorize_one_percent.
  rewrite getitem_setitem_ne, Hkeep, Hy0 by done. cbn [mbind result_bind].
  rewrite Hy. cbn [mbind result_bind].
  destruct (winsorize_Ok y) as (lo & hi & _ & _ & ->).
  { intros ->. simpl in Hly. lia. }
  cbn [mbind result_bind].
  rewrite (scale_data_missing _ _ c); [done|].
  assert (Hcy : c ≠ "y_original") by (intros ->; revert Hc; names).
  apply getitems_missing; [done | |].
  - by rewrite !getitem_setitem_ne by done.
  - intros c' Hc' Hne'. unfold column_is.
    destruct (decide (c' = "y")) as [->|Hney].
    + by rewrite getitem_setitem_eq.
    + rewrite getitem_setitem_ne by done. rewrite getitem_setitem_ne.
      * rewrite Hkeep by done.
        by destruct (valid_input_numeric data c' Hin Hc') as (s & col & -> & -> & _).
      * intros <-. revert Hc'. names.
Qed.

Lemma missing_scaled_column_raises_KeyError_witness :
  valid_input sample = true ∧ "wind" ∈ columns_to_scale
  ∧ ∃ d, pd.drop sample ["wind"] = Ok d
         ∧ get_processed_data init d = (Raise (KeyError "wind"), init).
Proof.
  assert (Hc : "wind" ∈ columns_to_scale) by names.
  split; [reflexivity|]. split; [exact Hc|].
  apply missing_scaled_column_raises_KeyError; [reflexivity | exact Hc].
Defined.

(** The preprocessing does not look at the columns it does not name: on the
    frame without them it returns the same frame without them, and the same
    loader. *)
Lemma apply_preprocessing_without self data out self' labels :
  (∀ c, c ∈ "y_original" :: columns_to_scale ++ ["y_yesterday"; "y_prev"] →
        c ∉ labels) →
  apply_preprocessing self data = (Ok out, self') →
  apply_preprocessing self (pd.without labels data)
  = (Ok (pd.without labels out), self').
Proof.
  intros Hlab Hrun.
  assert (Hcols : ∀ c, c ∈ columns_to_scale → c ∉ labels).
  { intros c Hc. apply Hlab. rewrite elem_of_cons, elem_of_app. auto. }
  assert (Hkeep : ∀ c, c ∈ columns_to_scale →
            getitem (pd.without labels data) c = getitem data c).
  { intros c Hc. apply getitem_without_notin. by apply Hcols. }
  pose proof Hrun as Hrun'.
  apply apply_preprocessing_Ok in Hrun'
    as (y0 & y & w & X & X' & ys & Hy0 & Hy & Hw & HX & HX' & Htr & Hfit & Hys & ->).
  set (d := pd.without labels data).
  assert (Hy0' : getitem d "y" = Ok y0) by (unfold d; rewrite Hkeep; [done | names]).
  unfold apply_preprocessing. rewrite Hy0'. unfold winsorize_one_percent.
  rewrite getitem_setitem_ne, Hy0' by done. cbn [mbind result_bind].
  rewrite Hy. cbn [mbind result_bind]. rewrite Hw. cbn [mbind result_bind].
  set (d2 := setitem (setitem d "y_original" y0) "y" (Floats w)).
  assert (HX2 : getitems d2 columns_to_scale = Ok X).
  { rewrite <- HX. apply getitems_ext. intros c Hc. unfold d2.
    destruct (decide (c = "y")) as [->|Hne]; [by rewrite !getitem_setitem_eq|].
    assert (Hne' : "y" ≠ c) by done.
    rewrite !(getitem_setitem_ne _ "y" c) by done.
    rewrite (getitem_setitem_ne _ "y_original" c).
    - by apply Hkeep.
    - intros <-. revert Hc. names. }
  assert (Hscale : scale_data self d2
                   = (Ok (setitems d2 columns_to_scale X'), self')).
  { unfold scale_data. rewrite HX2.
    destruct (scaler_is_trained self); cbn [negb].
    - subst self'. cbn [mbind result_bind]. by rewrite HX'.
    - rewrite Hfit. cbn [mbind result_bind scaler]. rewrite HX'.
      cbn [mbind result_bind]. f_equal. destruct self' as [sc tr].
      simpl in *. by subst tr. }
  rewrite Hscale.
  assert (Hd3 : setitems d2 columns_to_scale X'
                = pd.without labels
                    (setitems (setitem (setitem data "y_original" y0) "y" (Floats w))
                              columns_to_scale X')).
  { rewrite without_setitems by done. unfold d2, d.
    rewrite !without_setitem; [done | |].
    - apply Hlab. constructor.
    - apply Hcols. names. }
  rewrite (lags_succeed _ ys).
  - f_equal. f_equal. rewrite Hd3. unfold assign_all. simpl.
    rewrite !without_setitem; [done | |]; apply Hlab;
      rewrite elem_of_cons, elem_of_app, !elem_of_cons; auto 10.
  - rewrite Hd3, getitem_without_notin; [done|]. apply Hcols. names.
Qed.

(** X10.  Take [start_time] out of a valid table: the call raises
    [KeyError] for [start_time], in the feature engineering, after the
    preprocessing has run.  The loader it leaves is the one the call on the
    whole table leaves: trained, so a call that raised has used up the one
    fit. *)
Theorem failed_call_without_start_time_fits_the_scaler (self : DataLoader)
  (data : DataFrame) :
  valid_loader self = true → valid_input data = true →
  ∃ out self' d,
    get_processed_data self data = (Ok out, self')
    ∧ scaler_is_trained self' = true
    ∧ pd.drop data ["start_time"] = Ok d
    ∧ get_processed_data self d = (Raise (KeyError "start_time"), self').
Proof.
  intros Hv Hin.
  destruct (get_processed_data_succeeds self data Hv Hin) as (out & self' & Hrun & _).
  exists out, self', (pd.without ["start_time"] data). split; [done|].
  unfold get_processed_data in Hrun |- *.
  destruct (apply_preprocessing self data) as [[d5|e] s1] eqn:Hpre; [|done].
  injection Hrun as Hfe <-.
  split; [|split].
  - by apply apply_preprocessing_Ok in Hpre
      as (? & ? & ? & ? & ? & ? & _ & _ & _ & _ & _ & Htr & _).
  - apply drop_Ok. constructor; [|done]. apply has_column_getitem.
    unfold valid_input in Hin. apply andb_prop in Hin as [Hin _].
    apply andb_prop in Hin as [_ Hts]. unfold column_is in Hts.
    destruct (getitem data "start_time"); [eauto | done].
  - assert (Hlab : ∀ c, c ∈ "y_original" :: columns_to_scale
                               ++ ["y_yesterday"; "y_prev"] → c ∉ ["start_time"]).
    { intros c Hc ->%list_elem_of_singleton. revert Hc. names. }
    rewrite (apply_preprocessing_without _ _ _ _ _ Hlab Hpre).
    unfold apply_feature_engineering, add_hour_of_day.
    by rewrite getitem_without_in by constructor.
Qed.

Lemma failed_call_without_start_time_fits_the_scaler_witness :
  valid_loader init = true ∧ valid_input sample = true
  ∧ ∃ out self' d,
      get_processed_data init sample = (Ok out, self')
      ∧ scaler_is_trained self' = true
      ∧ pd.drop sample ["start_time"] = Ok d
      ∧ get_processed_data init d = (Raise (KeyError "start_time"), self').
Proof.
  split; [reflexivity|]. split; [reflexivity|].
  apply failed_call_without_start_time_fits_the_scaler; reflexivity.
Defined.

(** ** Columns are never removed *)

Lemma has_column_setitem_keep data c s c' :
  pd.has_column data c' = true → pd.has_column (setitem data c s) c' = true.
Proof.
  intros H. destruct (decide (c = c')) as [->|Hne].
  - apply has_column_getitem. exists s. apply getitem_setitem_eq.
  - by rewrite has_column_setitem_ne.
Qed.

Lemma has_column_setitems_keep data columns X c :
  pd.has_column data c = true → pd.has_column (setitems data columns X) c = true.
Proof.
  unfold setitems. generalize (zip columns X). intros kvs. revert data.
  induction kvs as [|[k col] kvs IH]; intros data H; [done|].
  simpl. by apply IH, has_column_setitem_keep.
Qed.

(** A stage that lacks a column it reads lacks it in every frame the frame
    was made from by assignments. *)
Lemma missing_before_setitem data c s c' :
  pd.has_column (setitem data c s) c' = false → pd.has_column data c' = false.
Proof.
  intros H. apply not_true_iff_false. intros H'.
  by rewrite (has_column_setitem_keep _ c s _ H') in H.
Qed.

Lemma start_time_KeyError data c :
  (getitem data "start_time" ≫= pd.to_datetime) = Raise (KeyError c) →
  c = "start_time" ∧ pd.has_column data c = false.
Proof.
  intros [H|(s & _ & H%to_datetime_Raise)]%bind_Raise; [|done].
  pose proof (getitem_Raise _ _ _ H) as [= ->]. split; [done|].
  by apply has_column_false.
Qed.

Lemma getitems_KeyError data columns c :
  getitems data columns = Raise (KeyError c) →
  c ∈ columns ∧ pd.has_column data c = false.
Proof.
  induction columns as [|c' columns IH]; simpl; [done|].
  intros [H|(s & _ & [H%as_floats_Raise|(col & _ & H)]%bind_Raise)]%bind_Raise.
  - pose proof (getitem_Raise _ _ _ H) as [= ->]. split; [constructor|].
    by apply has_column_false.
  - done.
  - apply bind_Raise in H as [H|(X & _ & H)]; [|done].
    destruct (IH H) as [Hc Hm]. split; [by constructor | done].
Qed.

Lemma stage_Ok_start_time (f : list Timestamp → DataFrame) data out :
  (start_time ← getitem data "start_time";
   start_time ← pd.to_datetime start_time; Ok (f start_time)) = Ok out →
  ∃ ts, out = f ts.
Proof.
  intros (s & _ & (ts & _ & [= <-])%bind_Ok)%bind_Ok. eauto.
Qed.

(** X11.  When a call raises a [KeyError], the column it names is
    [start_time] or one of the nine scaled columns, and the input has no such
    column: no column the pipeline makes itself is ever missed. *)
Theorem a_KeyError_names_a_missing_input_column (self : DataLoader)
  (data : DataFrame) (c : string) (self' : DataLoader) :
  get_processed_data self data = (Raise (KeyError c), self') →
  c ∈ "start_time" :: columns_to_scale ∧ pd.has_column data c = false.
Proof.
  unfold get_processed_data, apply_preprocessing.
  destruct (getitem data "y") as [y0|e] eqn:Hy0.
  { set (d1 := setitem data "y_original" y0).
    destruct (winsorize_one_percent d1) as [d2|e] eqn:Hw.
    2:{ intros [= -> <-]. unfold winsorize_one_percent, d1 in Hw.
        rewrite getitem_setitem_ne, Hy0 in Hw by done.
        cbn [mbind result_bind] in Hw.
        apply bind_Raise in Hw as [H%as_floats_Raise|(y & _ & H)]; [done|].
        apply bind_Raise in H as [[H|H]%winsorize_Raise|(w & _ & H)]; done. }
    assert (Hd2 : ∀ c, pd.has_column d2 c = false → pd.has_column data c = false).
    { unfold winsorize_one_percent in Hw.
      apply bind_Ok in Hw as (s & _ & (y & _ & (w & _ & [= <-])%bind_Ok)%bind_Ok).
      intros c' H. unfold d1 in H. by do 2 apply missing_before_setitem in H. }
    destruct (scale_data self d2) as [[d3|e] s1] eqn:Hs.
    2:{ intros [= -> <-]. unfold scale_data in Hs.
        destruct (getitems d2 columns_to_scale) as [X|e] eqn:HX.
        - exfalso. destruct (negb (scaler_is_trained self)).
          + destruct (sklearn.fit (scaler self) X) as [sc|e] eqn:Hfit.
            * injection Hs as Hs _. cbn [mbind result_bind] in Hs.
              apply bind_Raise in Hs as [[H|[H _]]%transform_Raise|(X' & _ & H)];
                done.
            * injection Hs as Hs _. by apply fit_Raise in Hfit as ->.
          + injection Hs as Hs _. cbn [mbind result_bind] in Hs.
            apply bind_Raise in Hs as [[H|[H _]]%transform_Raise|(X' & _ & H)];
              done.
        - assert (e = KeyError c) as ->.
          { by destruct (negb (scaler_is_trained self)); injection Hs as -> _. }
          destruct (getitems_KeyError _ _ _ HX) as [Hc Hm].
          split; [by constructor | by apply Hd2]. }
    assert (Hd3 : ∀ c, pd.has_column d3 c = false → pd.has_column data c = false).
    { destruct (scale_data_Ok _ _ _ _ Hs) as (X & X' & _ & _ & -> & _).
      intros c' H. apply Hd2, not_true_iff_false. intros H'.
      by rewrite (has_column_setitems_keep _ columns_to_scale X' _ H') in H. }
    destruct (add_shifted_daily_value d3 ≫= shift_y) as [d5|e] eqn:Hl.
    2:{ intros [= -> <-].
        assert (Hy : ∀ d, (getitem d "y" ≫= as_floats) = Raise (KeyError c) →
                  c = "y" ∧ pd.has_column d c = false).
        { intros d [H|(s & _ & H%as_floats_Raise)]%bind_Raise; [|done].
          pose proof (getitem_Raise _ _ _ H) as [= ->]. split; [done|].
          by apply has_column_false. }
        apply bind_Raise in Hl as [H|(d4 & Hd4 & H)].
        - unfold add_shifted_daily_value in H.
          destruct (Hy d3) as [-> Hm].
          { apply bind_Raise in H as [H|(s & Hs' & H)]; [by rewrite H|].
            rewrite Hs'. cbn [mbind result_bind].
            apply bind_Raise in H as [H|(y & _ & H)]; [by rewrite H | done]. }
          split; [names | by apply Hd3].
        - unfold shift_y in H.
          destruct (Hy d4) as [-> Hm].
          { apply bind_Raise in H as [H|(s & Hs' & H)]; [by rewrite H|].
            rewrite Hs'. cbn [mbind result_bind].
            apply bind_Raise in H as [H|(y & _ & H)]; [by rewrite H | done]. }
          split; [names|]. apply Hd3.
          unfold add_shifted_daily_value in Hd4.
          apply bind_Ok in Hd4 as (s & _ & (y & _ & [= <-])%bind_Ok).
          by apply missing_before_setitem in Hm. }
    assert (Hd5 : ∀ c, pd.has_column d5 c = false → pd.has_column data c = false).
    { apply bind_Ok in Hl as (d4 & Hd4 & Hl).
      unfold add_shifted_daily_value in Hd4. unfold shift_y in Hl.
      apply bind_Ok in Hd4 as (s & _ & (y & _ & [= <-])%bind_Ok).
      apply bind_Ok in Hl as (s' & _ & (y' & _ & [= <-])%bind_Ok).
      intros c' H. by do 2 apply missing_before_setitem in H; apply Hd3. }
    intros [= Hfe <-].
    assert (Hstart : ∀ d (k : list Timestamp → result DataFrame),
              (∀ c, pd.has_column d c = false → pd.has_column data c = false) →
              (getitem d "start_time" ≫= fun s => pd.to_datetime s ≫= k)
              = Raise (KeyError c) →
              (c ∈ "start_time" :: columns_to_scale ∧ pd.has_column data c = false)
              ∨ ∃ ts, getitem d "start_time" = Ok (Times ts)
                      ∧ k ts = Raise (KeyError c)).
    { intros d k Hd [H|(s & Hs' & H)]%bind_Raise.
      - left. pose proof (getitem_Raise _ _ _ H) as [= ->].
        split; [constructor|]. by apply Hd, has_column_false.
      - apply bind_Raise in H as [H%to_datetime_Raise|(ts & Hts & H)]; [done|].
        right. destruct s; try done. injection Hts as ->. eauto. }
    unfold apply_feature_engineering in Hfe.
    apply bind_Raise in Hfe as [H|(d6 & Hd6 & Hfe)].
    { apply (Hstart _ _ Hd5) in H as [H|(ts & _ & H)]; done. }
    assert (Hd6' : ∀ c, pd.has_column d6 c = false → pd.has_column data c = false).
    { apply stage_Ok_start_time in Hd6 as [ts ->].
      intros c' H. by apply missing_before_setitem in H; apply Hd5. }
    apply bind_Raise in Hfe as [H|(d7 & Hd7 & Hfe)].
    { apply (Hstart _ _ Hd6') in H as [H|(ts & _ & H)]; [done|].
      apply stage_Ok_start_time in Hd6 as [ts' ->].
      rewrite getitem_setitem_eq in H. done. }
    assert (Hd7' : ∀ c, pd.has_column d7 c = false → pd.has_column data c = false).
    { unfold add_min_of_day in Hd7.
      apply bind_Ok in Hd7
        as (s & _ & (ts & _ & (h & _ & (hs & _ & [= <-])%bind_Ok)%bind_Ok)%bind_Ok).
      intros c' H. by do 3 apply missing_before_setitem in H; apply Hd6'. }
    apply bind_Raise in Hfe as [H|(d8 & Hd8 & Hfe)].
    { apply (Hstart _ _ Hd7') in H as [H|(ts & _ & H)]; done. }
    assert (Hd8' : ∀ c, pd.has_column d8 c = false → pd.has_column data c = false).
    { apply stage_Ok_start_time in Hd8 as [ts ->].
      intros c' H. by do 3 apply missing_before_setitem in H; apply Hd7'. }
    apply bind_Raise in Hfe as [H|(d9 & Hd9 & Hfe)].
    { apply (Hstart _ _ Hd8') in H as [H|(ts & _ & H)]; done. }
    assert (Hd9' : ∀ c, pd.has_column d9 c = false → pd.has_column data c = false).
    { apply stage_Ok_start_time in Hd9 as [ts ->].
      intros c' H. by do 3 apply missing_before_setitem in H; apply Hd8'. }
    unfold add_shifted_daily_mean in Hfe.
    apply (Hstart _ _ Hd9') in Hfe as [H|(ts & _ & H)]; [done|].
    apply bind_Raise in H as [H|([keys means] & _ & H)].
    - unfold pd.groupby_mean in H. rewrite getitem_setitem_eq in H.
      cbn [mbind result_bind] in H.
      apply bind_Raise in H as [H|(s & _ & [H%as_floats_Raise|(y & _ & H)]%bind_Raise)];
        [|done..].
      pose proof (getitem_Raise _ _ _ H) as [= ->]. split; [names|].
      apply has_column_false in H. apply missing_before_setitem in H.
      by apply Hd9'.
    - exfalso. cbn in H. unfold pd.merge in H.
      rewrite getitem_setitem_eq in H. cbn [mbind result_bind] in H.
      change (getitem _ "date") with (@Ok Series (Dates keys)) in H. done. }
  intros [= -> <-]. pose proof (getitem_Raise _ _ _ Hy0) as [= ->].
  split; [names | by apply has_column_false].
Qed.

Lemma a_KeyError_names_a_missing_input_column_witness :
  get_processed_data init [("y", Floats [Some 1%Q])]
  = (Raise (KeyError "hydro"), init)
  ∧ "hydro" ∈ "start_time" :: columns_to_scale
  ∧ pd.has_column [("y", Floats [Some 1%Q])] "hydro" = false.
Proof.
  split; [reflexivity|].
  apply (a_KeyError_names_a_missing_input_column init _ "hydro" init). reflexivity.
Defined.

(** ** The calendar columns, row by row *)

Lemma min_of_day_lookup ts i t :
  ts !! i = Some t →
  min_of_day ts !! i = Some (pd.dt_minute t + pd.dt_hour t * 60).
Proof.
  intros Hi. unfold min_of_day. apply lookup_zip_with_Some.
  exists (pd.dt_minute t), (pd.dt_hour t * 60).
  rewrite !list_lookup_fmap, Hi. done.
Qed.

Lemma min_of_day_length ts : length (min_of_day ts) = length ts.
Proof. unfold min_of_day. rewrite length_zip_with, !length_fmap. lia. Qed.

Lemma dt_hour_range t : 0 ≤ pd.dt_hour t ≤ 23.
Proof. unfold pd.dt_hour. Z.to_euclidean_division_equations. lia. Qed.

Lemma dt_day_of_week_range t : 0 ≤ pd.dt_day_of_week t ≤ 6.
Proof. unfold pd.dt_day_of_week. Z.to_euclidean_division_equations. lia. Qed.

(** The minute of day is the number of whole minutes since midnight. *)
Lemma min_of_day_range t :
  pd.dt_minute t + pd.dt_hour t * 60 = (t mod 86400) / 60
  ∧ 0 ≤ pd.dt_minute t + pd.dt_hour t * 60 ≤ 1439.
Proof.
  unfold pd.dt_minute, pd.dt_hour. Z.to_euclidean_division_equations. lia.
Qed.

Lemma month_offset_le leap k : nth k (pd.month_offset leap) 0 ≤ 335.
Proof.
  destruct leap; do 13 (destruct k as [|k]; [simpl; lia|]); simpl; lia.
Qed.

Lemma dt_day_of_year_le t : pd.dt_day_of_year t ≤ 366.
Proof.
  unfold pd.dt_day_of_year, pd.civil_from_days, pd.get_day_of_year.
  cbv zeta. match goal with |- nth ?k (pd.month_offset ?l) 0 + ?d ≤ 366 =>
    pose proof (month_offset_le l k); assert (d ≤ 31); [|lia] end.
  match goal with |- ?doy - (153 * ((5 * ?doy + 2) / 153) + 2) / 5 + 1 ≤ 31 =>
    generalize doy end.
  intros doy. Z.to_euclidean_division_equations. lia.
Qed.

Lemma dt_hour_of_min_of_day t :
  pd.dt_hour t = (pd.dt_minute t + pd.dt_hour t * 60) / 60.
Proof.
  unfold pd.dt_minute, pd.dt_hour. Z.to_euclidean_division_equations. lia.
Qed.

(** X12.  On a valid input, in every row: [hour_of_day] is between 0 and
    23, [min_of_day] is the number of whole minutes since midnight, between 0
    and 1439, [hour_of_day] is [min_of_day // 60], [day_of_week] is between 0
    and 6 and [day_of_year] between 1 and 366. *)
Theorem calendar_columns_in_range (self : DataLoader) (data : DataFrame)
  (ts : list Timestamp) :
  valid_loader self = true → valid_input data = true →
  getitem data "start_time" = Ok (Times ts) →
  ∃ out self' hs ms ws ds,
    get_processed_data self data = (Ok out, self')
    ∧ getitem out "hour_of_day" = Ok (Ints hs)
    ∧ getitem out "min_of_day" = Ok (Ints ms)
    ∧ getitem out "day_of_week" = Ok (Ints ws)
    ∧ getitem out "day_of_year" = Ok (Ints ds)
    ∧ ∀ i t, ts !! i = Some t →
        ∃ h m w d,
          hs !! i = Some h ∧ ms !! i = Some m
          ∧ ws !! i = Some w ∧ ds !! i = Some d
          ∧ 0 ≤ h ≤ 23 ∧ 0 ≤ m ≤ 1439
          ∧ h = m / 60 ∧ m = (t mod 86400) / 60
          ∧ 0 ≤ w ≤ 6 ∧ 1 ≤ d ≤ 366.
Proof.
  intros Hv Hin Hst.
  destruct (get_processed_data_succeeds self data Hv Hin) as (out & self' & Hrun & _).
  destruct (valid_input_rows _ Hin) as [Hn Hpos].
  destruct (processed_calendar _ _ _ _ _ (get_processed_data_Ok _ _ _ _ _ Hn Hrun))
    as (ts' & Hts & Hcal).
  rewrite Hst in Hts. injection Hts as <-.
  exists out, self'. eexists _, _, _, _. split; [done|].
  do 4 (split; [apply Hcal; unfold calendar_features; rewrite !elem_of_cons;
                auto 12|]).
  intros i t Hi.
  exists (pd.dt_hour t), (pd.dt_minute t + pd.dt_hour t * 60),
    (pd.dt_day_of_week t), (pd.dt_day_of_year t).
  destruct (min_of_day_range t) as [Hm Hmr].
  pose proof (dt_hour_range t). pose proof (dt_day_of_week_range t).
  pose proof (dt_day_of_year_pos t). pose proof (dt_day_of_year_le t).
  pose proof (dt_hour_of_min_of_day t).
  split; [apply list_lookup_fmap_Some; by exists t|].
  split; [by apply min_of_day_lookup|].
  split; [apply list_lookup_fmap_Some; by exists t|].
  split; [apply list_lookup_fmap_Some; by exists t|]. done.
Qed.

Lemma calendar_columns_in_range_witness :
  valid_loader init = true ∧ valid_input sample = true
  ∧ getitem sample "start_time"
    = Ok (Times [at_ 3 23 50; at_ 3 23 55; at_ 4 0 0; at_ 4 0 5; at_ 7 12 0])
  ∧ ∃ out self' hs ms ws ds,
      get_processed_data init sample = (Ok out, self')
      ∧ getitem out "hour_of_day" = Ok (Ints hs)
      ∧ getitem out "min_of_day" = Ok (Ints ms)
      ∧ getitem out "day_of_week" = Ok (Ints ws)
      ∧ getitem out "day_of_year" = Ok (Ints ds)
      ∧ ∀ i t,
          [at_ 3 23 50; at_ 3 23 55; at_ 4 0 0; at_ 4 0 5; at_ 7 12 0] !! i = Some t →
          ∃ h m w d,
            hs !! i = Some h ∧ ms !! i = Some m
            ∧ ws !! i = Some w ∧ ds !! i = Some d
            ∧ 0 ≤ h ≤ 23 ∧ 0 ≤ m ≤ 1439
            ∧ h = m / 60 ∧ m = (t mod 86400) / 60
            ∧ 0 ≤ w ≤ 6 ∧ 1 ≤ d ≤ 366.
Proof.
  split; [reflexivity|]. split; [reflexivity|]. split; [reflexivity|].
  apply calendar_columns_in_range; reflexivity.
Defined.

(** X13.  On a valid input whose rows are all at 00:00 (one row a day, say)
    the largest minute of day is 0, and [cos_minute] and [sin_minute] are NaN
    in every row. *)
Theorem minute_encoding_of_midnight_rows_is_nan (self : DataLoader)
  (data : DataFrame) (ts : list Timestamp) :
  valid_loader self = true → valid_input data = true →
  getitem data "start_time" = Ok (Times ts) →
  Forall (fun t => pd.dt_hour t = 0 ∧ pd.dt_minute t = 0) ts →
  ∃ out self',
    get_processed_data self data = (Ok out, self')
    ∧ getitem out "cos_minute" = Ok (Reals (replicate (length ts) r_nan))
    ∧ getitem out "sin_minute" = Ok (Reals (replicate (length ts) r_nan)).
Proof.
  intros Hv Hin Hst Hmid.
  destruct (get_processed_data_succeeds self data Hv Hin) as (out & self' & Hrun & _).
  destruct (valid_input_rows _ Hin) as [Hn Hpos].
  destruct (processed_calendar _ _ _ _ _ (get_processed_data_Ok _ _ _ _ _ Hn Hrun))
    as (ts' & Hts & Hcal).
  rewrite Hst in Hts. injection Hts as <-.
  assert (Hlen : length ts = nrows data) by apply (has_rows_getitem _ _ _ _ Hn Hst).
  assert (Hnorm : normalised (min_of_day ts) = replicate (length ts) None).
  { rewrite <- (min_of_day_length ts). apply normalised_all_zero.
    - intros Hnil. pose proof (min_of_day_length ts) as Hl.
      rewrite Hnil in Hl. simpl in Hl. lia.
    - apply Forall_lookup. intros i m Hm.
      destruct (lookup_lt_is_Some_2 ts i) as [t Ht].
      { rewrite <- min_of_day_length. by eapply lookup_lt_Some. }
      rewrite (min_of_day_lookup _ _ _ Ht) in Hm. injection Hm as <-.
      rewrite Forall_forall in Hmid.
      destruct (Hmid t (list_elem_of_lookup_2 _ _ _ Ht)) as [-> ->]. done. }
  exists out, self'. split; [done|]. split.
  - rewrite (Hcal "cos_minute" (Reals (np.cos <$> normalised (min_of_day ts)))).
    + by rewrite Hnorm, fmap_replicate.
    + unfold calendar_features. rewrite !elem_of_cons. auto 10.
  - rewrite (Hcal "sin_minute"
               (Reals (pd.round 6 <$> (np.sin <$> normalised (min_of_day ts))))).
    + by rewrite Hnorm, !fmap_replicate.
    + unfold calendar_features. rewrite !elem_of_cons. auto 10.
Qed.

Lemma minute_encoding_of_midnight_rows_is_nan_witness :
  valid_loader init = true ∧ valid_input midnight = true
  ∧ getitem midnight "start_time" = Ok (Times [at_ 5 0 0])
  ∧ Forall (fun t => pd.dt_hour t = 0 ∧ pd.dt_minute t = 0) [at_ 5 0 0]
  ∧ ∃ out self',
      get_processed_data init midnight = (Ok out, self')
      ∧ getitem out "cos_minute" = Ok (Reals (replicate 1 r_nan))
      ∧ getitem out "sin_minute" = Ok (Reals (replicate 1 r_nan)).
Proof.
  assert (Hmid : Forall (fun t => pd.dt_hour t = 0 ∧ pd.dt_minute t = 0)
                   [at_ 5 0 0]).
  { repeat constructor. }
  split; [reflexivity|]. split; [reflexivity|]. split; [reflexivity|].
  split; [exact Hmid|].
  apply (minute_encoding_of_midnight_rows_is_nan init midnight [at_ 5 0 0]);
    [reflexivity | reflexivity | reflexivity | exact Hmid].
Defined.

(** X14.  The ten calendar columns depend on [start_time] alone: two valid
    inputs with the same [start_time], processed by whatever valid loaders,
    get the same calendar columns. *)
Theorem calendar_columns_depend_on_start_time_only (self1 self2 : DataLoader)
  (data1 data2 : DataFrame) :
  valid_loader self1 = true → valid_loader self2 = true →
  valid_input data1 = true → valid_input data2 = true →
  getitem data1 "start_time" = getitem data2 "start_time" →
  ∃ out1 self1' out2 self2',
    get_processed_data self1 data1 = (Ok out1, self1')
    ∧ get_processed_data self2 data2 = (Ok out2, self2')
    ∧ Forall (fun c => getitem out1 c = getitem out2 c) calendar_columns.
Proof.
  intros Hv1 Hv2 Hin1 Hin2 Hst.
  destruct (get_processed_data_succeeds _ _ Hv1 Hin1) as (out1 & self1' & Hrun1 & _).
  destruct (get_processed_data_succeeds _ _ Hv2 Hin2) as (out2 & self2' & Hrun2 & _).
  destruct (valid_input_rows _ Hin1) as [Hn1 _].
  destruct (valid_input_rows _ Hin2) as [Hn2 _].
  destruct (processed_calendar _ _ _ _ _ (get_processed_data_Ok _ _ _ _ _ Hn1 Hrun1))
    as (ts1 & Hts1 & Hcal1).
  destruct (processed_calendar _ _ _ _ _ (get_processed_data_Ok _ _ _ _ _ Hn2 Hrun2))
    as (ts2 & Hts2 & Hcal2).
  rewrite Hst, Hts2 in Hts1. injection Hts1 as <-.
  exists out1, self1', out2, self2'. split; [done|]. split; [done|].
  apply Forall_forall. intros c Hc.
  assert (Hs : ∃ s, (c, s) ∈ calendar_features ts2).
  { change calendar_columns with (calendar_features ts2).*1 in Hc.
    apply list_elem_of_fmap in Hc as ([c' s] & -> & Hin). eauto. }
  destruct Hs as [s Hs]. by rewrite (Hcal1 _ _ Hs), (Hcal2 _ _ Hs).
Qed.

Lemma calendar_columns_depend_on_start_time_only_witness :
  valid_loader init = true ∧ valid_loader init = true
  ∧ valid_input sample = true
  ∧ valid_input (setitem sample "y" (constant 5 1%Q)) = true
  ∧ getitem sample "start_time"
    = getitem (setitem sample "y" (constant 5 1%Q)) "start_time"
  ∧ ∃ out1 self1' out2 self2',
      get_processed_data init sample = (Ok out1, self1')
      ∧ get_processed_data init (setitem sample "y" (constant 5 1%Q))
        = (Ok out2, self2')
      ∧ Forall (fun c => getitem out1 c = getitem out2 c) calendar_columns.
Proof.
  split; [reflexivity|]. split; [reflexivity|]. split; [reflexivity|].
  split; [reflexivity|]. split; [reflexivity|].
  apply calendar_columns_depend_on_start_time_only; reflexivity.
Defined.

(** ** The value 0 and the largest value of a column *)

Lemma Q2R_ratio (x m : Z) :
  m ≠ 0 → Q2R (2 * inject_Z x / inject_Z m) = (2 * IZR x / IZR m)%R.
Proof.
  intros Hm. unfold Qdiv. rewrite !Q2R_mult, Q2R_inv.
  - unfold Q2R. simpl. field. by apply not_0_IZR.
  - unfold Qeq. simpl. lia.
Qed.

Lemma rint_0 : rint 0 = 0.
Proof.
  unfold rint.
  assert (H0 : Int_part 0 = 0).
  { symmetry. apply Int_part_spec. simpl. Lra.lra. }
  rewrite H0. destruct (Rlt_dec (0 - 0) (1 / 2)) as [|Hn]; [done|].
  exfalso. apply Hn. Lra.lra.
Qed.

Lemma round_R_0 ndigits : round_R ndigits 0 = 0%R.
Proof.
  unfold round_R. rewrite Rmult_0_l, rint_0. unfold Rdiv. apply Rmult_0_l.
Qed.

(** With the largest value of the column as the period, a row holding it
    and a row holding 0 get the same point of the circle: cosine 1, sine
    0. *)
Lemma encoding_of_zero_and_max (zs : list Z) (ndigits : Z) i x m :
  zs !! i = Some x → pd.max zs = Some m → m ≠ 0 → x = 0 ∨ x = m →
  ((np.cos <$> normalised zs) !! i ≫= real_val) = Some 1%R
  ∧ ((pd.round ndigits <$> (np.sin <$> normalised zs)) !! i ≫= real_val)
    = Some 0%R.
Proof.
  intros Hi Hm Hne Hx. rewrite !list_lookup_fmap.
  rewrite (normalised_lookup _ _ _ _ Hi Hm Hne). simpl.
  rewrite (Q2R_ratio _ _ Hne).
  assert (Hangle : (cos (2 * IZR x / IZR m * PI) = 1
                    ∧ sin (2 * IZR x / IZR m * PI) = 0)%R).
  { destruct Hx as [-> | ->].
    - replace (2 * 0 / IZR m * PI)%R with 0%R by (unfold Rdiv; ring).
      split; [apply cos_0 | apply sin_0].
    - replace (2 * IZR m / IZR m * PI)%R with (2 * PI)%R
        by (field; by apply not_0_IZR).
      split; [apply cos_2PI | apply sin_2PI]. }
  destruct Hangle as [-> ->]. by rewrite round_R_0.
Qed.

(** X15.  The period of an encoding is the largest value of the table, so
    the rows that hold it are encoded as the rows that hold 0: with a largest
    weekday other than 0, a Monday row and a row of the largest weekday both
    have [cos_weekday] 1 and [sin_weekday] 0; with a largest minute of day
    other than 0, a row at 00:00 and a row at the latest time of day both
    have [cos_minute] 1 and [sin_minute] 0. *)
Theorem zero_and_largest_value_share_an_encoding (self : DataLoader)
  (data : DataFrame) (ts : list Timestamp) :
  valid_loader self = true → valid_input data = true →
  getitem data "start_time" = Ok (Times ts) →
  ∃ out self' sin_w cos_w sin_m cos_m,
    get_processed_data self data = (Ok out, self')
    ∧ getitem out "sin_weekday" = Ok (Reals sin_w)
    ∧ getitem out "cos_weekday" = Ok (Reals cos_w)
    ∧ getitem out "sin_minute" = Ok (Reals sin_m)
    ∧ getitem out "cos_minute" = Ok (Reals cos_m)
    ∧ ∀ i t, ts !! i = Some t →
        (∀ w, pd.max (pd.dt_day_of_week <$> ts) = Some w → w ≠ 0 →
           pd.dt_day_of_week t = 0 ∨ pd.dt_day_of_week t = w →
           (cos_w !! i ≫= real_val) = Some 1%R
           ∧ (sin_w !! i ≫= real_val) = Some 0%R)
        ∧ (∀ m, pd.max (min_of_day ts) = Some m → m ≠ 0 →
             pd.dt_minute t + pd.dt_hour t * 60 = 0
             ∨ pd.dt_minute t + pd.dt_hour t * 60 = m →
             (cos_m !! i ≫= real_val) = Some 1%R
             ∧ (sin_m !! i ≫= real_val) = Some 0%R).
Proof.
  intros Hv Hin Hst.
  destruct (get_processed_data_succeeds self data Hv Hin) as (out & self' & Hrun & _).
  destruct (valid_input_rows _ Hin) as [Hn Hpos].
  destruct (processed_calendar _ _ _ _ _ (get_processed_data_Ok _ _ _ _ _ Hn Hrun))
    as (ts' & Hts & Hcal).
  rewrite Hst in Hts. injection Hts as <-.
  exists out, self'. eexists _, _, _, _. split; [done|].
  do 4 (split; [apply Hcal; unfold calendar_features; rewrite !elem_of_cons;
                auto 12|]).
  intros i t Hi. split.
  - intros w Hw Hne Hx.
    apply (encoding_of_zero_and_max _ 2 i (pd.dt_day_of_week t) w); try done.
    apply list_lookup_fmap_Some. by exists t.
  - intros m Hm Hne Hx.
    apply (encoding_of_zero_and_max _ 6 i (pd.dt_minute t + pd.dt_hour t * 60) m);
      try done.
    by apply min_of_day_lookup.
Qed.

Lemma zero_and_largest_value_share_an_encoding_witness :
  valid_loader init = true ∧ valid_input sample = true
  ∧ getitem sample "start_time"
    = Ok (Times [at_ 3 23 50; at_ 3 23 55; at_ 4 0 0; at_ 4 0 5; at_ 7 12 0])
  ∧ ∃ out self' sin_w cos_w sin_m cos_m,
      get_processed_data init sample = (Ok out, self')
      ∧ getitem out "sin_weekday" = Ok (Reals sin_w)
      ∧ getitem out "cos_weekday" = Ok (Reals cos_w)
      ∧ getitem out "sin_minute" = Ok (Reals sin_m)
      ∧ getitem out "cos_minute" = Ok (Reals cos_m)
      ∧ ∀ i t,
          [at_ 3 23 50; at_ 3 23 55; at_ 4 0 0; at_ 4 0 5; at_ 7 12 0] !! i = Some t →
          (∀ w, pd.max (pd.dt_day_of_week <$>
                          [at_ 3 23 50; at_ 3 23 55; at_ 4 0 0; at_ 4 0 5;
                           at_ 7 12 0]) = Some w → w ≠ 0 →
             pd.dt_day_of_week t = 0 ∨ pd.dt_day_of_week t = w →
             (cos_w !! i ≫= real_val) = Some 1%R
             ∧ (sin_w !! i ≫= real_val) = Some 0%R)
          ∧ (∀ m, pd.max (min_of_day [at_ 3 23 50; at_ 3 23 55; at_ 4 0 0;
                                      at_ 4 0 5; at_ 7 12 0]) = Some m → m ≠ 0 →
               pd.dt_minute t + pd.dt_hour t * 60 = 0
               ∨ pd.dt_minute t + pd.dt_hour t * 60 = m →
               (cos_m !! i ≫= real_val) = Some 1%R
               ∧ (sin_m !! i ≫= real_val) = Some 0%R).
Proof.
  split; [reflexivity|]. split; [reflexivity|]. split; [reflexivity|].
  apply zero_and_largest_value_share_an_encoding; reflexivity.
Defined.

(** ** The frame [main] prints *)

Lemma column_names_without labels data :
  column_names (pd.without labels data)
  = List.filter (fun c => negb (existsb (String.eqb c) labels)) (column_names data).
Proof.
  unfold pd.without, column_names.
  induction data as [|[k s] data IH]; [done|]. simpl.
  destruct (existsb (String.eqb k) labels); simpl; by rewrite IH.
Qed.

Lemma has_rows_without n labels data :
  has_rows n data → has_rows n (pd.without labels data).
Proof.
  unfold has_rows, pd.without. rewrite !Forall_forall.
  intros Hn cs Hcs%list_elem_of_In%filter_In. apply Hn, list_elem_of_In, Hcs.
Qed.

Lemma has_column_names data c :
  pd.has_column data c = true ↔ c ∈ column_names data.
Proof. unfold pd.has_column. apply in_labels. Qed.

(** X16.  On a valid training table that has none of the derived columns,
    [main] does not raise: every column it drops is there.  The frame it
    prints has the rows of the table and, in this order, the columns of the
    table other than the eight features, then [y_original], [y_yesterday],
    [y_prev], [hour_of_day], [cos_minute], [sin_minute], [day_of_year],
    [cos_yearday], [sin_yearday], [date] and [daily_mean], each as processed. *)
Theorem main_prints_the_columns_it_keeps (data : DataFrame) :
  valid_input data = true →
  Forall (fun c => pd.has_column data c = false) derived_columns →
  ∃ out self' shown,
    get_processed_data init data = (Ok out, self')
    ∧ main data = Ok shown
    ∧ has_rows (nrows data) shown
    ∧ column_names shown
      = column_names
          (pd.without ["hydro"; "micro"; "thermal"; "wind"; "river"; "total";
                        "sys_reg"; "flow"] data)
        ++ ["y_original"; "y_yesterday"; "y_prev"; "hour_of_day"; "cos_minute";
            "sin_minute"; "day_of_year"; "cos_yearday"; "sin_yearday"; "date";
            "daily_mean"]
    ∧ ∀ c, c ∈ column_names shown → getitem shown c = getitem out c.
Proof.
  intros Hin Hfresh.
  destruct (get_processed_data_succeeds init data eq_refl Hin)
    as (out & self' & Hrun & _).
  destruct (valid_input_rows _ Hin) as [Hn _].
  pose proof (get_processed_data_Ok _ _ _ _ _ Hn Hrun) as Hp.
  pose proof (processed_names _ _ _ _ _ Hp Hfresh) as Hnames.
  set (labels := ["hydro"; "micro"; "thermal"; "wind"; "river"; "total";
                  "sys_reg"; "flow"; "min_of_day"; "day_of_week"; "cos_weekday";
                  "sin_weekday"]).
  assert (Hdrop : pd.drop out labels = Ok (pd.without labels out)).
  { apply drop_Ok, Forall_forall. intros c Hc.
    apply has_column_names. rewrite Hnames, elem_of_app.
    assert (Hc' : c ∈ columns_to_scale ∨ c ∈ derived_columns).
    { revert Hc. unfold labels, columns_to_scale, derived_columns.
      rewrite !elem_of_cons. intros H. 
      repeat (destruct H as [->|H]; [auto 30|]). by apply elem_of_nil in H. }
    destruct Hc' as [Hc'|Hc']; [left | by right].
    destruct (valid_input_numeric data c Hin Hc') as (s & _ & Hs & _).
    apply has_column_names, has_column_getitem. eauto. }
  exists out, self', (pd.without labels out). split; [done|].
  split; [|split; [|split]].
  - unfold main. rewrite Hrun. exact Hdrop.
  - apply has_rows_without, (processed_has_rows Hp).
  - rewrite !column_names_without, Hnames, List.filter_app. f_equal.
    apply filter_ext_in. intros c Hc%list_elem_of_In.
    assert (Hnot : Forall (fun d => c ≠ d) derived_columns).
    { eapply Forall_impl; [exact Hfresh|]. intros d Hd ->.
      apply has_column_names in Hc. congruence. }
    assert (existsb (String.eqb c) ["min_of_day"; "day_of_week"; "cos_weekday";
                                    "sin_weekday"] = false) as Hf.
    { apply not_true_iff_false. intros Hex%in_labels.
      rewrite Forall_forall in Hnot. revert Hex. rewrite !elem_of_cons.
      intros H. repeat (destruct H as [->|H]; [by eapply Hnot; [|reflexivity]; names|]).
      by apply elem_of_nil in H. }
    unfold labels.
    change ["hydro"; "micro"; "thermal"; "wind"; "river"; "total";
            "sys_reg"; "flow"; "min_of_day"; "day_of_week"; "cos_weekday";
            "sin_weekday"]
      with (["hydro"; "micro"; "thermal"; "wind"; "river"; "total";
             "sys_reg"; "flow"] ++ ["min_of_day"; "day_of_week"; "cos_weekday";
            "sin_weekday"]).
    by rewrite existsb_app, Hf, orb_false_r.
  - intros c Hc. apply getitem_without_notin. intros Hlab.
    rewrite column_names_without in Hc.
    apply list_elem_of_In, filter_In in Hc as [_ Hc].
    apply in_labels in Hlab. by rewrite Hlab in Hc.
Qed.

Lemma main_prints_the_columns_it_keeps_witness :
  valid_input sample = true
  ∧ Forall (fun c => pd.has_column sample c = false) derived_columns
  ∧ ∃ out self' shown,
      get_processed_data init sample = (Ok out, self')
      ∧ main sample = Ok shown
      ∧ has_rows (nrows sample) shown
      ∧ column_names shown
        = column_names
            (pd.without ["hydro"; "micro"; "thermal"; "wind"; "river"; "total";
                          "sys_reg"; "flow"] sample)
          ++ ["y_original"; "y_yesterday"; "y_prev"; "hour_of_day"; "cos_minute";
              "sin_minute"; "day_of_year"; "cos_yearday"; "sin_yearday"; "date";
              "daily_mean"]
      ∧ ∀ c, c ∈ column_names shown → getitem shown c = getitem out c.
Proof.
  assert (Hfresh : Forall (fun c => pd.has_column sample c = false) derived_columns).
  { repeat constructor. }
  split; [reflexivity|]. split; [exact Hfresh|].
  apply main_prints_the_columns_it_keeps; [reflexivity | exact Hfresh].
Defined.

(** ** The previous-day mean, once more *)

(** X17.  On a valid input without a column [daily_mean], two rows of the
    same date have the same [daily_mean], and when all rows are of one date
    the whole column is null. *)
Theorem daily_mean_is_shared_within_a_date (self : DataLoader) (data : DataFrame) :
  valid_loader self = true → valid_input data = true →
  pd.has_column data "daily_mean" = false →
  ∃ out self' ts dm,
    get_processed_data self data = (Ok out, self')
    ∧ getitem data "start_time" = Ok (Times ts)
    ∧ getitem out "daily_mean" = Ok (Floats dm)
    ∧ length dm = length ts
    ∧ (∀ i j ti tj, ts !! i = Some ti → ts !! j = Some tj →
         pd.dt_date ti = pd.dt_date tj → dm !! i = dm !! j)
    ∧ ((∀ t, t ∈ ts → ∀ t', t' ∈ ts → pd.dt_date t = pd.dt_date t') →
       dm = replicate (length ts) NaN).
Proof.
  intros Hv Hin Hfresh.
  destruct (get_processed_data_succeeds self data Hv Hin) as (out & self' & Hrun & _).
  destruct (valid_input_rows _ Hin) as [Hn _].
  destruct (processed_daily_mean (get_processed_data_Ok _ _ _ _ _ Hn Hrun) Hfresh)
    as (ts & ys & Hts & Hlts & Hys & Hlys & Hdate & Hdm).
  apply bind_Ok in Hts as (st & Hst & Hts). destruct st; try done.
  injection Hts as ->.
  exists out, self', ts, (daily_mean_column (pd.dt_date <$> ts) ys).
  repeat (split; [done|]).
  split; [by rewrite daily_mean_column_length, length_fmap|]. split.
  - intros i j ti tj Hi Hj Heq.
    rewrite (daily_mean_column_lookup _ _ i (pd.dt_date ti)).
    2:{ apply list_lookup_fmap_Some. by exists ti. }
    rewrite (daily_mean_column_lookup _ _ j (pd.dt_date tj)).
    2:{ apply list_lookup_fmap_Some. by exists tj. }
    by rewrite Heq.
  - intros Hone. apply list_eq_same_length with (length ts).
    + by rewrite length_replicate.
    + by rewrite daily_mean_column_length, length_fmap.
    + intros i x x' Hi Hx Hx'.
      apply lookup_replicate in Hx' as [-> _].
      destruct (lookup_lt_is_Some_2 ts i Hi) as [t Ht].
      rewrite (daily_mean_first _ _ i (pd.dt_date t)) in Hx.
      * by injection Hx as <-.
      * apply list_lookup_fmap_Some. by exists t.
      * intros q (t' & -> & Ht')%list_elem_of_fmap.
        rewrite (Hone t (list_elem_of_lookup_2 _ _ _ Ht) t' Ht'). lia.
Qed.

Lemma daily_mean_is_shared_within_a_date_witness :
  valid_loader init = true ∧ valid_input sample = true
  ∧ pd.has_column sample "daily_mean" = false
  ∧ ∃ out self' ts dm,
      get_processed_data init sample = (Ok out, self')
      ∧ getitem sample "start_time" = Ok (Times ts)
      ∧ getitem out "daily_mean" = Ok (Floats dm)
      ∧ length dm = length ts
      ∧ (∀ i j ti tj, ts !! i = Some ti → ts !! j = Some tj →
           pd.dt_date ti = pd.dt_date tj → dm !! i = dm !! j)
      ∧ ((∀ t, t ∈ ts → ∀ t', t' ∈ ts → pd.dt_date t = pd.dt_date t') →
         dm = replicate (length ts) NaN).
Proof.
  split; [reflexivity|]. split; [reflexivity|]. split; [reflexivity|].
  apply daily_mean_is_shared_within_a_date; reflexivity.
Defined.

Lemma getitem_suffixed (left d : DataFrame) old :
  pd.has_column left "daily_mean" = true →
  getitem d "daily_mean" = Ok old → pd.has_column d "daily_mean_x" = false →
  getitem ((fun cs => (left_name left cs.1, cs.2)) <$> d) "daily_mean"
  = Raise (KeyError "daily_mean")
  ∧ getitem ((fun cs => (left_name left cs.1, cs.2)) <$> d) "daily_mean_x" = Ok old.
Proof.
  intros Hleft Hold Hx%has_column_false. unfold left_name. rewrite Hleft.
  induction d as [|[k s] d IH]; [done|].
  rewrite fmap_cons. cbn [getitem fst snd] in *.
  destruct (String.eqb k "daily_mean") eqn:E; cbn [andb].
  - injection Hold as ->. split; [|done].
    change (String.eqb "daily_mean_x" "daily_mean") with false. cbv iota.
    clear. induction d as [|[k s] d IH]; [done|].
    rewrite fmap_cons. cbn [getitem fst snd].
    destruct (String.eqb k "daily_mean") eqn:E; cbn [andb]; [done|].
    by rewrite E.
  - rewrite E. destruct (String.eqb k "daily_mean_x"); [done|]. by apply IH.
Qed.

(** X18.  On a valid input that already has a column [daily_mean] (and no
    [daily_mean_x] or [daily_mean_y]), the merge does not overwrite it: the
    output has no column [daily_mean], the input's column is [daily_mean_x]
    and the previous-day means are [daily_mean_y]. *)
Theorem existing_daily_mean_is_kept_apart (self : DataLoader) (data : DataFrame)
  (old : Series) :
  valid_loader self = true → valid_input data = true →
  getitem data "daily_mean" = Ok old →
  pd.has_column data "daily_mean_x" = false →
  pd.has_column data "daily_mean_y" = false →
  ∃ out self' ts ys,
    get_processed_data self data = (Ok out, self')
    ∧ getitem data "start_time" = Ok (Times ts)
    ∧ getitem out "y" = Ok (Floats ys)
    ∧ getitem out "daily_mean" = Raise (KeyError "daily_mean")
    ∧ getitem out "daily_mean_x" = Ok old
    ∧ getitem out "daily_mean_y"
      = Ok (Floats (daily_mean_column (pd.dt_date <$> ts) ys)).
Proof.
  intros Hv Hin Hold Hx Hy.
  destruct (get_processed_data_succeeds self data Hv Hin) as (out & self' & Hrun & _).
  destruct (valid_input_rows _ Hin) as [Hn _].
  pose proof (get_processed_data_Ok _ _ _ _ _ Hn Hrun) as Hp.
  destruct (processed_lags Hp) as (ys' & Hys' & Hlys' & _).
  destruct Hp as [y0 y w X X' ys calendar scaled lagged
                    Hy0 Hy_ Hw HX HX' Htr Hfit Hys Hcal Hn3 Hn9 Hout ts0 Hts0 Hfeat].
  set (d9 := assign_all lagged calendar) in *.
  assert (Hother : ∀ c, c ∉ written_columns → getitem d9 c = getitem data c).
  { intros c Hc. unfold written_columns in Hc.
    rewrite not_elem_of_cons, !not_elem_of_app in Hc.
    destruct Hc as (Hc0 & Hc1 & Hc2 & Hc3 & Hc4).
    unfold d9. rewrite getitem_assign_all_other by (by rewrite Hcal).
    unfold lagged. rewrite getitem_assign_all_other by done.
    unfold scaled. rewrite getitem_setitems_other by done.
    rewrite !getitem_setitem_ne; [done | done |].
    intros <-. apply Hc1. names. }
  assert (Hsame : ∀ c, c ∈ ["daily_mean"; "daily_mean_x"; "daily_mean_y"] →
            getitem d9 c = getitem data c).
  { intros c Hc. rewrite !elem_of_cons in Hc.
    destruct Hc as [->|[->|[->|Hc]]]; [| | |by apply elem_of_nil in Hc];
      unfold d9;
      (rewrite getitem_assign_all_other by (rewrite Hcal; names));
      unfold lagged; (rewrite getitem_assign_all_other by names);
      unfold scaled; (rewrite getitem_setitems_other by names);
      by rewrite !getitem_setitem_ne by done. }
  destruct (add_shifted_daily_mean_Ok _ _ _ Hn9 Hout)
    as (st & ts & y9 & ys9 & Hst & Hts & Hy9 & Hys9 & Hlts & Hlys9 & Heq).
  rewrite Hother in Hst by names. destruct st; try done. injection Hts as ->.
  destruct (keeps_rows_add_shifted_daily_mean _ _ _ Hn9 Hout) as [_ Hlast].
  pose proof Hys' as Hyout.
  rewrite Hlast, Hy9 in Hys' by names. injection Hys' as ->.
  cbn [as_floats] in Hys9. injection Hys9 as <-.
  assert (Hleft : pd.has_column d9 "daily_mean" = true).
  { apply has_column_getitem. exists old. rewrite Hsame; [done | names]. }
  destruct (getitem_suffixed d9 (setitem d9 "date" (Dates (pd.dt_date <$> ts))) old)
    as [Hdm Hdmx]; [done | | |].
  { rewrite getitem_setitem_ne by done. rewrite Hsame; [done | names]. }
  { rewrite has_column_setitem_ne by done. apply has_column_false.
    apply has_column_false in Hx. rewrite Hsame; [done | names]. }
  exists out, self', ts, ys'. do 3 (split; [done|]).
  subst out. rewrite !getitem_app, Hdm, Hdmx. unfold means_name. rewrite Hleft.
  rewrite getitem_renamed by (intros k; apply left_name_other; names).
  rewrite getitem_setitem_ne by done. rewrite Hsame by names.
  apply has_column_false in Hy. by rewrite Hy.
Qed.

Lemma existing_daily_mean_is_kept_apart_witness :
  valid_loader init = true
  ∧ valid_input (setitem sample "daily_mean" (constant 5 0%Q)) = true
  ∧ getitem (setitem sample "daily_mean" (constant 5 0%Q)) "daily_mean"
    = Ok (constant 5 0%Q)
  ∧ pd.has_column (setitem sample "daily_mean" (constant 5 0%Q)) "daily_mean_x"
    = false
  ∧ pd.has_column (setitem sample "daily_mean" (constant 5 0%Q)) "daily_mean_y"
    = false
  ∧ ∃ out self' ts ys,
      get_processed_data init (setitem sample "daily_mean" (constant 5 0%Q))
      = (Ok out, self')
      ∧ getitem (setitem sample "daily_mean" (constant 5 0%Q)) "start_time"
        = Ok (Times ts)
      ∧ getitem out "y" = Ok (Floats ys)
      ∧ getitem out "daily_mean" = Raise (KeyError "daily_mean")
      ∧ getitem out "daily_mean_x" = Ok (constant 5 0%Q)
      ∧ getitem out "daily_mean_y"
        = Ok (Floats (daily_mean_column (pd.dt_date <$> ts) ys)).
Proof.
  split; [reflexivity|]. split; [reflexivity|]. split; [reflexivity|].
  split; [reflexivity|]. split; [reflexivity|].
  apply existing_daily_mean_is_kept_apart; reflexivity.
Defined.

(** ** The two lag stages *)

(** X19.  The two lag stages can be swapped: [shift_y] before
    [add_shifted_daily_value] returns a frame with the same columns, row for
    row, as the order the preprocessing runs them in; only the order of the
    two new columns differs. *)
Theorem lag_stages_commute_up_to_column_order (data out : DataFrame) :
  (d ← add_shifted_daily_value data; shift_y d) = Ok out →
  ∃ out',
    (d ← shift_y data; add_shifted_daily_value d) = Ok out'
    ∧ (∀ c, getitem out' c = getitem out c)
    ∧ (pd.has_column data "y_prev" = false →
       pd.has_column data "y_yesterday" = false →
       column_names out = column_names data ++ ["y_yesterday"; "y_prev"]
       ∧ column_names out' = column_names data ++ ["y_prev"; "y_yesterday"]).
Proof.
  intros (d & Hd & Hout)%bind_Ok.
  unfold add_shifted_daily_value in Hd. unfold shift_y in Hout.
  apply bind_Ok in Hd as (s & Hs & (y & Hy & [= <-])%bind_Ok).
  rewrite getitem_setitem_ne, Hs in Hout by done.
  cbn [mbind result_bind] in Hout. rewrite Hy in Hout. injection Hout as <-.
  eexists. split; [|split].
  - unfold shift_y, add_shifted_daily_value. rewrite Hs. cbn [mbind result_bind].
    rewrite Hy. cbn [mbind result_bind].
    rewrite getitem_setitem_ne, Hs by done. cbn [mbind result_bind].
    by rewrite Hy.
  - intros c. destruct (decide (c = "y_prev")) as [->|Hp].
    + rewrite getitem_setitem_eq, getitem_setitem_ne by done.
      by rewrite getitem_setitem_eq.
    + destruct (decide (c = "y_yesterday")) as [->|Hy'].
      * rewrite getitem_setitem_eq, getitem_setitem_ne by done.
        by rewrite getitem_setitem_eq.
      * by rewrite !getitem_setitem_ne by done.
  - intros Hp Hy'. rewrite !column_names_setitem.
    rewrite !has_column_setitem_ne by done. rewrite Hp, Hy'.
    by rewrite <- !app_assoc.
Qed.

Lemma lag_stages_commute_up_to_column_order_witness :
  (d ← add_shifted_daily_value sample; shift_y d)
  = Ok (setitem
          (setitem sample "y_yesterday"
             (Floats (pd.shift 288 [Some 10%Q; Some 20%Q; Some 30%Q; Some 25%Q;
                                    Some 5%Q])))
          "y_prev"
          (Floats (pd.shift 1 [Some 10%Q; Some 20%Q; Some 30%Q; Some 25%Q;
                               Some 5%Q])))
  ∧ ∃ out',
      (d ← shift_y sample; add_shifted_daily_value d) = Ok out'
      ∧ (∀ c, getitem out' c
              = getitem
                  (setitem
                     (setitem sample "y_yesterday"
                        (Floats (pd.shift 288 [Some 10%Q; Some 20%Q; Some 30%Q;
                                               Some 25%Q; Some 5%Q])))
                     "y_prev"
                     (Floats (pd.shift 1 [Some 10%Q; Some 20%Q; Some 30%Q;
                                          Some 25%Q; Some 5%Q]))) c)
      ∧ (pd.has_column sample "y_prev" = false →
         pd.has_column sample "y_yesterday" = false →
         column_names
           (setitem
              (setitem sample "y_yesterday"
                 (Floats (pd.shift 288 [Some 10%Q; Some 20%Q; Some 30%Q;
                                        Some 25%Q; Some 5%Q])))
              "y_prev"
              (Floats (pd.shift 1 [Some 10%Q; Some 20%Q; Some 30%Q; Some 25%Q;
                                   Some 5%Q])))
         = column_names sample ++ ["y_yesterday"; "y_prev"]
         ∧ column_names out' = column_names sample ++ ["y_prev"; "y_yesterday"]).
Proof.
  split; [reflexivity|].
  apply (lag_stages_commute_up_to_column_order sample). reflexivity.
Defined.

(** ** What the output depends on *)

Lemma getitem_setitem_agree d1 d2 k s c :
  k = c ∨ getitem d1 c = getitem d2 c →
  getitem (setitem d1 k s) c = getitem (setitem d2 k s) c.
Proof.
  destruct (decide (k = c)) as [->|Hne].
  - by rewrite !getitem_setitem_eq.
  - intros [?|H]; [done|]. by rewrite !getitem_setitem_ne.
Qed.

Lemma getitem_assign_all_agree d1 d2 kvs c :
  c ∈ kvs.*1 ∨ getitem d1 c = getitem d2 c →
  getitem (assign_all d1 kvs) c = getitem (assign_all d2 kvs) c.
Proof.
  unfold assign_all. revert d1 d2.
  induction kvs as [|[k s] kvs IH]; intros d1 d2 H; simpl.
  - destruct H as [H|H]; [by apply elem_of_nil in H | done].
  - apply IH. destruct (decide (c ∈ kvs.*1)) as [Hin|Hnin]; [by left|].
    right. apply getitem_setitem_agree.
    destruct H as [H|H]; [|by right]. simpl in H.
    apply elem_of_cons in H as [->|H]; [by left | done].
Qed.

Lemma getitem_setitems_agree d1 d2 columns X c :
  getitem d1 c = getitem d2 c →
  getitem (setitems d1 columns X) c = getitem (setitems d2 columns X) c.
Proof.
  unfold setitems. generalize (zip columns X). intros kvs. revert d1 d2.
  induction kvs as [|[k col] kvs IH]; intros d1 d2 H; [done|].
  simpl. apply IH, getitem_setitem_agree. by right.
Qed.

(** X20.  The output depends on the ten required columns alone: two valid
    inputs without a column [daily_mean] that agree on [start_time] and the
    nine scaled columns, processed by the same loader, leave the same loader
    and get the same scaled and derived columns, whatever other columns they
    hold. *)
Theorem output_depends_on_the_required_columns_only (self : DataLoader)
  (data1 data2 : DataFrame) :
  valid_loader self = true →
  valid_input data1 = true → valid_input data2 = true →
  pd.has_column data1 "daily_mean" = false →
  pd.has_column data2 "daily_mean" = false →
  (∀ c, c ∈ "start_time" :: columns_to_scale →
        getitem data1 c = getitem data2 c) →
  ∃ out1 out2 self',
    get_processed_data self data1 = (Ok out1, self')
    ∧ get_processed_data self data2 = (Ok out2, self')
    ∧ ∀ c, c ∈ columns_to_scale ++ derived_columns →
        getitem out1 c = getitem out2 c.
Proof.
  intros Hv Hin1 Hin2 Hf1 Hf2 Hsame.
  destruct (get_processed_data_succeeds _ _ Hv Hin1) as (out1 & s1 & Hrun1 & _).
  destruct (get_processed_data_succeeds _ _ Hv Hin2) as (out2 & s2 & Hrun2 & _).
  destruct (valid_input_rows _ Hin1) as [Hn1 _].
  destruct (valid_input_rows _ Hin2) as [Hn2 _].
  pose proof (get_processed_data_Ok _ _ _ _ _ Hn1 Hrun1) as Hp1.
  pose proof (get_processed_data_Ok _ _ _ _ _ Hn2 Hrun2) as Hp2.
  destruct (processed_daily_mean Hp1 Hf1)
    as (ts1 & ys1 & Hts1 & _ & Hys1 & _ & Hdate1 & Hdm1).
  destruct (processed_daily_mean Hp2 Hf2)
    as (ts2 & ys2 & Hts2 & _ & Hys2 & _ & Hdate2 & Hdm2).
  rewrite (Hsame "start_time"), Hts2 in Hts1 by constructor.
  injection Hts1 as <-.
  pose proof Hp1 as Hq1. pose proof Hp2 as Hq2.
  destruct Hq1 as [y0 y w X X' ys calendar scaled lagged
                     Hy0 Hy Hw HX HX' Htr Hfit Hys Hcal Hn3 Hn9 Hout ts Hts ->].
  destruct Hq2 as [y0_ y_ w_ X_ X'_ ys_ calendar_ scaled_ lagged_
                     Hy0_ Hy_ Hw_ HX_ HX'_ Htr_ Hfit_ Hys_ Hcal_ Hn3_ Hn9_ Hout_
                     ts_ Hts_ ->].
  rewrite Hts2 in Hts_. injection Hts_ as <-.
  rewrite (Hsame "start_time"), Hts2 in Hts by constructor. injection Hts as <-.
  rewrite (Hsame "y"), Hy0_ in Hy0 by names. injection Hy0 as <-.
  rewrite Hy_ in Hy. injection Hy as <-. rewrite Hw_ in Hw. injection Hw as <-.
  assert (X = X_) as ->.
  { assert (Ok X = Ok X_) as [= ->]; [|done]. rewrite <- HX, <- HX_.
    apply getitems_ext. intros c Hc. apply getitem_setitem_agree. right.
    apply Hsame. by constructor. }
  assert (s1 = s2) as ->.
  { destruct (scaler_is_trained self); [congruence|].
    rewrite Hfit_ in Hfit. injection Hfit as Hsc.
    destruct s1 as [sc1 tr1], s2 as [sc2 tr2]. simpl in *. congruence. }
  rewrite HX'_ in HX'. injection HX' as <-.
  assert (Hscaled : ∀ c, c ∈ "y_original" :: columns_to_scale →
            getitem scaled c = getitem scaled_ c).
  { intros c Hc. unfold scaled, scaled_.
    apply getitem_setitems_agree, getitem_setitem_agree.
    destruct (decide ("y" = c)) as [|Hne]; [by left | right].
    apply getitem_setitem_agree.
    apply elem_of_cons in Hc as [->|Hc]; [by left | right].
    apply Hsame. by constructor. }
  assert (ys = ys_) as ->.
  { rewrite Hscaled, Hys_ in Hys by names. by injection Hys as <-. }
  exists out1, out2, s2. split; [done|]. split; [done|].
  intros c Hc.
  destruct (decide (c ∈ ["date"; "daily_mean"])) as [Hlast|Hlast].
  { assert (ys1 = ys2) as ->.
    { destruct (keeps_rows_add_shifted_daily_mean _ _ _ Hn9 Hout) as [_ H1].
      destruct (keeps_rows_add_shifted_daily_mean _ _ _ Hn9_ Hout_) as [_ H2].
      rewrite H1 in Hys1 by names. rewrite H2 in Hys2 by names.
      rewrite getitem_assign_all_other in Hys1, Hys2 by names.
      unfold lagged in Hys1. unfold lagged_ in Hys2.
      rewrite getitem_assign_all_other in Hys1, Hys2 by names.
      rewrite Hscaled, Hys2 in Hys1 by names. by injection Hys1 as <-. }
    apply elem_of_cons in Hlast as [->|Hlast]; [congruence|].
    apply elem_of_cons in Hlast as [->|Hlast]; [congruence|].
    by apply elem_of_nil in Hlast. }
  assert (Hc' : c ∉ ["date"; "daily_mean"; "daily_mean_x"; "daily_mean_y"]).
  { intros H. apply Hlast. revert H. rewrite !elem_of_cons.
    intros [->|[->|[->|[->|H]]]]; [tauto | tauto | | |by apply elem_of_nil in H];
      revert Hc; names. }
  destruct (keeps_rows_add_shifted_daily_mean _ _ _ Hn9 Hout) as [_ ->]; [|done].
  destruct (keeps_rows_add_shifted_daily_mean _ _ _ Hn9_ Hout_) as [_ ->]; [|done].
  apply getitem_assign_all_agree.
  destruct (decide (c ∈ (calendar_features ts2).*1)) as [|Hcal']; [by left | right].
  unfold lagged, lagged_. apply getitem_assign_all_agree.
  destruct (decide (c ∈ ["y_yesterday"; "y_prev"])) as [|Hlag]; [by left | right].
  apply Hscaled. rewrite Hcal in Hcal'.
  revert Hc Hlast Hcal' Hlag. unfold derived_columns, calendar_columns.
  rewrite elem_of_app, !elem_of_cons. tauto.
Qed.

Lemma output_depends_on_the_required_columns_only_witness :
  valid_loader init = true ∧ valid_input sample = true
  ∧ valid_input (sample ++ [("note", constant 5 7%Q)]) = true
  ∧ pd.has_column sample "daily_mean" = false
  ∧ pd.has_column (sample ++ [("note", constant 5 7%Q)]) "daily_mean" = false
  ∧ (∀ c, c ∈ "start_time" :: columns_to_scale →
          getitem sample c = getitem (sample ++ [("note", constant 5 7%Q)]) c)
  ∧ ∃ out1 out2 self',
      get_processed_data init sample = (Ok out1, self')
      ∧ get_processed_data init (sample ++ [("note", constant 5 7%Q)])
        = (Ok out2, self')
      ∧ ∀ c, c ∈ columns_to_scale ++ derived_columns →
          getitem out1 c = getitem out2 c.
Proof.
  assert (Hsame : ∀ c, c ∈ "start_time" :: columns_to_scale →
            getitem sample c = getitem (sample ++ [("note", constant 5 7%Q)]) c).
  { intros c Hc. unfold columns_to_scale in Hc. rewrite !elem_of_cons in Hc.
    repeat (destruct Hc as [->|Hc]; [reflexivity|]). by apply elem_of_nil in Hc. }
  split; [reflexivity|]. split; [reflexivity|]. split; [reflexivity|].
  split; [reflexivity|]. split; [reflexivity|]. split; [exact Hsame|].
  apply output_depends_on_the_required_columns_only;
    [reflexivity | reflexivity | reflexivity | reflexivity | reflexivity | exact Hsame].
Defined.
